(** * Math-Arena: the question generator, the monster factory, the monster
      entity, the simulation engine and the progression store.

    The TypeScript sources are embedded as Rocq functions:
    - JavaScript numbers that hold counters, waves, timestamps and question
      operands are integers ([Z]); positions, speeds and sizes are
      rationals ([Q]), the exact-arithmetic reading of the doubles;
    - [Math.random()] is read from a stream of draws threaded through a
      small state monad ([Gen]);
    - [Date.now()] is an argument [now] of every operation that reads the
      clock (all the reads of one synchronous call return the same
      millisecond);
    - the callbacks an engine operation fires, and the position updates it
      performs, are returned as a log of [Action]s in the order they
      happen. *)

From Stdlib Require Import ZArith QArith Qround Qminmax List String Ascii Bool Lia Lqa.
From Stdlib Require Import DecimalString Sorted.
From Stdlib Require DecimalZ Finite.
Import ListNotations.

Local Open Scope string_scope.
Local Open Scope Z_scope.

(** ** JavaScript primitives *)

Module Js.

(** The stream of values successive calls of [Math.random()] return. *)
Definition Rng := nat -> Q.

(** [Math.random()] returns a number in [[0, 1)]. *)
Definition unit_interval (rng : Rng) : Prop :=
  forall i : nat, (0 <= rng i)%Q /\ (rng i < 1)%Q.

(** Code that draws random numbers: it reads the stream at a cursor and
    moves the cursor on. *)
Definition Gen (A : Type) : Type := Rng -> nat -> A * nat.

Definition ret {A : Type} (a : A) : Gen A := fun _ i => (a, i).

Definition bind {A B : Type} (m : Gen A) (k : A -> Gen B) : Gen B :=
  fun rng i => let (a, j) := m rng i in k a rng j.

Definition Math_random : Gen Q := fun rng i => (rng i, S i).

Definition Math_floor (q : Q) : Z := Qfloor q.

(** [Math.floor(Math.random() * n)] *)
Definition random_below (n : Z) : Gen Z :=
  bind Math_random (fun r => ret (Math_floor (r * inject_Z n))).

(** Template-literal rendering of an integer-valued number. *)
Definition show (z : Z) : string := NilZero.string_of_int (Z.to_int z).

(** [arr[k]] on an array of strings; an index out of range reads
    [undefined]. *)
Definition index (arr : list string) (k : Z) : string :=
  if k <? 0 then "undefined" else nth (Z.to_nat k) arr "undefined".

Definition run {A : Type} (m : Gen A) (rng : Rng) : A := fst (m rng 0%nat).

(** [s.padStart(n, "0")] *)
Definition padStart (n : nat) (s : string) : string :=
  let fix zeros (k : nat) : string :=
    match k with O => "" | S k' => String "0" (zeros k') end in
  zeros (n - String.length s)%nat ++ s.

End Js.

Notation "x <- m ;; k" := (Js.bind m (fun x => k))
  (at level 61, m at next level, right associativity).

(** ** lib/QuestionGenerator.ts *)

Module QuestionGenerator.
Import Js.

Inductive Difficulty : Type := easy | medium | hard.

Definition difficulty_name (d : Difficulty) : string :=
  match d with easy => "easy" | medium => "medium" | hard => "hard" end.

Record Question : Type := mkQuestion {
  id : string;
  text : string;
  answer : Z;
  difficulty : Difficulty;
  type : string;
  timeLimit : Z;
  explanation : option string;
  category : option string
}.

Definition adjustDifficultyForWave (baseDifficulty : string) (wave : Z) : Difficulty :=
  if wave <=? 3 then easy
  else if wave <=? 6 then (if String.eqb baseDifficulty "easy" then easy else medium)
  else if wave <=? 10 then (if String.eqb baseDifficulty "easy" then medium else hard)
  else hard.

Definition getQuestionTypes (d : Difficulty) : list string :=
  match d with
  | easy => ["addition"; "subtraction"; "multiplication"]
  | medium => ["addition"; "subtraction"; "multiplication"; "division";
               "fractions"; "decimals"; "word_problem"]
  | hard => ["addition"; "subtraction"; "multiplication"; "division"; "mixed";
             "fractions"; "decimals"; "percentages"; "word_problem"; "algebra";
             "geometry"]
  end.

Definition createAdditionQuestion (id : string) (d : Difficulty) (timeLimit : Z)
  : Gen Question :=
  ab <- match d with
        | easy => a <- random_below 20 ;; b <- random_below 20 ;; ret (a + 1, b + 1)
        | medium => a <- random_below 50 ;; b <- random_below 50 ;; ret (a + 10, b + 10)
        | hard => a <- random_below 100 ;; b <- random_below 100 ;; ret (a + 20, b + 20)
        end ;;
  let (a, b) := (ab : Z * Z) in
  ret {| id := id;
         text := show a ++ " + " ++ show b ++ " = ?";
         answer := a + b;
         difficulty := d;
         type := "addition";
         timeLimit := timeLimit;
         explanation := None;
         category := Some "arithmetic" |}.

Definition createSubtractionQuestion (id : string) (d : Difficulty) (timeLimit : Z)
  : Gen Question :=
  ab <- match d with
        | easy => a <- random_below 20 ;; b <- random_below 10 ;; ret (a + 10, b + 1)
        | medium => a <- random_below 50 ;; b <- random_below 25 ;; ret (a + 25, b + 5)
        | hard => a <- random_below 100 ;; b <- random_below 50 ;; ret (a + 50, b + 10)
        end ;;
  (* Ensure positive result: if (b > a) [a, b] = [b, a] *)
  let (a, b) := (let (a, b) := (ab : Z * Z) in if b >? a then (b, a) else (a, b)) in
  ret {| id := id;
         text := show a ++ " - " ++ show b ++ " = ?";
         answer := a - b;
         difficulty := d;
         type := "subtraction";
         timeLimit := timeLimit;
         explanation := None;
         category := Some "arithmetic" |}.

Definition createMultiplicationQuestion (id : string) (d : Difficulty) (timeLimit : Z)
  : Gen Question :=
  ab <- match d with
        | easy => a <- random_below 5 ;; b <- random_below 5 ;; ret (a + 2, b + 2)
        | medium => a <- random_below 8 ;; b <- random_below 8 ;; ret (a + 3, b + 3)
        | hard => a <- random_below 10 ;; b <- random_below 10 ;; ret (a + 5, b + 5)
        end ;;
  let (a, b) := (ab : Z * Z) in
  ret {| id := id;
         text := show a ++ " × " ++ show b ++ " = ?";
         answer := a * b;
         difficulty := d;
         type := "multiplication";
         timeLimit := timeLimit;
         explanation := None;
         category := Some "arithmetic" |}.

(** The two draws of [createDivisionQuestion]: divisor, then quotient. *)
Definition divisionOperands (d : Difficulty) : Gen (Z * Z) :=
  match d with
  | easy => divisor <- random_below 5 ;; quotient <- random_below 10 ;;
            ret (divisor + 2, quotient + 1)
  | medium => divisor <- random_below 8 ;; quotient <- random_below 15 ;;
              ret (divisor + 2, quotient + 2)
  | hard => divisor <- random_below 10 ;; quotient <- random_below 20 ;;
            ret (divisor + 3, quotient + 5)
  end.

Definition createDivisionQuestion (id : string) (d : Difficulty) (timeLimit : Z)
  : Gen Question :=
  dq <- divisionOperands d ;;
  let (divisor, quotient) := (dq : Z * Z) in
  let dividend := divisor * quotient in (* Ensure exact division *)
  ret {| id := id;
         text := show dividend ++ " ÷ " ++ show divisor ++ " = ?";
         answer := quotient;
         difficulty := d;
         type := "division";
         timeLimit := timeLimit;
         explanation := None;
         category := Some "arithmetic" |}.

Definition operations : list string := ["+"; "-"; "×"].

(** The five draws of [createMixedQuestion]: the two operators, then the
    three operands. *)
Definition mixedOperands (d : Difficulty) : Gen (string * string * (Z * Z * Z)) :=
  i1 <- random_below (Z.of_nat (List.length operations)) ;;
  i2 <- random_below (Z.of_nat (List.length operations)) ;;
  abc <- match d with
         | easy => a <- random_below 10 ;; b <- random_below 10 ;;
                   c <- random_below 10 ;; ret (a + 1, b + 1, c + 1)
         | medium => a <- random_below 15 ;; b <- random_below 15 ;;
                     c <- random_below 15 ;; ret (a + 2, b + 2, c + 2)
         | hard => a <- random_below 20 ;; b <- random_below 20 ;;
                   c <- random_below 20 ;; ret (a + 5, b + 5, c + 5)
         end ;;
  ret (index operations i1, index operations i2, abc).

(** The result and the text [createMixedQuestion] computes from the drawn
    operators and operands. *)
Definition mixedResult (op1 op2 : string) (a b c : Z) : Z * string :=
  if (op1 =? "×")%string || (op2 =? "×")%string then
    (* Handle multiplication first (order of operations) *)
    if (op1 =? "×")%string then
      let temp := a * b in
      (if (op2 =? "+")%string then temp + c else temp - c,
       show a ++ " × " ++ show b ++ " " ++ op2 ++ " " ++ show c ++ " = ?")
    else
      let temp := b * c in
      (if (op1 =? "+")%string then a + temp else a - temp,
       show a ++ " " ++ op1 ++ " " ++ show b ++ " × " ++ show c ++ " = ?")
  else
    (* Only addition and subtraction, left to right *)
    let temp := if (op1 =? "+")%string then a + b else a - b in
    (if (op2 =? "+")%string then temp + c else temp - c,
     show a ++ " " ++ op1 ++ " " ++ show b ++ " " ++ op2 ++ " " ++ show c ++ " = ?").

Definition createMixedQuestion (id : string) (d : Difficulty) (timeLimit : Z)
  : Gen Question :=
  ops <- mixedOperands d ;;
  let '(op1, op2, (a, b, c)) := (ops : string * string * (Z * Z * Z)) in
  let (result, questionText) := mixedResult op1 op2 a b c in
  (* Ensure positive result for easier gameplay *)
  if result <? 0 then createAdditionQuestion id d timeLimit
  else
    ret {| id := id;
           text := questionText;
           answer := result;
           difficulty := d;
           type := "mixed";
           timeLimit := timeLimit;
           explanation := None;
           category := Some "arithmetic" |}.

(** The generators of the extended categories (fractions, decimals,
    percentages, word problems, algebra, geometry) round doubles and print
    them; they stay abstract here, and every statement below holds for any
    choice of them. *)
Record ExtendedGenerators : Type := {
  createFractionsQuestion : string -> Difficulty -> Z -> Gen Question;
  createDecimalsQuestion : string -> Difficulty -> Z -> Gen Question;
  createPercentagesQuestion : string -> Difficulty -> Z -> Gen Question;
  createWordProblemQuestion : string -> Difficulty -> Z -> Gen Question;
  createAlgebraQuestion : string -> Difficulty -> Z -> Gen Question;
  createGeometryQuestion : string -> Difficulty -> Z -> Gen Question
}.

Section Generator.

Variable ext : ExtendedGenerators.

Definition createQuestion (id type : string) (d : Difficulty) (timeLimit : Z)
  : Gen Question :=
  if (type =? "addition")%string then createAdditionQuestion id d timeLimit
  else if (type =? "subtraction")%string then createSubtractionQuestion id d timeLimit
  else if (type =? "multiplication")%string then createMultiplicationQuestion id d timeLimit
  else if (type =? "division")%string then createDivisionQuestion id d timeLimit
  else if (type =? "mixed")%string then createMixedQuestion id d timeLimit
  else if (type =? "fractions")%string then createFractionsQuestion ext id d timeLimit
  else if (type =? "decimals")%string then createDecimalsQuestion ext id d timeLimit
  else if (type =? "percentages")%string then createPercentagesQuestion ext id d timeLimit
  else if (type =? "word_problem")%string then createWordProblemQuestion ext id d timeLimit
  else if (type =? "algebra")%string then createAlgebraQuestion ext id d timeLimit
  else if (type =? "geometry")%string then createGeometryQuestion ext id d timeLimit
  else createAdditionQuestion id d timeLimit.

(** [generateQuestion] on a generator whose counter is [questionCount]:
    the new counter and the question. *)
Definition generateQuestion (questionCount now : Z) (d : Difficulty) (wave : Z)
  : Gen (Z * Question) :=
  let questionCount := questionCount + 1 in
  let id := "q_" ++ show questionCount ++ "_" ++ show now in
  (* Time limits based on difficulty *)
  let timeLimit := match d with easy => 30000 | medium => 20000 | hard => 15000 end in
  (* Adjust difficulty based on wave progression *)
  let effectiveDifficulty := adjustDifficultyForWave (difficulty_name d) wave in
  let questionTypes := getQuestionTypes effectiveDifficulty in
  k <- random_below (Z.of_nat (List.length questionTypes)) ;;
  q <- createQuestion id (index questionTypes k) effectiveDifficulty timeLimit ;;
  ret (questionCount, q).

(** The loop of [generateQuestionBatch], with [n] iterations to go. *)
Fixpoint generateQuestions (n : nat) (questionCount now : Z) (d : Difficulty) (wave : Z)
  : Gen (Z * list Question) :=
  match n with
  | O => ret (questionCount, [])
  | S n' =>
      r <- generateQuestion questionCount now d wave ;;
      let (questionCount1, q) := (r : Z * Question) in
      rest <- generateQuestions n' questionCount1 now d wave ;;
      let (questionCount2, questions) := (rest : Z * list Question) in
      ret (questionCount2, q :: questions)
  end.

(** [generateQuestionBatch(count, difficulty, wave)]: the new counter and the
    questions, in the order they are pushed. *)
Definition generateQuestionBatch (questionCount now count : Z) (d : Difficulty) (wave : Z)
  : Gen (Z * list Question) :=
  generateQuestions (Z.to_nat count) questionCount now d wave.

End Generator.

(** The value of the displayed expression [a op1 b op2 c] under the standard
    precedence: a multiplication is carried out before an addition or a
    subtraction, operators of equal precedence from left to right. *)
Definition apply_op (op : string) (x y : Z) : Z :=
  if (op =? "×")%string then x * y
  else if (op =? "+")%string then x + y
  else x - y.

Definition standard_value (op1 op2 : string) (a b c : Z) : Z :=
  if (op2 =? "×")%string && negb (op1 =? "×")%string
  then apply_op op1 a (b * c)
  else apply_op op2 (apply_op op1 a b) c.

(** A stand-in for the extended generators, for closed examples: the easy
    and the arithmetic paths never call them. *)
Definition arithmetic_only : ExtendedGenerators :=
  {| createFractionsQuestion := createAdditionQuestion;
     createDecimalsQuestion := createAdditionQuestion;
     createPercentagesQuestion := createAdditionQuestion;
     createWordProblemQuestion := createAdditionQuestion;
     createAlgebraQuestion := createAdditionQuestion;
     createGeometryQuestion := createAdditionQuestion |}.

(** A generator that returns the question under the id it is handed, as
    every generator of the source does; for the extended generators this
    is an assumption of the statements about ids. *)
Definition returns_id (g : string -> Difficulty -> Z -> Gen Question) : Prop :=
  forall (i : string) (d : Difficulty) (tl : Z) (rng : Rng) (k : nat),
    id (fst (g i d tl rng k)) = i.

Definition keeps_id (ext : ExtendedGenerators) : Prop :=
  returns_id (createFractionsQuestion ext) /\
  returns_id (createDecimalsQuestion ext) /\
  returns_id (createPercentagesQuestion ext) /\
  returns_id (createWordProblemQuestion ext) /\
  returns_id (createAlgebraQuestion ext) /\
  returns_id (createGeometryQuestion ext).

End QuestionGenerator.

(** ** lib/stores/useGameState.ts: the progression store *)

Module GameState.
Import QuestionGenerator.

Inductive GamePhase : Type := menu | playing | paused | gameOver | tutorial.

Record State : Type := mkState {
  phase : GamePhase;
  score : Z;
  health : Z;
  maxHealth : Z;
  wave : Z;
  combo : Z;
  maxCombo : Z;
  currentQuestion : option Question;
  questionsAnswered : Z;
  correctAnswers : Z;
  wrongAnswers : Z;
  timeElapsed : Z;
  difficulty : Difficulty;
  timeLimit : Z
}.

Definition initial : State :=
  {| phase := menu; score := 0; health := 5; maxHealth := 5; wave := 1;
     combo := 0; maxCombo := 0; currentQuestion := None;
     questionsAnswered := 0; correctAnswers := 0; wrongAnswers := 0;
     timeElapsed := 0; difficulty := easy; timeLimit := 30000 |}.

(** [Math.floor(newCombo / 5) + 1], the multiplier [answerQuestion]
    computes. *)
Definition comboMultiplier (newCombo : Z) : Z := newCombo / 5 + 1.

Definition basePoints (d : Difficulty) : Z :=
  match d with easy => 10 | medium => 20 | hard => 30 end.

Definition answerQuestion (st : State) (answer : Z) : State * bool :=
  match currentQuestion st with
  | None => (st, false)
  | Some q =>
      let isCorrect := answer =? QuestionGenerator.answer q in
      let newCombo := if isCorrect then combo st + 1 else 0 in
      let points :=
        if isCorrect
        then basePoints (QuestionGenerator.difficulty q) * comboMultiplier newCombo
        else 0 in
      ({| phase := phase st;
          score := score st + points;
          health := health st;
          maxHealth := maxHealth st;
          wave := wave st;
          combo := newCombo;
          maxCombo := Z.max (maxCombo st) newCombo;
          currentQuestion := currentQuestion st;
          questionsAnswered := questionsAnswered st + 1;
          correctAnswers := if isCorrect then correctAnswers st + 1 else correctAnswers st;
          wrongAnswers := if isCorrect then wrongAnswers st else wrongAnswers st + 1;
          timeElapsed := timeElapsed st;
          difficulty := difficulty st;
          timeLimit := timeLimit st |}, isCorrect)
  end.

Definition set_health_combo_phase (st : State) (h c : Z) (p : GamePhase) : State :=
  {| phase := p; score := score st; health := h; maxHealth := maxHealth st;
     wave := wave st; combo := c; maxCombo := maxCombo st;
     currentQuestion := currentQuestion st;
     questionsAnswered := questionsAnswered st; correctAnswers := correctAnswers st;
     wrongAnswers := wrongAnswers st; timeElapsed := timeElapsed st;
     difficulty := difficulty st; timeLimit := timeLimit st |}.

Definition takeDamage (st : State) (amount : Z) : State :=
  let newHealth := Z.max 0 (health st - amount) in
  set_health_combo_phase st newHealth 0 (* Reset combo on damage *)
    (if newHealth <=? 0 then gameOver else phase st).

Definition heal (st : State) (amount : Z) : State :=
  set_health_combo_phase st (Z.min (maxHealth st) (health st + amount))
    (combo st) (phase st).

Definition addScore (st : State) (points : Z) : State :=
  {| phase := phase st; score := score st + points; health := health st;
     maxHealth := maxHealth st; wave := wave st; combo := combo st;
     maxCombo := maxCombo st; currentQuestion := currentQuestion st;
     questionsAnswered := questionsAnswered st; correctAnswers := correctAnswers st;
     wrongAnswers := wrongAnswers st; timeElapsed := timeElapsed st;
     difficulty := difficulty st; timeLimit := timeLimit st |}.

Definition setPhase (st : State) (p : GamePhase) : State :=
  set_health_combo_phase st (health st) (combo st) p.

Definition setCurrentQuestion (st : State) (q : option Question) : State :=
  {| phase := phase st; score := score st; health := health st;
     maxHealth := maxHealth st; wave := wave st; combo := combo st;
     maxCombo := maxCombo st; currentQuestion := q;
     questionsAnswered := questionsAnswered st; correctAnswers := correctAnswers st;
     wrongAnswers := wrongAnswers st; timeElapsed := timeElapsed st;
     difficulty := difficulty st; timeLimit := timeLimit st |}.

Definition updateTimeElapsed (st : State) (time : Z) : State :=
  {| phase := phase st; score := score st; health := health st;
     maxHealth := maxHealth st; wave := wave st; combo := combo st;
     maxCombo := maxCombo st; currentQuestion := currentQuestion st;
     questionsAnswered := questionsAnswered st; correctAnswers := correctAnswers st;
     wrongAnswers := wrongAnswers st; timeElapsed := time;
     difficulty := difficulty st; timeLimit := timeLimit st |}.

Definition setDifficulty (st : State) (d : Difficulty) : State :=
  {| phase := phase st; score := score st; health := health st;
     maxHealth := maxHealth st; wave := wave st; combo := combo st;
     maxCombo := maxCombo st; currentQuestion := currentQuestion st;
     questionsAnswered := questionsAnswered st; correctAnswers := correctAnswers st;
     wrongAnswers := wrongAnswers st; timeElapsed := timeElapsed st;
     difficulty := d;
     timeLimit := match d with easy => 30000 | medium => 20000 | hard => 15000 end |}.

(** The part of [nextWave] on the counters: the wave goes up by one. The
    store also empties its monster list, see [GameStore.nextWave]. *)
Definition advanceWave (st : State) : State :=
  {| phase := phase st; score := score st; health := health st;
     maxHealth := maxHealth st; wave := wave st + 1; combo := combo st;
     maxCombo := maxCombo st; currentQuestion := currentQuestion st;
     questionsAnswered := questionsAnswered st; correctAnswers := correctAnswers st;
     wrongAnswers := wrongAnswers st; timeElapsed := timeElapsed st;
     difficulty := difficulty st; timeLimit := timeLimit st |}.

(** The part of [resetGame] on the counters; [maxHealth], [difficulty] and
    [timeLimit] are not among the fields it sets. *)
Definition resetCounters (st : State) : State :=
  {| phase := menu; score := 0; health := 5; maxHealth := maxHealth st;
     wave := 1; combo := 0; maxCombo := 0; currentQuestion := None;
     questionsAnswered := 0; correctAnswers := 0; wrongAnswers := 0;
     timeElapsed := 0; difficulty := difficulty st; timeLimit := timeLimit st |}.

End GameState.

(** ** lib/gameUtils.ts *)

Module GameUtils.
Import Js.
Local Open Scope Q_scope.

(** Host primitives on doubles that are not computed here: [Math.sqrt] and
    the rendering of a fractional number inside a template literal. *)
Record Host : Type := {
  Math_sqrt : Q -> Q;
  number_to_string : Q -> string
}.

Definition CANVAS_WIDTH : Q := 800.
Definition CANVAS_HEIGHT : Q := 600.
Definition PLAYER_RADIUS : Q := 30.

Record Point : Type := mkPoint { px : Q; py : Q }.

(** The [Monster] interface of the store: the data of one monster. *)
Record MonsterData : Type := mkMonsterData {
  id : string;
  x : Q;
  y : Q;
  health : Q;
  maxHealth : Q;
  speed : Q;
  targetX : Q;
  targetY : Q;
  type : string;
  color : string;
  size : Q;
  equation : option string;
  answer : option Z;
  isDestroying : option bool;
  destructionStartTime : option Z;
  spawnX : option Q;
  spawnY : option Q
}.

Definition generateMonsterSpawnPoint : Gen Point :=
  side <- random_below 4%Z ;; (* 0: top, 1: right, 2: bottom, 3: left *)
  let margin : Q := 250 in (* Fixed distance for precise 5-second timing *)
  if (side =? 0)%Z then
    r <- Math_random ;; ret {| px := r * CANVAS_WIDTH; py := - margin |}
  else if (side =? 1)%Z then
    r <- Math_random ;; ret {| px := CANVAS_WIDTH + margin; py := r * CANVAS_HEIGHT |}
  else if (side =? 2)%Z then
    r <- Math_random ;; ret {| px := r * CANVAS_WIDTH; py := CANVAS_HEIGHT + margin |}
  else
    r <- Math_random ;; ret {| px := - margin; py := r * CANVAS_HEIGHT |}.

(** The types eligible at a wave, in the order the source pushes them. *)
Definition eligibleTypes (wave : Z) : list string :=
  (["basic"]
   ++ (if (wave >=? 3)%Z then ["fast"] else [])
   ++ (if (wave >=? 5)%Z then ["tank"] else [])
   ++ (if (Z.rem wave 10 =? 0)%Z then ["boss"] else []))%list.

(** The factor the source applies to [exactSpeed] for each type. *)
Definition speedFactor (type : string) : Q :=
  if (type =? "fast")%string then 1
  else if (type =? "tank")%string then 9 # 10
  else if (type =? "boss")%string then 8 # 10
  else 1.

Definition healthMultiplier (d : QuestionGenerator.Difficulty) : Q :=
  match d with
  | QuestionGenerator.easy => 8 # 10
  | QuestionGenerator.medium => 1
  | QuestionGenerator.hard => 12 # 10
  end.

Section WithHost.

Variable host : Host.

(** [spawnDistance / 5000]: pixels per millisecond to reach the player in
    exactly 5000 ms. *)
Definition exactSpeed (spawnPoint playerCenter : Point) : Q :=
  Math_sqrt host ((px spawnPoint - px playerCenter) * (px spawnPoint - px playerCenter)
                  + (py spawnPoint - py playerCenter) * (py spawnPoint - py playerCenter))
  / 5000.

Definition createMonster (now wave : Z) (d : QuestionGenerator.Difficulty)
  : Gen MonsterData :=
  spawnPoint <- generateMonsterSpawnPoint ;;
  let playerCenter := {| px := CANVAS_WIDTH / 2; py := CANVAS_HEIGHT / 2 |} in
  (* Monster types based on wave progression *)
  let types := eligibleTypes wave in
  k <- random_below (Z.of_nat (List.length types)) ;;
  let type := index types k in
  let exactSpeed := exactSpeed spawnPoint playerCenter in
  let '(health, speed, size, color) :=
    if (type =? "fast")%string then (1, exactSpeed, 20, "#10b981")
    else if (type =? "tank")%string then (5, exactSpeed * (9 # 10), 40, "#dc2626")
    else if (type =? "boss")%string then (15, exactSpeed * (8 # 10), 60, "#7c3aed")
    else (2, exactSpeed, 25, "#f97316") in
  (* Only scale health with difficulty *)
  let health := inject_Z (Qceiling (health * healthMultiplier d)) in
  r <- Math_random ;;
  ret {| id := "monster_" ++ show now ++ "_" ++ number_to_string host r;
         x := px spawnPoint;
         y := py spawnPoint;
         health := health;
         maxHealth := health;
         speed := speed;
         targetX := px playerCenter;
         targetY := py playerCenter;
         type := type;
         color := color;
         size := size;
         equation := None;
         answer := None;
         isDestroying := None;
         destructionStartTime := None;
         spawnX := None;
         spawnY := None |}.

End WithHost.

(** [1 + Math.floor(combo / 5) * 0.5], a helper no other module calls. *)
Definition getComboMultiplier (combo : Z) : Q :=
  1 + inject_Z (combo / 5) * (1 # 2).

Definition getMonsterDamage (monsterType : string) : Z :=
  (if (monsterType =? "fast")%string then 1
   else if (monsterType =? "tank")%string then 2
   else if (monsterType =? "boss")%string then 3
   else 1)%Z.

(** Start with 3, increase by 1 every 2 waves, max 12. *)
Definition getWaveMonsterCount (wave : Z) : Z := Z.min (3 + wave / 2) 12.

Definition getWaveSpawnRate (wave : Z) : Z := Z.max 5000 5000.

Definition formatTime (milliseconds : Z) : string :=
  let seconds := (milliseconds / 1000)%Z in
  let minutes := (seconds / 60)%Z in
  let remainingSeconds := Z.rem seconds 60 in
  show minutes ++ ":" ++ padStart 2 (show remainingSeconds).

Definition calculateQuestionScore (d : QuestionGenerator.Difficulty) (isCorrect : bool)
  (timeBonus comboMultiplier : Q) : Z :=
  if negb isCorrect then 0%Z
  else
    let baseScore :=
      match d with
      | QuestionGenerator.easy => 10
      | QuestionGenerator.medium => 20
      | QuestionGenerator.hard => 30
      end%Z in
    let timeBonusScore := Math_floor (timeBonus * 5) in (* Up to 25 bonus points *)
    Math_floor (inject_Z (baseScore + timeBonusScore) * comboMultiplier).

Definition shouldSpawnBoss (wave : Z) : bool :=
  (wave >? 0)%Z && (Z.rem wave 10 =? 0)%Z.

Definition getMaxMonsterHealth (wave : Z) (d : QuestionGenerator.Difficulty) : Z :=
  let baseHealth : Q :=
    match d with
    | QuestionGenerator.easy => 2
    | QuestionGenerator.medium => 3
    | QuestionGenerator.hard => 4
    end in
  let waveMultiplier := 1 + inject_Z (wave / 5) * (1 # 2) in
  Qceiling (baseHealth * waveMultiplier).

End GameUtils.

(** ** components/game/Monster.ts *)

Module Monster.
Import GameUtils.
Local Open Scope Q_scope.

Record Monster : Type := mkMonster {
  data : MonsterData;
  lastUpdateTime : Z;
  spawnTime : Z
}.

(** [new Monster(monsterData)] at time [now]. *)
Definition create (monsterData : MonsterData) (now : Z) : Monster :=
  {| data := monsterData; lastUpdateTime := 0; spawnTime := now |}.

(** [!v] on an optional number: [undefined] and [0] are falsy. *)
Definition falsy (v : option Q) : bool :=
  match v with None => true | Some q => Qeq_bool q 0 end.

(** Truthiness of an optional boolean flag. *)
Definition flag (v : option bool) : bool :=
  match v with Some true => true | _ => false end.

Definition from_option (v : option Q) : Q :=
  match v with Some q => q | None => 0 end.

Definition totalTravelTime : Q := 5000. (* 5 seconds in milliseconds *)

(** Progress (0 to 1) based on time, not movement. *)
Definition progress (m : Monster) (now : Z) : Q :=
  Qmin (inject_Z (now - spawnTime m) / totalTravelTime) 1.

Definition update (m : Monster) (deltaTime : Q) (playerPosition : Point) (now : Z)
  : Monster :=
  let d := data m in
  (* Update target to player position *)
  let targetX := px playerPosition in
  let targetY := py playerPosition in
  let progress := progress m now in
  (* Get the spawn point (stored in the monster data if available) *)
  let unset := falsy (spawnX d) || falsy (spawnY d) in
  let spawnX := if unset then Some (x d) else spawnX d in
  let spawnY := if unset then Some (y d) else spawnY d in
  (* Linear interpolation from spawn point to target based on time progress *)
  let sx := from_option spawnX in
  let sy := from_option spawnY in
  {| data := {| id := id d;
                x := sx + (targetX - sx) * progress;
                y := sy + (targetY - sy) * progress;
                health := health d;
                maxHealth := maxHealth d;
                speed := speed d;
                targetX := targetX;
                targetY := targetY;
                type := type d;
                color := color d;
                size := size d;
                equation := equation d;
                answer := answer d;
                isDestroying := isDestroying d;
                destructionStartTime := destructionStartTime d;
                spawnX := spawnX;
                spawnY := spawnY |};
     lastUpdateTime := lastUpdateTime m;
     spawnTime := spawnTime m |}.

Definition set_health (d : MonsterData) (h : Q) : MonsterData :=
  {| id := id d; x := x d; y := y d; health := h; maxHealth := maxHealth d;
     speed := speed d; targetX := targetX d; targetY := targetY d;
     type := type d; color := color d; size := size d; equation := equation d;
     answer := answer d; isDestroying := isDestroying d;
     destructionStartTime := destructionStartTime d;
     spawnX := spawnX d; spawnY := spawnY d |}.

Definition takeDamage (m : Monster) (amount : Q) : Monster * bool :=
  let h := Qmax 0 (health (data m) - amount) in
  ({| data := set_health (data m) h;
      lastUpdateTime := lastUpdateTime m;
      spawnTime := spawnTime m |}, Qle_bool h 0).

Section WithHost.

Variable host : Host.

Definition isAttacking (m : Monster) (playerPosition : Point) (playerRadius : Q) : bool :=
  let dx := x (data m) - px playerPosition in
  let dy := y (data m) - py playerPosition in
  let distance := Math_sqrt host (dx * dx + dy * dy) in
  Qle_bool distance (size (data m) + playerRadius).

End WithHost.

End Monster.

(** ** components/game/GameEngine.ts *)

Module GameEngine.
Import GameUtils.

Record GameEngineState : Type := mkState {
  playerPosition : Point;
  monsters : list Monster.Monster;
  lastSpawnTime : Z;
  lastUpdateTime : Z;
  isRunning : bool
}.

(** The host's scheduler: the pending [requestAnimationFrame] handles, the
    next handle it hands out, and the pending [setTimeout] closures of
    [destroyMonster] (due time, captured monster id). *)
Record Scheduler : Type := mkScheduler {
  frames : list nat;
  nextHandle : nat;
  timers : list (Z * string)
}.

Record Engine : Type := mkEngine {
  state : GameEngineState;
  animationId : option nat;
  scheduler : Scheduler
}.

(** What an engine operation does that its callers and callbacks can
    observe, in the order it happens. *)
Inductive Action : Type :=
| PositionUpdate (monsterId : string)      (* monster.update(...) returned *)
| MonsterReachPlayer (damage : Z)          (* onMonsterReachPlayer(damage) *)
| MonsterDestroyed (monsterId : string)    (* onMonsterDestroyed(id) *)
| StateUpdate.                             (* onStateUpdate(state) *)

Definition new_engine (now : Z) : Engine :=
  {| state := {| playerPosition := {| px := CANVAS_WIDTH / 2; py := CANVAS_HEIGHT / 2 |};
                 monsters := [];
                 lastSpawnTime := 0;
                 lastUpdateTime := now;
                 isRunning := false |};
     animationId := None;
     scheduler := {| frames := []; nextHandle := 1; timers := [] |} |}.

Definition set_state (e : Engine) (s : GameEngineState) : Engine :=
  {| state := s; animationId := animationId e; scheduler := scheduler e |}.

Definition set_monsters (e : Engine) (ms : list Monster.Monster) : Engine :=
  set_state e {| playerPosition := playerPosition (state e);
                 monsters := ms;
                 lastSpawnTime := lastSpawnTime (state e);
                 lastUpdateTime := lastUpdateTime (state e);
                 isRunning := isRunning (state e) |}.

Definition set_lastSpawnTime (e : Engine) (t : Z) : Engine :=
  set_state e {| playerPosition := playerPosition (state e);
                 monsters := monsters (state e);
                 lastSpawnTime := t;
                 lastUpdateTime := lastUpdateTime (state e);
                 isRunning := isRunning (state e) |}.

Definition set_lastUpdateTime (e : Engine) (t : Z) : Engine :=
  set_state e {| playerPosition := playerPosition (state e);
                 monsters := monsters (state e);
                 lastSpawnTime := lastSpawnTime (state e);
                 lastUpdateTime := t;
                 isRunning := isRunning (state e) |}.

Definition set_isRunning (e : Engine) (b : bool) : Engine :=
  set_state e {| playerPosition := playerPosition (state e);
                 monsters := monsters (state e);
                 lastSpawnTime := lastSpawnTime (state e);
                 lastUpdateTime := lastUpdateTime (state e);
                 isRunning := b |}.

(** [cancelAnimationFrame(h)] *)
Definition cancelAnimationFrame (s : Scheduler) (h : nat) : Scheduler :=
  {| frames := List.filter (fun h' => negb (Nat.eqb h' h)) (frames s);
     nextHandle := nextHandle s;
     timers := timers s |}.

(** [requestAnimationFrame(this.gameLoop)]: the new handle. *)
Definition requestAnimationFrame (s : Scheduler) : Scheduler * nat :=
  ({| frames := (frames s ++ [nextHandle s])%list;
      nextHandle := S (nextHandle s);
      timers := timers s |}, nextHandle s).

(** [setTimeout(closure, delay)] for the closure of [destroyMonster]. *)
Definition setTimeout (s : Scheduler) (due : Z) (monsterId : string) : Scheduler :=
  {| frames := frames s;
     nextHandle := nextHandle s;
     timers := (timers s ++ [(due, monsterId)])%list |}.

(** [if (this.animationId) { cancelAnimationFrame(...); this.animationId = null }];
    a handle [0] is falsy. *)
Definition cancel_pending_frame (e : Engine) : Engine :=
  match animationId e with
  | Some h =>
      if Nat.eqb h 0 then e
      else {| state := state e; animationId := None;
              scheduler := cancelAnimationFrame (scheduler e) h |}
  | None => e
  end.

(** [arr.findIndex(m => m.data.id === monsterId)] *)
Fixpoint findIndex (monsterId : string) (ms : list Monster.Monster) : option nat :=
  match ms with
  | [] => None
  | m :: rest =>
      if (id (Monster.data m) =? monsterId)%string then Some O
      else option_map S (findIndex monsterId rest)
  end.

(** [arr.splice(k, 1)] *)
Fixpoint splice (k : nat) (ms : list Monster.Monster) : list Monster.Monster :=
  match ms, k with
  | [], _ => []
  | _ :: rest, O => rest
  | m :: rest, S k' => m :: splice k' rest
  end.

(** The element at index [k] replaced: the effect, seen through the array,
    of mutating the object stored there. *)
Fixpoint store (k : nat) (m' : Monster.Monster) (ms : list Monster.Monster)
  : list Monster.Monster :=
  match ms, k with
  | [], _ => []
  | _ :: rest, O => m' :: rest
  | m :: rest, S k' => m :: store k' m' rest
  end.

Definition start_destruction (m : Monster.Monster) (now : Z) : Monster.Monster :=
  let d := Monster.data m in
  {| Monster.data :=
       {| id := id d; x := x d; y := y d; health := health d;
          maxHealth := maxHealth d; speed := speed d; targetX := targetX d;
          targetY := targetY d; type := type d; color := color d; size := size d;
          equation := equation d; answer := answer d;
          isDestroying := Some true;
          destructionStartTime := Some now;
          spawnX := spawnX d; spawnY := spawnY d |};
     Monster.lastUpdateTime := Monster.lastUpdateTime m;
     Monster.spawnTime := Monster.spawnTime m |}.

Definition destroyMonster (e : Engine) (monsterId : string) (withAnimation : bool)
  (now : Z) : Engine * list Action :=
  match findIndex monsterId (monsters (state e)) with
  | None => (e, [])
  | Some monsterIndex =>
      match nth_error (monsters (state e)) monsterIndex with
      | None => (e, [])
      | Some monster =>
          if withAnimation && negb (Monster.flag (isDestroying (Monster.data monster)))
          then
            (* Start destruction animation; removal after 800 ms *)
            let e1 := set_monsters e
                        (store monsterIndex (start_destruction monster now)
                               (monsters (state e))) in
            ({| state := state e1; animationId := animationId e1;
                scheduler := setTimeout (scheduler e1) (now + 800) monsterId |}, [])
          else
            (* Immediate removal without animation *)
            (set_monsters e (splice monsterIndex (monsters (state e))),
             [MonsterDestroyed monsterId])
      end
  end.

(** The closure [destroyMonster] hands to [setTimeout], run by the host. *)
Definition destroyTimeout (e : Engine) (monsterId : string) : Engine * list Action :=
  match findIndex monsterId (monsters (state e)) with
  | Some currentIndex =>
      (set_monsters e (splice currentIndex (monsters (state e))),
       [MonsterDestroyed monsterId])
  | None => (e, [MonsterDestroyed monsterId])
  end.

(** [pause()] *)
Definition pause (e : Engine) : Engine :=
  cancel_pending_frame (set_isRunning e false).

(** [stop()] *)
Definition stop (e : Engine) : Engine :=
  cancel_pending_frame (set_monsters (set_isRunning e false) []).

Section WithHost.

Variable host : Host.

(** The body of the [forEach] callback of [update], at index [k]. An index
    the array no longer has is skipped, as [forEach] does. *)
Definition update_monster (deltaTime : Q) (now : Z) (k : nat) (e : Engine)
  : Engine * list Action :=
  match nth_error (monsters (state e)) k with
  | None => (e, [])
  | Some monster =>
      (* Only update movement if not being destroyed *)
      if Monster.flag (isDestroying (Monster.data monster)) then (e, [])
      else
        let monster' := Monster.update monster deltaTime (playerPosition (state e)) now in
        let e1 := set_monsters e (store k monster' (monsters (state e))) in
        let moved := PositionUpdate (id (Monster.data monster')) in
        (* Check if monster reached player *)
        if Monster.isAttacking host monster' (playerPosition (state e1)) PLAYER_RADIUS
        then
          let damage := getMonsterDamage (type (Monster.data monster')) in
          (* No animation when reaching player *)
          let (e2, log) := destroyMonster e1 (id (Monster.data monster')) false now in
          (e2, moved :: MonsterReachPlayer damage :: log)
        else (e1, [moved])
  end.

(** [Array.prototype.forEach]: the length is read once, the indices
    [k, k+1, ...] are visited in order, each on the array as it is then. *)
Fixpoint forEach (count k : nat) (body : nat -> Engine -> Engine * list Action)
  (e : Engine) : Engine * list Action :=
  match count with
  | O => (e, [])
  | S count' =>
      let (e1, log1) := body k e in
      let (e2, log2) := forEach count' (S k) body e1 in
      (e2, (log1 ++ log2)%list)
  end.

(** [update(deltaTime)] *)
Definition update (e : Engine) (deltaTime : Q) (now : Z) : Engine * list Action :=
  forEach (List.length (monsters (state e))) 0 (update_monster deltaTime now) e.

(** [gameLoop]: one frame. [render] only reads the state. *)
Definition gameLoop (e : Engine) (now : Z) : Engine * list Action :=
  if negb (isRunning (state e)) then (e, [])
  else
    let deltaTime := Qmin (inject_Z (now - lastUpdateTime (state e))) (1667 # 100) in
    let e1 := set_lastUpdateTime e now in
    let (e2, log) := update e1 deltaTime now in
    let (s, h) := requestAnimationFrame (scheduler e2) in
    ({| state := state e2; animationId := Some h; scheduler := s |}, log).

(** The host runs the frame callback registered under handle [h]. *)
Definition frame (e : Engine) (h : nat) (now : Z) : Engine * list Action :=
  if List.existsb (Nat.eqb h) (frames (scheduler e)) then
    gameLoop {| state := state e; animationId := animationId e;
                scheduler := cancelAnimationFrame (scheduler e) h |} now
  else (e, []).

(** [start()] *)
Definition start (e : Engine) (now : Z) : Engine * list Action :=
  gameLoop (set_lastUpdateTime (set_isRunning e true) now) now.

Definition tag (d : MonsterData) (equation : option string) (answer : option Z)
  : MonsterData :=
  match equation, answer with
  | Some eq, Some a =>
      if (eq =? "")%string then d
      else {| id := id d; x := x d; y := y d; health := health d;
              maxHealth := maxHealth d; speed := speed d; targetX := targetX d;
              targetY := targetY d; type := type d; color := color d;
              size := size d; equation := Some eq; answer := Some a;
              isDestroying := isDestroying d;
              destructionStartTime := destructionStartTime d;
              spawnX := spawnX d; spawnY := spawnY d |}
  | _, _ => d
  end.

Definition spawnMonster (e : Engine) (now wave : Z) (d : QuestionGenerator.Difficulty)
  (equation : option string) (answer : option Z) : Js.Gen (Engine * list Action) :=
  monsterData <- createMonster host now wave d ;;
  let monster := Monster.create (tag monsterData equation answer) now in
  Js.ret (set_monsters e (monsters (state e) ++ [monster])%list, [StateUpdate]).

Definition spawnNextMonster (e : Engine) (now wave : Z) (d : QuestionGenerator.Difficulty)
  (equation : option string) (answer : option Z) : Js.Gen (Engine * list Action) :=
  (* Allow up to 3 monsters with staggered spawning *)
  if (List.length (monsters (state e)) <? 3)%nat then
    let timeSinceLastSpawn := now - lastSpawnTime (state e) in
    (* Enforce minimum 2-second gap between spawns *)
    if timeSinceLastSpawn >=? 2000 then
      r <- spawnMonster e now wave d equation answer ;;
      let (e1, log) := (r : Engine * list Action) in
      Js.ret (set_lastSpawnTime e1 now, log)
    else Js.ret (e, [])
  else Js.ret (e, []).

Definition spawnWave (e : Engine) (now wave : Z) (d : QuestionGenerator.Difficulty)
  : Js.Gen (Engine * list Action) :=
  if (List.length (monsters (state e)) =? 0)%nat
  then spawnMonster e now wave d None None
  else Js.ret (e, []).

Definition damageMonster (e : Engine) (monsterId : string) (damage : Q) (now : Z)
  : Engine * list Action * bool :=
  match findIndex monsterId (monsters (state e)) with
  | Some k =>
      match nth_error (monsters (state e)) k with
      | Some monster =>
          let (monster', isDestroyed) := Monster.takeDamage monster damage in
          let e1 := set_monsters e (store k monster' (monsters (state e))) in
          if isDestroyed
          then (destroyMonster e1 monsterId true now, isDestroyed)
          else (e1, [], isDestroyed)
      | None => (e, [], false)
      end
  | None => (e, [], false)
  end.

End WithHost.

End GameEngine.

(** ** lib/stores/useGameState.ts: monsters, power-ups and spawn gating *)

Module GameStore.
Import GameUtils.

Record PowerUp : Type := mkPowerUp {
  pu_id : string;
  pu_type : string;
  name : string;
  description : string;
  active : bool;
  duration : Z;
  cooldown : Z;
  lastUsed : Z
}.

Definition initialPowerUps : list PowerUp :=
  [ {| pu_id := "freeze"; pu_type := "freeze"; name := "Ice Freeze";
       description := "Freezes all monsters for 3 seconds";
       active := false; duration := 3000; cooldown := 15000; lastUsed := 0 |};
    {| pu_id := "multiply"; pu_type := "multiply"; name := "Score Boost";
       description := "Doubles score for 10 seconds";
       active := false; duration := 10000; cooldown := 30000; lastUsed := 0 |};
    {| pu_id := "heal"; pu_type := "heal"; name := "Health Potion";
       description := "Restores 2 health points";
       active := false; duration := 0; cooldown := 20000; lastUsed := 0 |};
    {| pu_id := "shield"; pu_type := "shield"; name := "Magic Shield";
       description := "Blocks next 3 damage instances";
       active := false; duration := 30000; cooldown := 45000; lastUsed := 0 |} ].

(** The store: the counters of [GameState.State] and the game objects. *)
Record Store : Type := mkStore {
  game : GameState.State;
  monsters : list MonsterData;
  powerUps : list PowerUp;
  isSpawningMonster : bool;
  lastSpawnTime : Z
}.

Definition initial : Store :=
  {| game := GameState.initial; monsters := []; powerUps := initialPowerUps;
     isSpawningMonster := false; lastSpawnTime := 0 |}.

Definition with_game (s : Store) (g : GameState.State) : Store :=
  {| game := g; monsters := monsters s; powerUps := powerUps s;
     isSpawningMonster := isSpawningMonster s; lastSpawnTime := lastSpawnTime s |}.

Definition answerQuestion (s : Store) (answer : Z) : Store * bool :=
  let (g, isCorrect) := GameState.answerQuestion (game s) answer in
  (with_game s g, isCorrect).

Definition takeDamage (s : Store) (amount : Z) : Store :=
  with_game s (GameState.takeDamage (game s) amount).

Definition heal (s : Store) (amount : Z) : Store :=
  with_game s (GameState.heal (game s) amount).

Definition addScore (s : Store) (points : Z) : Store :=
  with_game s (GameState.addScore (game s) points).

Definition addMonster (s : Store) (monster : MonsterData) : Store :=
  {| game := game s; monsters := (monsters s ++ [monster])%list;
     powerUps := powerUps s;
     isSpawningMonster := false; (* Reset flag after spawning *)
     lastSpawnTime := lastSpawnTime s |}.

Definition removeMonster (s : Store) (monsterId : string) : Store :=
  {| game := game s;
     monsters := List.filter (fun m => negb (id m =? monsterId)%string) (monsters s);
     powerUps := powerUps s; isSpawningMonster := isSpawningMonster s;
     lastSpawnTime := lastSpawnTime s |}.

Definition nextWave (s : Store) : Store :=
  {| game := GameState.advanceWave (game s);
     monsters := []; (* Clear current monsters *)
     powerUps := powerUps s; isSpawningMonster := isSpawningMonster s;
     lastSpawnTime := lastSpawnTime s |}.

Definition resetGame (s : Store) : Store :=
  {| game := GameState.resetCounters (game s); monsters := [];
     powerUps := initialPowerUps; isSpawningMonster := false; lastSpawnTime := 0 |}.

Definition use (now : Z) (type : string) (p : PowerUp) : PowerUp :=
  if (pu_type p =? type)%string && (now - lastUsed p >=? cooldown p)
  then {| pu_id := pu_id p; pu_type := pu_type p; name := name p;
          description := description p; active := true; duration := duration p;
          cooldown := cooldown p; lastUsed := now |}
  else p.

Definition usePowerUp (s : Store) (type : string) (now : Z) : Store :=
  let s1 := {| game := game s; monsters := monsters s;
               powerUps := List.map (use now type) (powerUps s);
               isSpawningMonster := isSpawningMonster s;
               lastSpawnTime := lastSpawnTime s |} in
  (* Apply power-up effects *)
  match List.find (fun p => (pu_type p =? type)%string) (powerUps s1) with
  | Some powerUp => if (pu_type powerUp =? "heal")%string then heal s1 2 else s1
  | None => s1
  end.

Definition canSpawnMonster (s : Store) (now : Z) : bool :=
  let timeSinceLastSpawn := now - lastSpawnTime s in
  let minSpawnInterval := 5000 in
  (* Only count non-destroying monsters for spawn limit *)
  let activeMonsters :=
    List.filter (fun m => negb (Monster.flag (isDestroying m))) (monsters s) in
  (List.length activeMonsters <? 3)%nat
  && negb (isSpawningMonster s)
  && (timeSinceLastSpawn >=? minSpawnInterval).

(** The calls of a game session on the counters of the store. *)
Inductive Call : Type :=
| AnswerQuestion (answer : Z)
| TakeDamage (amount : Z)
| Heal (amount : Z)
| AddScore (points : Z)
| UsePowerUp (type : string) (now : Z)
| SetCurrentQuestion (q : option QuestionGenerator.Question)
| NextWave
| ResetGame.

Definition step (c : Call) (s : Store) : Store :=
  match c with
  | AnswerQuestion answer => fst (answerQuestion s answer)
  | TakeDamage amount => takeDamage s amount
  | Heal amount => heal s amount
  | AddScore points => addScore s points
  | UsePowerUp type now => usePowerUp s type now
  | SetCurrentQuestion q => with_game s (GameState.setCurrentQuestion (game s) q)
  | NextWave => nextWave s
  | ResetGame => resetGame s
  end.

(** The amounts the game passes are not negative: damage 1 to 3, healing
    2, score bonuses [5 * wave]. *)
Definition well_formed (c : Call) : Prop :=
  match c with
  | TakeDamage amount | Heal amount | AddScore amount => 0 <= amount
  | _ => True
  end.

Definition run (cs : list Call) (s : Store) : Store := List.fold_left (fun s c => step c s) cs s.

(** What a session keeps true of the counters. *)
Definition consistent (s : Store) : Prop :=
  let g := game s in
  GameState.maxHealth g = 5 /\
  0 <= GameState.health g <= GameState.maxHealth g /\
  0 <= GameState.combo g <= GameState.maxCombo g /\
  GameState.maxCombo g <= GameState.correctAnswers g /\
  GameState.questionsAnswered g
  = GameState.correctAnswers g + GameState.wrongAnswers g /\
  0 <= GameState.wrongAnswers g /\
  0 <= GameState.score g /\
  1 <= GameState.wave g.

End GameStore.

(** ** Vocabulary of the statements *)

Module Spec.
Import GameUtils GameEngine.

(** [Subseq l1 l2]: [l1] is [l2] with some elements left out, the order
    kept. *)
Inductive Subseq {A : Type} : list A -> list A -> Prop :=
| Subseq_nil : Subseq [] []
| Subseq_skip (x : A) (l1 l2 : list A) : Subseq l1 l2 -> Subseq l1 (x :: l2)
| Subseq_take (x : A) (l1 l2 : list A) : Subseq l1 l2 -> Subseq (x :: l1) (x :: l2).

(** What one tick logs for a monster it visits: the position update and,
    when the monster has reached the player, the two callbacks. *)
Definition visit (v : Monster.Monster * bool) : list Action :=
  let (m, reached) := v in
  PositionUpdate (id (Monster.data m))
  :: (if reached
      then [MonsterReachPlayer (getMonsterDamage (type (Monster.data m)));
            MonsterDestroyed (id (Monster.data m))]
      else []).

(** A monster after a tick at time [now] that it survives: frozen when it
    is being destroyed, moved otherwise. *)
Definition advance (p : Point) (deltaTime : Q) (now : Z) (m : Monster.Monster)
  : Monster.Monster :=
  if Monster.flag (isDestroying (Monster.data m)) then m
  else Monster.update m deltaTime p now.

(** Whether a monster that is moved at time [now] has then reached the
    player. *)
Definition reaches (host : Host) (p : Point) (deltaTime : Q) (now : Z)
  (m : Monster.Monster) : bool :=
  Monster.isAttacking host (Monster.update m deltaTime p now) p PLAYER_RADIUS.

(** [Visits host p deltaTime now ms visited]: a pass over the list [ms] in
    its order that leaves out the monsters being destroyed, visits every
    other monster and marks it with whether it has reached the player, save
    that the monster right after one that has reached the player may be
    passed over. *)
Inductive Visits (host : Host) (p : Point) (deltaTime : Q) (now : Z)
  : list Monster.Monster -> list (Monster.Monster * bool) -> Prop :=
| Visits_nil : Visits host p deltaTime now [] []
| Visits_destroying (m : Monster.Monster) (ms : list Monster.Monster)
    (visited : list (Monster.Monster * bool)) :
    Monster.flag (isDestroying (Monster.data m)) = true ->
    Visits host p deltaTime now ms visited ->
    Visits host p deltaTime now (m :: ms) visited
| Visits_moved (m : Monster.Monster) (ms : list Monster.Monster)
    (visited : list (Monster.Monster * bool)) :
    Monster.flag (isDestroying (Monster.data m)) = false ->
    reaches host p deltaTime now m = false ->
    Visits host p deltaTime now ms visited ->
    Visits host p deltaTime now (m :: ms) ((m, false) :: visited)
| Visits_reached (m : Monster.Monster) (ms : list Monster.Monster)
    (visited : list (Monster.Monster * bool)) :
    Monster.flag (isDestroying (Monster.data m)) = false ->
    reaches host p deltaTime now m = true ->
    Visits host p deltaTime now ms visited ->
    Visits host p deltaTime now (m :: ms) ((m, true) :: visited)
| Visits_reached_next_passed (m next : Monster.Monster) (ms : list Monster.Monster)
    (visited : list (Monster.Monster * bool)) :
    Monster.flag (isDestroying (Monster.data m)) = false ->
    reaches host p deltaTime now m = true ->
    Visits host p deltaTime now ms visited ->
    Visits host p deltaTime now (m :: next :: ms) ((m, true) :: visited).

Definition with_speed (s : Q) (m : Monster.Monster) : Monster.Monster :=
  let d := Monster.data m in
  {| Monster.data :=
       {| id := id d; x := x d; y := y d; health := health d;
          maxHealth := maxHealth d; speed := s; targetX := targetX d;
          targetY := targetY d; type := type d; color := color d; size := size d;
          equation := equation d; answer := answer d;
          isDestroying := isDestroying d;
          destructionStartTime := destructionStartTime d;
          spawnX := spawnX d; spawnY := spawnY d |};
     Monster.lastUpdateTime := Monster.lastUpdateTime m;
     Monster.spawnTime := Monster.spawnTime m |}.

(** Two engines show the same scene when they hold the same monsters around
    the same player position. *)
Definition same_scene (e e' : Engine) : Prop :=
  monsters (state e) = monsters (state e') /\
  playerPosition (state e) = playerPosition (state e').

(** The calls a session makes on an engine whose monsters are spawned
    through [spawnNextMonster] only. *)
Inductive Call : Type :=
| SpawnNext (now wave : Z) (d : QuestionGenerator.Difficulty)
            (equation : option string) (answer : option Z)
| Destroy (monsterId : string) (withAnimation : bool) (now : Z)
| Damage (monsterId : string) (damage : Q) (now : Z)
| Expire (monsterId : string)
| Frame (handle : nat) (now : Z)
| Start (now : Z)
| Pause
| Stop.

Definition is_StateUpdate (a : Action) : bool :=
  match a with StateUpdate => true | _ => false end.

Section WithHost.

Variable host : Host.

Definition step (c : Call) (e : Engine) : Js.Gen (Engine * list Action) :=
  match c with
  | SpawnNext now wave d equation answer => spawnNextMonster host e now wave d equation answer
  | Destroy monsterId withAnimation now => Js.ret (destroyMonster e monsterId withAnimation now)
  | Damage monsterId damage now => Js.ret (fst (damageMonster e monsterId damage now))
  | Expire monsterId => Js.ret (destroyTimeout e monsterId)
  | Frame h now => Js.ret (frame host e h now)
  | Start now => Js.ret (start host e now)
  | Pause => Js.ret (pause e, [])
  | Stop => Js.ret (stop e, [])
  end.

(** The time of a call of [spawnNextMonster] that did spawn: the monster
    factory notifies the state observer. *)
Definition spawn_time (c : Call) (log : list Action) : option Z :=
  match c with
  | SpawnNext now _ _ _ _ => if List.existsb is_StateUpdate log then Some now else None
  | _ => None
  end.

(** A session: the engine it ends in and the times of its spawns, the
    latest first. *)
Fixpoint run (cs : list Call) (e : Engine) (spawns : list Z)
  : Js.Gen (Engine * list Z) :=
  match cs with
  | [] => Js.ret (e, spawns)
  | c :: cs' =>
      r <- step c e ;;
      let (e1, log) := (r : Engine * list Action) in
      run cs' e1 (match spawn_time c log with
                  | Some t => t :: spawns
                  | None => spawns
                  end)
  end.

End WithHost.

(** A call that spawns nothing: the list does not grow and the time of the
    last spawn stays. *)
Definition no_spawn (e e' : Engine) : Prop :=
  (List.length (monsters (state e')) <= List.length (monsters (state e)))%nat /\
  lastSpawnTime (state e') = lastSpawnTime (state e).

(** Two spawn times at least two seconds apart. *)
Definition two_seconds_apart (later earlier : Z) : Prop := earlier + 2000 <= later.

(** A host for closed examples: the square root is taken to 64 binary
    places, rounded down, which is exact on the squares of integers. *)
Definition sample_host : Host :=
  {| Math_sqrt := fun q => Qmake (Z.sqrt (Qfloor (q * inject_Z (2 ^ 128)))) (2 ^ 64);
     number_to_string := fun q => Js.show (Qnum q) ++ "/" ++ Js.show (Z.pos (Qden q)) |}.

(** Three spawns on wave 1: from the left edge at time 0, from the right
    edge at times 3000 and 3001, all at mid height. *)
Definition sample_draws : Js.Rng :=
  fun i => nth i [3 # 4; 1 # 2; 0; 1 # 8;
                  1 # 4; 1 # 2; 0; 2 # 8;
                  1 # 4; 1 # 2; 0; 3 # 8]%Q 0%Q.

Definition three_monsters : Js.Gen Engine :=
  r1 <- spawnMonster sample_host (new_engine 0) 0 1 QuestionGenerator.easy None None ;;
  r2 <- spawnMonster sample_host (fst r1) 3000 1 QuestionGenerator.easy None None ;;
  r3 <- spawnMonster sample_host (fst r2) 3001 1 QuestionGenerator.easy None None ;;
  Js.ret (fst r3).

Definition sample_engine : Engine := Js.run three_monsters sample_draws.

(** One tank spawned on wave 5 at time 0 from the left edge at mid height. *)
Definition tank_draws : Js.Rng :=
  fun i => nth i [3 # 4; 1 # 2; 3 # 4; 1 # 8]%Q 0%Q.

Definition sample_tank : MonsterData :=
  Js.run (createMonster sample_host 0 5 QuestionGenerator.easy) tank_draws.

(** A session of spawn requests: the one at 3999 comes too early after the
    spawn at 2000, the one at 8000 finds three monsters in the list. *)
Definition sample_session : list Call :=
  [SpawnNext 2000 1 QuestionGenerator.easy None None;
   SpawnNext 3999 1 QuestionGenerator.easy None None;
   SpawnNext 4000 1 QuestionGenerator.easy (Some "2 + 3 = ?") (Some 5);
   SpawnNext 6000 1 QuestionGenerator.easy None None;
   SpawnNext 8000 1 QuestionGenerator.easy None None;
   Destroy "monster_2000_1/2" false 8500;
   SpawnNext 9000 1 QuestionGenerator.easy None None].

End Spec.

(** * Properties *)

(** ** The random source *)

Module RandomProps.
Import Js.

Lemma random_below_run (n : Z) (rng : Rng) (i : nat) :
  random_below n rng i = (Qfloor (rng i * inject_Z n), S i).
Proof. reflexivity. Qed.

(** A draw [Math.floor(Math.random() * n)] with [n > 0] lands in [0 .. n-1]. *)
Lemma random_below_range (n : Z) (rng : Rng) (i : nat) :
  unit_interval rng -> 0 < n ->
  0 <= fst (random_below n rng i) < n.
Proof.
  intros Hu Hn. rewrite random_below_run. cbn [fst].
  destruct (Hu i) as [H0 H1].
  assert (Hpos : (0 < inject_Z n)%Q) by (change (inject_Z 0 < inject_Z n)%Q; rewrite <- Zlt_Qlt; exact Hn).
  split.
  - change 0 with (Qfloor 0). apply Qfloor_resp_le.
    apply Qmult_le_0_compat; [exact H0 | apply Qlt_le_weak; exact Hpos].
  - rewrite Zlt_Qlt.
    apply Qle_lt_trans with (rng i * inject_Z n)%Q; [apply Qfloor_le |].
    setoid_replace (inject_Z n) with (1 * inject_Z n)%Q at 2 by ring.
    apply Qmult_lt_compat_r; assumption.
Qed.

Lemma constant_unit_interval (q : Q) :
  (0 <= q)%Q -> (q < 1)%Q -> unit_interval (fun _ => q).
Proof. intros H0 H1 i. split; assumption. Qed.

(** A finite list of draws, continued with zeros. *)
Lemma listed_unit_interval (l : list Q) :
  Forall (fun q => (0 <= q)%Q /\ (q < 1)%Q) l ->
  unit_interval (fun i => nth i l 0%Q).
Proof.
  intros H. induction H as [| q l Hq Hl IH]; intros [| i]; cbn [nth];
    try (split; [discriminate | reflexivity]).
  - exact Hq.
  - apply IH.
Qed.

End RandomProps.

(** ** The question generator *)

Module GeneratorProps.
Import Js QuestionGenerator RandomProps.

(** C1. The wave adjustment is a step function of the wave: waves up to 3
    resolve to easy; waves 4 to 6 to easy when the base difficulty is easy
    and to medium otherwise; waves 7 to 10 to medium when the base is easy
    and to hard otherwise; waves from 11 on to hard, whatever the base. *)
Theorem adjustDifficultyForWave_steps (d : string) (w : Z) :
  (w <= 3 -> adjustDifficultyForWave d w = easy) /\
  (4 <= w <= 6 ->
     (d = "easy" -> adjustDifficultyForWave d w = easy) /\
     (d <> "easy" -> adjustDifficultyForWave d w = medium)) /\
  (7 <= w <= 10 ->
     (d = "easy" -> adjustDifficultyForWave d w = medium) /\
     (d <> "easy" -> adjustDifficultyForWave d w = hard)) /\
  (11 <= w -> adjustDifficultyForWave d w = hard).
Proof.
  unfold adjustDifficultyForWave.
  destruct (String.eqb_spec d "easy") as [E | E];
    destruct (Z.leb_spec w 3), (Z.leb_spec w 6), (Z.leb_spec w 10);
    repeat split; intros; try reflexivity; try lia; try contradiction.
Qed.

Lemma adjustDifficultyForWave_steps_witness :
  adjustDifficultyForWave "medium" 3 = easy /\
  adjustDifficultyForWave "easy" 4 = easy /\
  adjustDifficultyForWave "hard" 6 = medium /\
  adjustDifficultyForWave "easy" 7 = medium /\
  adjustDifficultyForWave "medium" 10 = hard /\
  adjustDifficultyForWave "easy" 11 = hard.
Proof.
  refine (conj _ (conj _ (conj _ (conj _ (conj _ _))))).
  - apply (proj1 (adjustDifficultyForWave_steps "medium" 3)). lia.
  - apply (proj1 (proj2 (adjustDifficultyForWave_steps "easy" 4))); [lia | reflexivity].
  - apply (proj1 (proj2 (adjustDifficultyForWave_steps "hard" 6))); [lia | discriminate].
  - apply (proj1 (proj2 (proj2 (adjustDifficultyForWave_steps "easy" 7)))); [lia | reflexivity].
  - apply (proj1 (proj2 (proj2 (adjustDifficultyForWave_steps "medium" 10)))); [lia | discriminate].
  - apply (proj2 (proj2 (proj2 (adjustDifficultyForWave_steps "easy" 11)))). lia.
Defined.

(** The type field each arithmetic generator writes. *)
Lemma createAdditionQuestion_type id d tl rng i :
  type (fst (createAdditionQuestion id d tl rng i)) = "addition".
Proof. destruct d; reflexivity. Qed.

Lemma createSubtractionQuestion_type id d tl rng i :
  type (fst (createSubtractionQuestion id d tl rng i)) = "subtraction".
Proof.
  destruct d;
    cbv beta iota zeta delta [createSubtractionQuestion bind random_below Math_random ret fst];
    match goal with |- context [if ?c then _ else _] => destruct c end; reflexivity.
Qed.

Lemma createMultiplicationQuestion_type id d tl rng i :
  type (fst (createMultiplicationQuestion id d tl rng i)) = "multiplication".
Proof. destruct d; reflexivity. Qed.

(** A pick from the easy menu is one of its three entries, or [undefined]. *)
Lemma easy_menu_pick (k : Z) :
  let t := index (getQuestionTypes easy) k in
  t = "addition" \/ t = "subtraction" \/ t = "multiplication" \/ t = "undefined".
Proof.
  unfold index. destruct (k <? 0); [tauto |].
  destruct (Z.to_nat k) as [| [| [| n]]]; simpl; try tauto.
  destruct n; tauto.
Qed.

(** What [generateQuestion] returns, in terms of [createQuestion]. *)
Lemma generateQuestion_run ext count now d w rng i :
  let eff := adjustDifficultyForWave (difficulty_name d) w in
  let menu := getQuestionTypes eff in
  let k := fst (random_below (Z.of_nat (List.length menu)) rng i) in
  snd (fst (generateQuestion ext count now d w rng i)) =
  fst (createQuestion ext
         ("q_" ++ show (count + 1) ++ "_" ++ show now)
         (index menu k) eff
         (match d with easy => 30000 | medium => 20000 | hard => 15000 end)
         rng (S i)).
Proof.
  cbv beta iota zeta delta [generateQuestion bind ret].
  rewrite random_below_run. cbn [fst snd].
  destruct (createQuestion _ _ _ _ _ _ _). reflexivity.
Qed.

(** C2, as stated, fails: with the menu draw 0.75 the first question of an
    easy game, [generateQuestion("easy", 1)], is a multiplication. *)
Lemma easy_question_can_be_multiplication :
  ~ (forall (ext : ExtendedGenerators) (rng : Rng) (count now w : Z) (d : Difficulty),
       unit_interval rng ->
       adjustDifficultyForWave (difficulty_name d) w = easy ->
       let q := snd (run (generateQuestion ext count now d w) rng) in
       type q = "addition" \/ type q = "subtraction").
Proof.
  intro H.
  assert (U : unit_interval (fun _ => 3 # 4)%Q)
    by (apply constant_unit_interval; [discriminate | reflexivity]).
  specialize (H arithmetic_only (fun _ => 3 # 4)%Q 0 0 1 easy U eq_refl).
  vm_compute in H. destruct H as [H | H]; discriminate H.
Qed.

(** C2, amended. Every question generated at resolved difficulty easy is an
    addition, a subtraction or a multiplication. *)
Theorem easy_question_types ext (rng : Rng) (i : nat) (count now w : Z) (d : Difficulty) :
  adjustDifficultyForWave (difficulty_name d) w = easy ->
  let q := snd (fst (generateQuestion ext count now d w rng i)) in
  type q = "addition" \/ type q = "subtraction" \/ type q = "multiplication".
Proof.
  intros He q. subst q. rewrite generateQuestion_run. rewrite He.
  set (k := fst (random_below _ rng i)).
  destruct (easy_menu_pick k) as [E | [E | [E | E]]]; rewrite E.
  - left. apply createAdditionQuestion_type.
  - right; left. apply createSubtractionQuestion_type.
  - right; right. apply createMultiplicationQuestion_type.
  - left. apply createAdditionQuestion_type.
Qed.

Lemma easy_question_types_witness :
  let q := snd (fst (generateQuestion arithmetic_only 0 0 easy 1 (fun _ => 3 # 4)%Q 0%nat)) in
  type q = "addition" \/ type q = "subtraction" \/ type q = "multiplication".
Proof.
  apply (easy_question_types arithmetic_only (fun _ => 3 # 4)%Q 0%nat 0 0 1 easy).
  reflexivity.
Defined.

(** The operands [createDivisionQuestion] draws. *)
Lemma divisionOperands_range (d : Difficulty) (rng : Rng) (i : nat) :
  unit_interval rng ->
  2 <= fst (fst (divisionOperands d rng i)) /\ 1 <= snd (fst (divisionOperands d rng i)).
Proof.
  intro Hu.
  destruct d; cbv beta iota zeta delta [divisionOperands bind ret];
    rewrite !random_below_run; cbn [fst snd].
  - pose proof (random_below_range 5 rng i Hu eq_refl) as A.
    pose proof (random_below_range 10 rng (S i) Hu eq_refl) as B.
    rewrite random_below_run in A, B. cbn [fst] in A, B. lia.
  - pose proof (random_below_range 8 rng i Hu eq_refl) as A.
    pose proof (random_below_range 15 rng (S i) Hu eq_refl) as B.
    rewrite random_below_run in A, B. cbn [fst] in A, B. lia.
  - pose proof (random_below_range 10 rng i Hu eq_refl) as A.
    pose proof (random_below_range 20 rng (S i) Hu eq_refl) as B.
    rewrite random_below_run in A, B. cbn [fst] in A, B. lia.
Qed.

(** C5. In every generated division question the displayed dividend is an
    exact multiple of the displayed divisor — built as divisor times the
    drawn quotient — and the stored answer is their quotient. *)
Theorem division_question_exact ext (id : string) (d : Difficulty) (tl : Z)
  (rng : Rng) (i : nat) :
  unit_interval rng ->
  let q := fst (createQuestion ext id "division" d tl rng i) in
  exists dividend divisor : Z,
    text q = show dividend ++ " ÷ " ++ show divisor ++ " = ?" /\
    type q = "division" /\
    2 <= divisor /\
    dividend = divisor * answer q /\
    Z.rem dividend divisor = 0 /\
    dividend / divisor = answer q.
Proof.
  intros Hu q. subst q.
  change (createQuestion ext id "division" d tl) with (createDivisionQuestion id d tl).
  pose proof (divisionOperands_range d rng i Hu) as [Hd Hq].
  cbv beta iota zeta delta [createDivisionQuestion bind ret].
  destruct (divisionOperands d rng i) as [[divisor quotient] j]. cbn [fst snd] in *.
  exists (divisor * quotient), divisor.
  repeat split; try assumption.
  - rewrite Z.mul_comm. apply Z.rem_mul. lia.
  - rewrite Z.mul_comm. apply Z.div_mul. lia.
Qed.

Lemma division_question_exact_witness :
  let q := fst (createQuestion arithmetic_only "q_1_0" "division" hard 15000
                  (fun _ => 1 # 2)%Q 0%nat) in
  exists dividend divisor : Z,
    text q = show dividend ++ " ÷ " ++ show divisor ++ " = ?" /\
    type q = "division" /\
    2 <= divisor /\
    dividend = divisor * answer q /\
    Z.rem dividend divisor = 0 /\
    dividend / divisor = answer q.
Proof.
  apply (division_question_exact arithmetic_only "q_1_0" hard 15000 (fun _ => 1 # 2)%Q 0%nat).
  intro i. split; [discriminate | reflexivity].
Defined.

(** The text [createMixedQuestion] displays is the three-operand expression
    over the drawn operators. *)
Lemma mixedResult_text (op1 op2 : string) (a b c : Z) :
  snd (mixedResult op1 op2 a b c) =
  show a ++ " " ++ op1 ++ " " ++ show b ++ " " ++ op2 ++ " " ++ show c ++ " = ?".
Proof.
  unfold mixedResult.
  destruct (String.eqb_spec op1 "×") as [E1 | E1];
    destruct (String.eqb_spec op2 "×") as [E2 | E2]; subst; reflexivity.
Qed.

(** Unless both operators are multiplications, the computed result is the
    value of the displayed expression under the standard precedence. *)
Lemma mixedResult_standard (op1 op2 : string) (a b c : Z) :
  In op1 operations -> In op2 operations ->
  ~ (op1 = "×" /\ op2 = "×") ->
  fst (mixedResult op1 op2 a b c) = standard_value op1 op2 a b c.
Proof.
  unfold operations. cbn [In].
  intros [H1 | [H1 | [H1 | []]]] [H2 | [H2 | [H2 | []]]] N; subst;
    try reflexivity.
  exfalso. apply N. split; reflexivity.
Qed.

(** With two multiplications the second operator is read as a subtraction. *)
Lemma mixedResult_times_times (a b c : Z) :
  fst (mixedResult "×" "×" a b c) = a * b - c /\
  standard_value "×" "×" a b c = a * b * c.
Proof. split; reflexivity. Qed.

Lemma createAdditionQuestion_answer_pos id d tl rng i :
  unit_interval rng ->
  0 <= answer (fst (createAdditionQuestion id d tl rng i)).
Proof.
  intro Hu.
  destruct d;
    cbv beta iota zeta delta [createAdditionQuestion bind ret];
    rewrite !random_below_run; cbn [fst snd answer].
  - pose proof (random_below_range 20 rng i Hu eq_refl) as A.
    pose proof (random_below_range 20 rng (S i) Hu eq_refl) as B.
    rewrite random_below_run in A, B. cbn [fst] in A, B. lia.
  - pose proof (random_below_range 50 rng i Hu eq_refl) as A.
    pose proof (random_below_range 50 rng (S i) Hu eq_refl) as B.
    rewrite random_below_run in A, B. cbn [fst] in A, B. lia.
  - pose proof (random_below_range 100 rng i Hu eq_refl) as A.
    pose proof (random_below_range 100 rng (S i) Hu eq_refl) as B.
    rewrite random_below_run in A, B. cbn [fst] in A, B. lia.
Qed.

(** No question [createMixedQuestion] returns carries a negative answer: a
    negative result is replaced by an addition question. *)
Lemma createMixedQuestion_answer_nonneg id d tl rng i :
  unit_interval rng ->
  0 <= answer (fst (createMixedQuestion id d tl rng i)).
Proof.
  intro Hu.
  cbv beta iota zeta delta [createMixedQuestion bind ret].
  destruct (mixedOperands d rng i) as [[[op1 op2] [[a b] c]] j].
  destruct (mixedResult op1 op2 a b c) as [result questionText].
  destruct (Z.ltb_spec result 0).
  - apply createAdditionQuestion_answer_pos. exact Hu.
  - cbn [fst answer]. assumption.
Qed.

(** C3, at the failing input. On wave 11 with the draws 0.375 (menu entry 4,
    mixed), 0.75 and 0.75 (both operators [×]) and 0, 0, 0 (operands 5, 5, 5)
    the question displays "5 × 5 × 5 = ?" and stores the answer 20, while
    the displayed expression has the value 125. *)
Theorem mixed_double_multiplication_answer :
  let rng : Rng := fun i => nth i [3 # 8; 3 # 4; 3 # 4; 0; 0; 0]%Q 0%Q in
  let q := snd (run (generateQuestion arithmetic_only 0 0 hard 11) rng) in
  unit_interval rng /\
  type q = "mixed" /\
  text q = "5 × 5 × 5 = ?" /\
  answer q = 20 /\
  standard_value "×" "×" 5 5 5 = 125.
Proof.
  cbv zeta. split; [| repeat split; vm_compute; reflexivity].
  apply listed_unit_interval.
  repeat (constructor; [split; [discriminate | reflexivity] |]). constructor.
Qed.

End GeneratorProps.

(** ** The progression store *)

Module ProgressionProps.
Import QuestionGenerator GameState.

(** C4. On a correct answer the store applies the multiplier
    floor(c / 5) + 1, where c is the combo the answer brings the streak to:
    1 for c in 0..4, 2 for c in 5..9; the points added to the score are the
    base points of the question's difficulty (10, 20, 30) times it. *)
Theorem answerQuestion_combo_multiplier (st : State) (q : Question) (a c : Z) :
  currentQuestion st = Some q ->
  a = QuestionGenerator.answer q ->
  c = combo st + 1 ->
  0 <= c ->
  let st' := fst (answerQuestion st a) in
  snd (answerQuestion st a) = true /\
  combo st' = c /\
  score st' = score st + basePoints (QuestionGenerator.difficulty q) * (c / 5 + 1) /\
  (c <= 4 -> c / 5 + 1 = 1) /\
  (5 <= c <= 9 -> c / 5 + 1 = 2) /\
  basePoints easy = 10 /\ basePoints medium = 20 /\ basePoints hard = 30.
Proof.
  intros Hq Ha Hc Hpos st'. subst st'.
  unfold answerQuestion. rewrite Hq. subst a. rewrite Z.eqb_refl.
  cbn [fst snd combo score]. unfold comboMultiplier. rewrite <- Hc.
  repeat split.
  - intro. rewrite Z.div_small by lia. reflexivity.
  - intro. assert (c / 5 = 1) by (symmetry; apply Z.div_unique with (r := c - 5); lia). lia.
Qed.

Lemma answerQuestion_combo_multiplier_witness :
  let q := {| QuestionGenerator.id := "q_1_0"; text := "2 + 3 = ?";
              QuestionGenerator.answer := 5; QuestionGenerator.difficulty := easy;
              type := "addition"; QuestionGenerator.timeLimit := 30000;
              explanation := None; category := Some "arithmetic" |} in
  let st := {| phase := playing; score := 100; health := 5; maxHealth := 5;
               wave := 2; combo := 24; maxCombo := 24; currentQuestion := Some q;
               questionsAnswered := 30; correctAnswers := 28; wrongAnswers := 2;
               timeElapsed := 0; difficulty := easy; timeLimit := 30000 |} in
  combo (fst (answerQuestion st 5)) = 25 /\
  score (fst (answerQuestion st 5)) = 100 + 10 * 6.
Proof.
  intros q st.
  destruct (answerQuestion_combo_multiplier st q 5 25 eq_refl eq_refl eq_refl)
    as (_ & Hc & Hs & _); [lia |].
  split; [exact Hc | exact Hs].
Defined.

(** The helper [getComboMultiplier] of gameUtils follows another rule,
    half a point per five: 1.5 from combo 5 on. *)
Lemma getComboMultiplier_five :
  (GameUtils.getComboMultiplier 5 == 3 # 2)%Q /\
  (GameUtils.getComboMultiplier 9 == 3 # 2)%Q.
Proof. split; reflexivity. Qed.

End ProgressionProps.

(** ** The engine: the monster list *)

Module ListProps.
Import GameUtils GameEngine Spec.

Lemma findIndex_first (monsterId : string) (pre post : list Monster.Monster)
  (m : Monster.Monster) :
  (forall m', In m' pre -> id (Monster.data m') <> monsterId) ->
  id (Monster.data m) = monsterId ->
  findIndex monsterId (pre ++ m :: post)%list = Some (List.length pre).
Proof.
  intros Hpre Hm. induction pre as [| p pre IH]; cbn [app findIndex List.length].
  - rewrite Hm, String.eqb_refl. reflexivity.
  - destruct (String.eqb_spec (id (Monster.data p)) monsterId) as [E | _].
    + exfalso. apply (Hpre p); [left; reflexivity | exact E].
    + rewrite IH; [reflexivity |]. intros m' Hin. apply Hpre. right. exact Hin.
Qed.

Lemma findIndex_absent (monsterId : string) (ms : list Monster.Monster) :
  (forall m, In m ms -> id (Monster.data m) <> monsterId) ->
  findIndex monsterId ms = None.
Proof.
  induction ms as [| p ms IH]; intro H; cbn [findIndex]; [reflexivity |].
  destruct (String.eqb_spec (id (Monster.data p)) monsterId) as [E | _].
  - exfalso. apply (H p); [left; reflexivity | exact E].
  - rewrite IH; [reflexivity |]. intros m Hin. apply H. right. exact Hin.
Qed.

(** [findIndex] returns the index of a monster that carries the id. *)
Lemma findIndex_found (monsterId : string) (ms : list Monster.Monster) (j : nat) :
  findIndex monsterId ms = Some j ->
  exists m, nth_error ms j = Some m /\ id (Monster.data m) = monsterId.
Proof.
  revert j. induction ms as [| p ms IH]; intros j H; cbn [findIndex] in H; [discriminate |].
  destruct (String.eqb_spec (id (Monster.data p)) monsterId) as [E | _].
  - injection H as <-. exists p. split; [reflexivity | exact E].
  - destruct (findIndex monsterId ms) as [j' |]; [| discriminate].
    injection H as <-. destruct (IH j' eq_refl) as (m & Hn & Hid).
    exists m. split; assumption.
Qed.

(** ... and it is the first such index. *)
Lemma findIndex_le (monsterId : string) (ms : list Monster.Monster) (k : nat)
  (m : Monster.Monster) :
  nth_error ms k = Some m -> id (Monster.data m) = monsterId ->
  exists j, findIndex monsterId ms = Some j /\ (j <= k)%nat.
Proof.
  revert k. induction ms as [| p ms IH]; intros k Hn Hid.
  - destruct k; discriminate.
  - cbn [findIndex].
    destruct (String.eqb_spec (id (Monster.data p)) monsterId) as [_ | N].
    + exists O. split; [reflexivity | lia].
    + destruct k as [| k]; cbn [nth_error] in Hn.
      * injection Hn as ->. contradiction.
      * destruct (IH k Hn Hid) as (j & Hj & Hle). rewrite Hj.
        exists (S j). split; [reflexivity | lia].
Qed.

Lemma nth_error_middle (pre post : list Monster.Monster) (m : Monster.Monster) :
  nth_error (pre ++ m :: post)%list (List.length pre) = Some m.
Proof. induction pre; [reflexivity | assumption]. Qed.

Lemma splice_middle (pre post : list Monster.Monster) (m : Monster.Monster) :
  splice (List.length pre) (pre ++ m :: post)%list = (pre ++ post)%list.
Proof.
  induction pre as [| p pre IH]; [reflexivity |].
  cbn [app List.length splice]. rewrite IH. reflexivity.
Qed.

Lemma splice_length (k : nat) (ms : list Monster.Monster) :
  (List.length (splice k ms) <= List.length ms)%nat.
Proof.
  revert k. induction ms as [| p ms IH]; intros [| k]; cbn [splice List.length];
    try lia. specialize (IH k). lia.
Qed.

Lemma store_length (k : nat) (m : Monster.Monster) (ms : list Monster.Monster) :
  List.length (store k m ms) = List.length ms.
Proof.
  revert k. induction ms as [| p ms IH]; intros [| k]; cbn [store List.length];
    try reflexivity. rewrite IH. reflexivity.
Qed.

Lemma store_nth_error (k : nat) (m m' : Monster.Monster) (ms : list Monster.Monster) :
  nth_error ms k = Some m -> nth_error (store k m' ms) k = Some m'.
Proof.
  revert k. induction ms as [| p ms IH]; intros [| k] H; try discriminate.
  - reflexivity.
  - cbn [store nth_error]. apply IH. exact H.
Qed.

Lemma skipn_tail (k : nat) (ms : list Monster.Monster) :
  skipn (S k) ms = tl (skipn k ms).
Proof.
  revert ms. induction k as [| k IH]; intros [| p ms]; try reflexivity.
  cbn [skipn] in *. apply IH.
Qed.

Lemma skipn_head (k : nat) (m : Monster.Monster) (ms : list Monster.Monster) :
  nth_error ms k = Some m -> skipn k ms = m :: skipn (S k) ms.
Proof.
  revert ms. induction k as [| k IH]; intros [| p ms] H; try discriminate.
  - injection H as ->. reflexivity.
  - cbn [nth_error] in H. cbn [skipn]. apply IH in H. exact H.
Qed.

(** Writing at index [k] leaves the elements after it as they were. *)
Lemma skipn_store (j k : nat) (m : Monster.Monster) (ms : list Monster.Monster) :
  (k < j)%nat -> skipn j (store k m ms) = skipn j ms.
Proof.
  revert j k. induction ms as [| p ms IH]; intros [| j] [| k] H; try reflexivity; try lia.
  cbn [store skipn]. apply IH. lia.
Qed.

(** Removing an element at or before index [k] shifts the rest by one. *)
Lemma skipn_splice (j k : nat) (ms : list Monster.Monster) :
  (j <= k)%nat -> skipn (S k) (splice j ms) = skipn (S (S k)) ms.
Proof.
  revert j k. induction ms as [| p ms IH]; intros j k H.
  - destruct j; reflexivity.
  - destruct j as [| j]; cbn [splice].
    + reflexivity.
    + destruct k as [| k]; [lia |].
      change (skipn (S (S k)) (p :: splice j ms)) with (skipn (S k) (splice j ms)).
      change (skipn (S (S (S k))) (p :: ms)) with (skipn (S (S k)) ms).
      apply IH. lia.
Qed.

Lemma Subseq_refl {A : Type} (l : list A) : Subseq l l.
Proof. induction l; constructor; assumption. Qed.

Lemma Subseq_tail (l : list Monster.Monster) (k : nat) (ms : list Monster.Monster) :
  Subseq l (skipn (S k) ms) -> Subseq l (skipn k ms).
Proof.
  rewrite skipn_tail. destruct (skipn k ms) as [| p rest]; cbn [tl]; intro H.
  - exact H.
  - apply Subseq_skip. exact H.
Qed.

End ListProps.

(** ** The engine: destroying monsters *)

Module DestroyProps.
Import GameUtils GameEngine Spec ListProps.

(** Without animation the first monster with the id is removed at once and
    the destroyed callback fires. *)
Lemma destroyMonster_immediate (e : Engine) (monsterId : string) (now : Z) (j : nat) :
  findIndex monsterId (monsters (state e)) = Some j ->
  destroyMonster e monsterId false now =
  (set_monsters e (splice j (monsters (state e))), [MonsterDestroyed monsterId]).
Proof.
  intro H. unfold destroyMonster. rewrite H.
  destruct (findIndex_found _ _ _ H) as (m & Hn & _). rewrite Hn. reflexivity.
Qed.

(** C6, as stated, fails: a second [destroyMonster] on a monster whose
    destruction animation has started removes it and fires the destroyed
    callback. *)
Lemma destroyMonster_on_destroying_is_not_noop :
  ~ (forall (e : Engine) (monsterId : string) (withAnimation : bool) (now : Z)
            (m : Monster.Monster),
       In m (monsters (state e)) ->
       id (Monster.data m) = monsterId ->
       isDestroying (Monster.data m) = Some true ->
       destroyMonster e monsterId withAnimation now = (e, [])).
Proof.
  intro H.
  pose (e1 := fst (destroyMonster sample_engine "monster_0_1/8" true 1000)).
  pose (m1 := nth 0 (monsters (state e1)) (Monster.create sample_tank 0)).
  specialize (H e1 "monster_0_1/8" true 1100 m1).
  assert (Hlog : snd (destroyMonster e1 "monster_0_1/8" true 1100)
                 = [MonsterDestroyed "monster_0_1/8"]) by (vm_compute; reflexivity).
  rewrite H in Hlog.
  - discriminate Hlog.
  - left. vm_compute. reflexivity.
  - vm_compute. reflexivity.
  - vm_compute. reflexivity.
Qed.

(** With an id that no monster of the list carries, [destroyMonster]
    changes nothing and fires nothing. *)
Lemma destroyMonster_unknown_id (e : Engine) (monsterId : string)
  (withAnimation : bool) (now : Z) :
  (forall m, In m (monsters (state e)) -> id (Monster.data m) <> monsterId) ->
  destroyMonster e monsterId withAnimation now = (e, []).
Proof.
  intro H. unfold destroyMonster. rewrite (findIndex_absent _ _ H). reflexivity.
Qed.

(** C6. The code at the failing input. On an engine of three monsters,
    [destroyMonster("monster_0_1/8", true)] at time 1000 flags the monster,
    fires nothing and schedules its removal for time 1800. The same call at
    time 1100 finds the monster flagged: the guard
    [withAnimation && !isDestroying] sends it to the branch of the removal
    without animation, which takes the monster out of the list and fires
    the destroyed callback, where the claim has a no-op. The timer of the
    first call then fires the destroyed callback for the same monster a
    second time. *)
Theorem destroyMonster_again_removes_and_fires :
  let monsterId := "monster_0_1/8" in
  let first := destroyMonster sample_engine monsterId true 1000 in
  let second := destroyMonster (fst first) monsterId true 1100 in
  let expired := destroyTimeout (fst second) monsterId in
  snd first = [] /\
  map (fun m => Monster.flag (isDestroying (Monster.data m)))
      (monsters (state (fst first))) = [true; false; false] /\
  timers (scheduler (fst first)) = [(1800, monsterId)] /\
  snd second = [MonsterDestroyed monsterId] /\
  map (fun m => id (Monster.data m)) (monsters (state (fst second)))
  = ["monster_3000_2/8"; "monster_3001_3/8"] /\
  snd expired = [MonsterDestroyed monsterId].
Proof. vm_compute. repeat split. Qed.

End DestroyProps.

(** ** The engine: one tick *)

Module TickProps.
Import GameUtils GameEngine Spec ListProps DestroyProps.

Section WithHost.

Variable host : Host.

(** What the [forEach] body does at index [k], case by case. *)
Lemma update_monster_cases (deltaTime : Q) (now : Z) (k : nat) (e : Engine) :
  let ms := monsters (state e) in
  match nth_error ms k with
  | None => update_monster host deltaTime now k e = (e, [])
  | Some m =>
      if Monster.flag (isDestroying (Monster.data m))
      then update_monster host deltaTime now k e = (e, [])
      else
        let m' := Monster.update m deltaTime (playerPosition (state e)) now in
        if Monster.isAttacking host m' (playerPosition (state e)) PLAYER_RADIUS
        then exists j, (j <= k)%nat /\
               update_monster host deltaTime now k e =
               (set_monsters e (splice j (store k m' ms)), visit (m, true))
        else update_monster host deltaTime now k e =
             (set_monsters e (store k m' ms), visit (m, false))
  end.
Proof.
  intro ms. unfold update_monster. fold ms.
  destruct (nth_error ms k) as [m |] eqn:Hn; [| reflexivity].
  destruct (Monster.flag (isDestroying (Monster.data m))); [reflexivity |].
  cbv zeta.
  change (playerPosition (state (set_monsters e _))) with (playerPosition (state e)).
  destruct (Monster.isAttacking host _ _ _); [| reflexivity].
  set (m' := Monster.update m deltaTime (playerPosition (state e)) now).
  destruct (findIndex_le (id (Monster.data m')) (store k m' ms) k m'
              (store_nth_error k m m' ms Hn) eq_refl) as (j & Hj & Hle).
  exists j. split; [exact Hle |].
  rewrite (destroyMonster_immediate (set_monsters e (store k m' ms)) _ now j Hj).
  reflexivity.
Qed.

(** The log of the visits from index [k] on: the monsters visited are,
    in order, monsters of the list from index [k] on, none of them being
    destroyed. *)
Lemma forEach_visits (deltaTime : Q) (now : Z) (count k : nat) (e : Engine) :
  exists visited : list (Monster.Monster * bool),
    snd (forEach count k (update_monster host deltaTime now) e) = flat_map visit visited /\
    Subseq (map fst visited) (skipn k (monsters (state e))) /\
    Forall (fun v => Monster.flag (isDestroying (Monster.data (fst v))) = false) visited.
Proof.
  revert k e. induction count as [| count IH]; intros k e.
  - exists []. cbn. split; [reflexivity | split; [| constructor]].
    induction (skipn k (monsters (state e))); constructor; assumption.
  - cbn [forEach].
    pose proof (update_monster_cases deltaTime now k e) as Hc. cbv zeta in Hc.
    destruct (nth_error (monsters (state e)) k) as [m |] eqn:Hn.
    + rewrite (skipn_head k m _ Hn).
      destruct (Monster.flag (isDestroying (Monster.data m))) eqn:Hf.
      * rewrite Hc. destruct (IH (S k) e) as (visited & Hlog & Hsub & Hall).
        destruct (forEach count (S k) _ e) as [e2 log2]. cbn [snd app] in *.
        exists visited. split; [exact Hlog | split; [| exact Hall]].
        apply Subseq_skip. exact Hsub.
      * destruct (Monster.isAttacking host _ _ _).
        -- destruct Hc as (j & Hle & Hc). rewrite Hc.
           set (ms1 := store k _ (monsters (state e))) in *.
           destruct (IH (S k) (set_monsters e (splice j ms1)))
             as (visited & Hlog & Hsub & Hall).
           destruct (forEach count (S k) _ _) as [e2 log2]. cbn [snd] in *.
           exists ((m, true) :: visited). split; [| split].
           ++ cbn [flat_map]. rewrite Hlog. reflexivity.
           ++ cbn [map fst]. apply Subseq_take. apply Subseq_tail.
              change (monsters (state (set_monsters e (splice j ms1))))
                with (splice j ms1) in Hsub.
              rewrite (skipn_splice j k ms1 Hle) in Hsub. unfold ms1 in Hsub.
              rewrite skipn_store in Hsub by lia. exact Hsub.
           ++ constructor; [exact Hf | exact Hall].
        -- rewrite Hc.
           set (ms1 := store k _ (monsters (state e))) in *.
           destruct (IH (S k) (set_monsters e ms1)) as (visited & Hlog & Hsub & Hall).
           destruct (forEach count (S k) _ _) as [e2 log2]. cbn [snd] in *.
           exists ((m, false) :: visited). split; [| split].
           ++ cbn [flat_map]. rewrite Hlog. reflexivity.
           ++ cbn [map fst]. apply Subseq_take.
              change (monsters (state (set_monsters e ms1))) with ms1 in Hsub.
              unfold ms1 in Hsub. rewrite skipn_store in Hsub by lia. exact Hsub.
           ++ constructor; [exact Hf | exact Hall].
    + rewrite Hc. destruct (IH (S k) e) as (visited & Hlog & Hsub & Hall).
      destruct (forEach count (S k) _ e) as [e2 log2]. cbn [snd app] in *.
      exists visited. split; [exact Hlog | split; [| exact Hall]].
      apply Subseq_tail. exact Hsub.
Qed.

(** A pass visits monsters of the list in its order, none of them being
    destroyed. *)
Lemma Visits_Subseq (p : Point) (deltaTime : Q) (now : Z)
  (ms : list Monster.Monster) (visited : list (Monster.Monster * bool)) :
  Visits host p deltaTime now ms visited -> Subseq (map fst visited) ms.
Proof.
  induction 1; cbn [map fst].
  - constructor.
  - apply Subseq_skip. assumption.
  - apply Subseq_take. assumption.
  - apply Subseq_take. assumption.
  - apply Subseq_take. apply Subseq_skip. assumption.
Qed.

Lemma Visits_live (p : Point) (deltaTime : Q) (now : Z)
  (ms : list Monster.Monster) (visited : list (Monster.Monster * bool)) :
  Visits host p deltaTime now ms visited ->
  Forall (fun v => Monster.flag (isDestroying (Monster.data (fst v))) = false) visited.
Proof. induction 1; try constructor; assumption. Qed.

Lemma skipn_nil_nth_error (k : nat) (ms : list Monster.Monster) :
  skipn k ms = [] -> nth_error ms k = None.
Proof.
  revert ms. induction k as [| k IH]; intros [| p ms] H; try reflexivity.
  - discriminate H.
  - cbn [skipn] in H. cbn [nth_error]. apply IH. exact H.
Qed.

Lemma skipn_cons_nth_error (k : nat) (m : Monster.Monster)
  (rest ms : list Monster.Monster) :
  skipn k ms = m :: rest -> nth_error ms k = Some m /\ skipn (S k) ms = rest.
Proof.
  intro H. split.
  - revert ms H. induction k as [| k IH]; intros [| p ms] H; try discriminate H.
    + injection H as -> _. reflexivity.
    + cbn [skipn] in H. cbn [nth_error]. apply IH. exact H.
  - rewrite skipn_tail, H. reflexivity.
Qed.

(** The log of the iterations from index [k] on, when they reach the end
    of the list: a pass over the monsters from index [k] on. *)
Lemma forEach_Visits (deltaTime : Q) (now : Z) (count k : nat) (e : Engine)
  (rest : list Monster.Monster) :
  skipn k (monsters (state e)) = rest ->
  (List.length rest <= count)%nat ->
  exists visited : list (Monster.Monster * bool),
    snd (forEach count k (update_monster host deltaTime now) e) = flat_map visit visited /\
    Visits host (playerPosition (state e)) deltaTime now rest visited.
Proof.
  revert k e rest. induction count as [| count IH]; intros k e rest Hk Hlen.
  - destruct rest as [| m rest]; [| cbn [List.length] in Hlen; lia].
    exists []. split; [reflexivity | constructor].
  - cbn [forEach].
    pose proof (update_monster_cases deltaTime now k e) as Hc. cbv zeta in Hc.
    destruct rest as [| m rest].
    + rewrite (skipn_nil_nth_error k _ Hk) in Hc. rewrite Hc.
      destruct (IH (S k) e []) as (visited & Hlog & Hv).
      { rewrite skipn_tail, Hk. reflexivity. }
      { cbn [List.length]. lia. }
      destruct (forEach count (S k) _ e) as [e2 log2]. cbn [snd app] in *.
      exists visited. split; [exact Hlog | exact Hv].
    + destruct (skipn_cons_nth_error k m rest _ Hk) as [Hn Hrest].
      cbn [List.length] in Hlen.
      rewrite Hn in Hc.
      destruct (Monster.flag (isDestroying (Monster.data m))) eqn:Hf.
      * rewrite Hc. destruct (IH (S k) e rest Hrest) as (visited & Hlog & Hv); [lia |].
        destruct (forEach count (S k) _ e) as [e2 log2]. cbn [snd app] in *.
        exists visited. split; [exact Hlog |].
        apply Visits_destroying; assumption.
      * destruct (Monster.isAttacking host _ _ _) eqn:Hr.
        -- destruct Hc as (j & Hle & Hc). rewrite Hc.
           set (ms1 := store k _ (monsters (state e))) in *.
           destruct (IH (S k) (set_monsters e (splice j ms1)) (tl rest))
             as (visited & Hlog & Hv).
           { change (monsters (state (set_monsters e (splice j ms1))))
               with (splice j ms1).
             rewrite (skipn_splice j k ms1 Hle). unfold ms1.
             rewrite skipn_store by lia. rewrite skipn_tail, Hrest. reflexivity. }
           { destruct rest; cbn [tl List.length] in *; lia. }
           destruct (forEach count (S k) _ _) as [e2 log2]. cbn [snd] in *.
           exists ((m, true) :: visited). split.
           ++ cbn [flat_map]. rewrite Hlog. reflexivity.
           ++ change (playerPosition (state (set_monsters e (splice j ms1))))
                with (playerPosition (state e)) in Hv.
              destruct rest as [| next rest]; cbn [tl] in Hv.
              ** apply Visits_reached; assumption.
              ** apply Visits_reached_next_passed; assumption.
        -- rewrite Hc.
           set (ms1 := store k _ (monsters (state e))) in *.
           destruct (IH (S k) (set_monsters e ms1) rest) as (visited & Hlog & Hv).
           { change (monsters (state (set_monsters e ms1))) with ms1. unfold ms1.
             rewrite skipn_store by lia. exact Hrest. }
           { lia. }
           destruct (forEach count (S k) _ _) as [e2 log2]. cbn [snd] in *.
           exists ((m, false) :: visited). split.
           ++ cbn [flat_map]. rewrite Hlog. reflexivity.
           ++ change (playerPosition (state (set_monsters e ms1)))
                with (playerPosition (state e)) in Hv.
              apply Visits_moved; assumption.
Qed.

End WithHost.

(** C7, as stated, fails: with three monsters of which the first has
    reached the player, the reached-player callback fires before the third
    monster's position update, and the second monster is not updated in
    that tick. *)
Lemma callback_fires_before_later_updates :
  ~ (forall (host : Host) (e : Engine) (deltaTime : Q) (now : Z)
            (before after : list Action) (damage : Z) (monsterId : string),
       snd (update host e deltaTime now)
       = (before ++ MonsterReachPlayer damage :: after)%list ->
       ~ In (PositionUpdate monsterId) after).
Proof.
  intro H.
  apply (H sample_host sample_engine (1667 # 100)%Q 5000
           [PositionUpdate "monster_0_1/8"]
           [MonsterDestroyed "monster_0_1/8"; PositionUpdate "monster_3001_3/8"]
           1 "monster_3001_3/8").
  - vm_compute. reflexivity.
  - right. left. reflexivity.
Qed.

(** C7, amended. One tick passes over the monster list in insertion
    order. A monster that is being destroyed is left as it is. Every other
    monster is visited, save that the monster right after one that has
    reached the player may be passed over in that tick. A visit updates the
    monster's position and, exactly when the monster has then reached the
    player, fires its reached-player and destroyed callbacks before the next
    monster is visited: the callbacks of a tick fire in insertion order,
    each after the position update of its own monster. *)
Theorem tick_visits_in_insertion_order (host : Host) (e : Engine) (deltaTime : Q)
  (now : Z) :
  exists visited : list (Monster.Monster * bool),
    snd (update host e deltaTime now) = flat_map visit visited /\
    Visits host (playerPosition (state e)) deltaTime now (monsters (state e)) visited /\
    Subseq (map fst visited) (monsters (state e)) /\
    Forall (fun v => Monster.flag (isDestroying (Monster.data (fst v))) = false) visited.
Proof.
  unfold update.
  destruct (forEach_Visits host deltaTime now (List.length (monsters (state e))) 0 e
              (monsters (state e)) eq_refl (le_n _)) as (visited & Hlog & Hv).
  exists visited. split; [exact Hlog | split; [exact Hv | split]].
  - exact (Visits_Subseq host _ _ _ _ _ Hv).
  - exact (Visits_live host _ _ _ _ _ Hv).
Qed.

End TickProps.

(** ** The engine: pause and resume *)

Module PauseProps.
Import GameUtils GameEngine Spec ListProps DestroyProps.

Lemma cancel_pending_frame_state (e : Engine) :
  state (cancel_pending_frame e) = state e.
Proof.
  unfold cancel_pending_frame. destruct (animationId e) as [h |]; [| reflexivity].
  destruct (Nat.eqb h 0); reflexivity.
Qed.

Section WithHost.

Variable host : Host.

(** A frame that finds the engine not running does nothing. *)
Lemma gameLoop_not_running (e : Engine) (now : Z) :
  isRunning (state e) = false -> gameLoop host e now = (e, []).
Proof. intro H. unfold gameLoop. rewrite H. reflexivity. Qed.

(** The visit at an index depends on the scene and on the clock only: not
    on [deltaTime], not on the other fields of the engine. *)
Lemma update_monster_scene (dt dt' : Q) (now : Z) (k : nat) (e e' : Engine) :
  same_scene e e' ->
  same_scene (fst (update_monster host dt now k e))
             (fst (update_monster host dt' now k e')) /\
  snd (update_monster host dt now k e) = snd (update_monster host dt' now k e').
Proof.
  intros [Hm Hp]. unfold update_monster. rewrite <- Hm, <- Hp.
  destruct (nth_error (monsters (state e)) k) as [m |] eqn:Hn;
    [| split; [split; assumption | reflexivity]].
  destruct (Monster.flag (isDestroying (Monster.data m)));
    [split; [split; assumption | reflexivity] |].
  cbv zeta.
  change (playerPosition (state (set_monsters e _))) with (playerPosition (state e)).
  change (playerPosition (state (set_monsters e' _))) with (playerPosition (state e')).
  rewrite <- Hp.
  change (Monster.update m dt' (playerPosition (state e)) now)
    with (Monster.update m dt (playerPosition (state e)) now).
  set (m' := Monster.update m dt (playerPosition (state e)) now).
  destruct (Monster.isAttacking host m' _ _).
  - destruct (findIndex_le (id (Monster.data m')) (store k m' (monsters (state e))) k m'
                (store_nth_error k m m' _ Hn) eq_refl) as (j & Hj & _).
    rewrite (destroyMonster_immediate (set_monsters e _) _ now j Hj).
    rewrite (destroyMonster_immediate (set_monsters e' _) _ now j Hj).
    split; [split; [reflexivity | exact Hp] | reflexivity].
  - split; [split; [reflexivity | exact Hp] | reflexivity].
Qed.

Lemma forEach_scene (dt dt' : Q) (now : Z) (count k : nat) (e e' : Engine) :
  same_scene e e' ->
  same_scene (fst (forEach count k (update_monster host dt now) e))
             (fst (forEach count k (update_monster host dt' now) e')) /\
  snd (forEach count k (update_monster host dt now) e)
  = snd (forEach count k (update_monster host dt' now) e').
Proof.
  revert k e e'. induction count as [| count IH]; intros k e e' Hs.
  - split; [exact Hs | reflexivity].
  - cbn [forEach].
    destruct (update_monster_scene dt dt' now k e e' Hs) as [Hs1 Hl1].
    destruct (update_monster host dt now k e) as [e1 log1].
    destruct (update_monster host dt' now k e') as [e1' log1'].
    cbn [fst snd] in Hs1, Hl1.
    destruct (IH (S k) e1 e1' Hs1) as [Hs2 Hl2].
    destruct (forEach count (S k) _ e1) as [e2 log2].
    destruct (forEach count (S k) _ e1') as [e2' log2'].
    cbn [fst snd] in *. split; [exact Hs2 | rewrite Hl1, Hl2; reflexivity].
Qed.

Lemma update_scene (dt dt' : Q) (now : Z) (e e' : Engine) :
  same_scene e e' ->
  same_scene (fst (update host e dt now)) (fst (update host e' dt' now)) /\
  snd (update host e dt now) = snd (update host e' dt' now).
Proof.
  intro Hs. unfold update. rewrite <- (proj1 Hs). apply forEach_scene. exact Hs.
Qed.

End WithHost.

(** C8, as stated, fails: an engine started at time 3500, paused, and
    started again at time 4000 has moved its monsters on by the 500 ms it
    spent paused. *)
Lemma resume_does_not_continue_from_pause_position :
  ~ (forall (host : Host) (e : Engine) (t1 t2 : Z),
       t1 <= t2 ->
       let running := fst (start host e t1) in
       let resumed := fst (start host (pause running) t2) in
       Forall2 (fun m m' : Monster.Monster =>
                  (x (Monster.data m) == x (Monster.data m'))%Q /\
                  (y (Monster.data m) == y (Monster.data m'))%Q)
               (monsters (state running)) (monsters (state resumed))).
Proof.
  intro H.
  specialize (H sample_host sample_engine 3500 4000 ltac:(lia)).
  vm_compute in H.
  inversion H as [| m m' l l' [Hx _] _]. discriminate Hx.
Qed.

(** [pause()] clears the running flag and leaves the monster list, the
    player position and the spawn and update timestamps as they are; while
    paused a frame changes nothing and fires nothing. The first tick of the
    next [start()] does not depend on the time step: it is the tick of the
    wall clock, whatever time was spent paused. *)
Lemma pause_keeps_state_resume_follows_clock (host : Host) (e : Engine) :
  let paused := pause e in
  monsters (state paused) = monsters (state e) /\
  playerPosition (state paused) = playerPosition (state e) /\
  lastSpawnTime (state paused) = lastSpawnTime (state e) /\
  GameEngine.lastUpdateTime (state paused) = GameEngine.lastUpdateTime (state e) /\
  isRunning (state paused) = false /\
  (forall (h : nat) (now : Z),
     state (fst (frame host paused h now)) = state paused /\
     snd (frame host paused h now) = []) /\
  (forall (now : Z) (deltaTime : Q),
     monsters (state (fst (start host paused now)))
     = monsters (state (fst (update host e deltaTime now))) /\
     snd (start host paused now) = snd (update host e deltaTime now)).
Proof.
  intro paused.
  assert (Hst : state paused = state (set_isRunning e false))
    by apply cancel_pending_frame_state.
  repeat split; try (rewrite Hst; reflexivity).
  - unfold frame. destruct (List.existsb _ _); [| reflexivity].
    rewrite gameLoop_not_running; [reflexivity |]. cbn [state]. rewrite Hst. reflexivity.
  - unfold frame. destruct (List.existsb _ _); [| reflexivity].
    rewrite gameLoop_not_running; [reflexivity |]. cbn [state]. rewrite Hst. reflexivity.
  - unfold start, gameLoop. cbn [isRunning state set_isRunning set_lastUpdateTime set_state negb].
    set (e1 := set_lastUpdateTime _ now).
    set (dt := Qmin _ _).
    assert (Hs : same_scene e1 e).
    { unfold e1. split; cbn [state set_lastUpdateTime set_isRunning set_state monsters
                             playerPosition]; rewrite Hst; reflexivity. }
    destruct (update_scene host dt deltaTime now e1 e Hs) as [[Hm _] _].
    destruct (update host e1 dt now) as [e2 log2]. cbn [fst] in Hm.
    destruct (requestAnimationFrame (scheduler e2)). exact Hm.
  - unfold start, gameLoop. cbn [isRunning state set_isRunning set_lastUpdateTime set_state negb].
    set (e1 := set_lastUpdateTime _ now).
    set (dt := Qmin _ _).
    assert (Hs : same_scene e1 e).
    { unfold e1. split; cbn [state set_lastUpdateTime set_isRunning set_state monsters
                             playerPosition]; rewrite Hst; reflexivity. }
    destruct (update_scene host dt deltaTime now e1 e Hs) as [_ Hl].
    destruct (update host e1 dt now) as [e2 log2]. cbn [snd] in Hl.
    destruct (requestAnimationFrame (scheduler e2)). exact Hl.
Qed.

(** C8. The code at the failing input. An engine holds a monster spawned
    at time 0 at x = -250 on its way to the player at x = 400, and two
    spawned at times 3000 and 3001 at x = 1050. Started at time 3500 it
    shows them at x = 205, 985 and 985.13, and [pause()] keeps them there.
    Started again at time 4000 its first tick shows them at x = 270, 920
    and 920.13: the 500 ms spent paused have been travelled, where the
    claim has the monsters continue from their positions at the pause. *)
Theorem resume_jumps_by_the_paused_time :
  let running := fst (start sample_host sample_engine 3500) in
  let paused := pause running in
  let resumed := fst (start sample_host paused 4000) in
  let xs := fun e : Engine => map (fun m => x (Monster.data m)) (monsters (state e)) in
  isRunning (state paused) = false /\
  monsters (state paused) = monsters (state running) /\
  Forall2 Qeq (xs running) [205; 985; 98513 # 100]%Q /\
  Forall2 Qeq (xs resumed) [270; 920; 92013 # 100]%Q.
Proof.
  cbv zeta. split; [reflexivity | split; [reflexivity | split]].
  - vm_compute. repeat constructor.
  - vm_compute. repeat constructor.
Qed.

End PauseProps.

(** ** The monster factory and the monster's travel *)

Module ArrivalProps.
Import Js GameUtils Spec RandomProps.
Local Open Scope Q_scope.

(** From 5000 ms after its spawn on, a monster's travel progress is 1. *)
Lemma progress_complete (m : Monster.Monster) (now : Z) :
  (Monster.spawnTime m + 5000 <= now)%Z -> Monster.progress m now == 1.
Proof.
  intro H. unfold Monster.progress, Monster.totalTravelTime.
  apply Q.min_r. apply Qle_shift_div_l; [reflexivity |].
  change (1 * 5000) with (inject_Z 5000). rewrite <- Zle_Qle. lia.
Qed.

(** Before that it is below 1. *)
Lemma progress_incomplete (m : Monster.Monster) (now : Z) :
  (now < Monster.spawnTime m + 5000)%Z -> Monster.progress m now < 1.
Proof.
  intro H. unfold Monster.progress, Monster.totalTravelTime.
  eapply Qle_lt_trans; [apply Q.le_min_l |].
  apply Qlt_shift_div_r; [reflexivity |].
  change (1 * 5000) with (inject_Z 5000). rewrite <- Zlt_Qlt. lia.
Qed.

Section WithHost.

Variable host : Host.

(** The speed the factory stores: the exact speed times the factor of the
    type. *)
Lemma createMonster_speed (now wave : Z) (d : QuestionGenerator.Difficulty)
  (rng : Rng) (i : nat) :
  let md := fst (createMonster host now wave d rng i) in
  speed md ==
  exactSpeed host {| px := x md; py := y md |} {| px := targetX md; py := targetY md |}
  * speedFactor (type md).
Proof.
  cbv beta iota zeta delta [createMonster bind ret Math_random].
  destruct (generateMonsterSpawnPoint rng i) as [[sx sy] j].
  rewrite random_below_run. unfold speedFactor.
  set (ty := index (eligibleTypes wave) _).
  destruct (ty =? "fast")%string eqn:E1;
    [cbn [fst speed x y targetX targetY px py type]; rewrite E1; ring |].
  destruct (ty =? "tank")%string eqn:E2;
    [cbn [fst speed x y targetX targetY px py type]; rewrite E1, E2; reflexivity |].
  destruct (ty =? "boss")%string eqn:E3;
    cbn [fst speed x y targetX targetY px py type]; rewrite E1, E2, E3;
    [reflexivity | ring].
Qed.

End WithHost.

(** C9, as stated, fails: a tank spawned at time 0 is at the player
    position, and in contact with the player, at time 5000 exactly. *)
Lemma tank_arrives_at_5000 :
  ~ (forall (host : Host) (now wave : Z) (d : QuestionGenerator.Difficulty)
            (rng : Rng) (deltaTime : Q),
       unit_interval rng ->
       let md := Js.run (createMonster host now wave d) rng in
       type md = "tank" \/ type md = "boss" ->
       let target := {| px := targetX md; py := targetY md |} in
       let m := Monster.update (Monster.create md now) deltaTime target (now + 5000) in
       ~ (x (Monster.data m) == px target /\ y (Monster.data m) == py target)).
Proof.
  intro H.
  assert (U : unit_interval tank_draws).
  { apply listed_unit_interval.
    repeat (constructor; [split; [discriminate | reflexivity] |]). constructor. }
  apply (H sample_host 0%Z 5%Z QuestionGenerator.easy tank_draws 0 U).
  - left. vm_compute. reflexivity.
  - split; vm_compute; reflexivity.
Qed.

(** C9, amended. For a tank or a boss the factory stores the exact speed
    times 0.9 or 0.8 (times 1 for the other types), but the monster's
    movement never reads the stored speed: a monster of any type and any
    stored speed has travel progress below 1 before 5000 ms after its spawn
    and is at the player position from 5000 ms on, and whether it is in
    contact with the player does not depend on the stored speed either. *)
Theorem stored_speed_does_not_delay_arrival (host : Host) (m : Monster.Monster)
  (s deltaTime : Q) (p : Point) (now : Z) :
  (forall (t wave : Z) (d : QuestionGenerator.Difficulty) (rng : Rng) (i : nat),
     let md := fst (createMonster host t wave d rng i) in
     speed md ==
     exactSpeed host {| px := x md; py := y md |} {| px := targetX md; py := targetY md |}
     * speedFactor (type md)) /\
  speedFactor "tank" == 9 # 10 /\ speedFactor "boss" == 8 # 10 /\
  speedFactor "basic" == 1 /\ speedFactor "fast" == 1 /\
  Monster.update (with_speed s m) deltaTime p now
  = with_speed s (Monster.update m deltaTime p now) /\
  Monster.isAttacking host (with_speed s m) p PLAYER_RADIUS
  = Monster.isAttacking host m p PLAYER_RADIUS /\
  ((now < Monster.spawnTime m + 5000)%Z -> Monster.progress m now < 1) /\
  ((Monster.spawnTime m + 5000 <= now)%Z ->
   x (Monster.data (Monster.update m deltaTime p now)) == px p /\
   y (Monster.data (Monster.update m deltaTime p now)) == py p).
Proof.
  split; [intros; apply createMonster_speed |].
  do 6 (split; [reflexivity |]).
  split.
  - apply progress_incomplete.
  - intro H. pose proof (progress_complete m now H) as Hp.
    unfold Monster.update. cbn [Monster.data x y].
    split; rewrite Hp; ring.
Qed.

Lemma stored_speed_does_not_delay_arrival_witness :
  let m := Monster.create sample_tank 0 in
  let p := {| px := 400; py := 300 |} in
  Monster.progress m 4999 < 1 /\
  x (Monster.data (Monster.update m 0 p 5000)) == 400 /\
  y (Monster.data (Monster.update m 0 p 5000)) == 300.
Proof.
  intros m p. split.
  - apply (proj1 (proj2 (proj2 (proj2 (proj2 (proj2 (proj2 (proj2
             (stored_speed_does_not_delay_arrival sample_host m 0 0 p 4999))))))))).
    vm_compute. reflexivity.
  - apply (proj2 (proj2 (proj2 (proj2 (proj2 (proj2 (proj2 (proj2
             (stored_speed_does_not_delay_arrival sample_host m 0 0 p 5000))))))))).
    vm_compute. discriminate.
Defined.

End ArrivalProps.

(** ** The engine: gated spawning *)

Module SpawnProps.
Import Js GameUtils GameEngine Spec ListProps.

Lemma no_spawn_refl (e : Engine) : no_spawn e e.
Proof. split; [apply Nat.le_refl | reflexivity]. Qed.

Lemma no_spawn_trans (e1 e2 e3 : Engine) :
  no_spawn e1 e2 -> no_spawn e2 e3 -> no_spawn e1 e3.
Proof. intros [L1 T1] [L2 T2]. split; [lia | congruence]. Qed.

Lemma cancel_pending_frame_no_spawn (e : Engine) : no_spawn e (cancel_pending_frame e).
Proof.
  unfold cancel_pending_frame. destruct (animationId e) as [h |]; [| apply no_spawn_refl].
  destruct (Nat.eqb h 0); split; cbn; (apply Nat.le_refl || reflexivity).
Qed.

Lemma destroyMonster_no_spawn (e : Engine) (monsterId : string) (withAnimation : bool)
  (now : Z) :
  no_spawn e (fst (destroyMonster e monsterId withAnimation now)).
Proof.
  unfold destroyMonster.
  destruct (findIndex monsterId (monsters (state e))) as [j |]; [| apply no_spawn_refl].
  destruct (nth_error (monsters (state e)) j) as [m |]; [| apply no_spawn_refl].
  destruct (withAnimation && _); split; cbn; try reflexivity.
  - rewrite store_length. apply Nat.le_refl.
  - apply splice_length.
Qed.

Lemma destroyTimeout_no_spawn (e : Engine) (monsterId : string) :
  no_spawn e (fst (destroyTimeout e monsterId)).
Proof.
  unfold destroyTimeout.
  destruct (findIndex monsterId (monsters (state e))) as [j |]; [| apply no_spawn_refl].
  split; cbn; [apply splice_length | reflexivity].
Qed.

Lemma damageMonster_no_spawn (e : Engine) (monsterId : string) (damage : Q) (now : Z) :
  no_spawn e (fst (fst (damageMonster e monsterId damage now))).
Proof.
  unfold damageMonster.
  destruct (findIndex monsterId (monsters (state e))) as [k |]; [| apply no_spawn_refl].
  destruct (nth_error (monsters (state e)) k) as [m |]; [| apply no_spawn_refl].
  destruct (Monster.takeDamage m damage) as [m' isDestroyed].
  assert (H1 : no_spawn e (set_monsters e (store k m' (monsters (state e))))).
  { split; cbn; [rewrite store_length; apply Nat.le_refl | reflexivity]. }
  destruct isDestroyed; cbn [fst]; [| exact H1].
  eapply no_spawn_trans; [exact H1 | apply destroyMonster_no_spawn].
Qed.

Section WithHost.

Variable host : Host.

Lemma update_monster_no_spawn (deltaTime : Q) (now : Z) (k : nat) (e : Engine) :
  no_spawn e (fst (update_monster host deltaTime now k e)).
Proof.
  unfold update_monster.
  destruct (nth_error (monsters (state e)) k) as [m |]; [| apply no_spawn_refl].
  destruct (Monster.flag _); [apply no_spawn_refl |]. cbv zeta.
  set (e1 := set_monsters e _).
  assert (H1 : no_spawn e e1).
  { split; cbn; [rewrite store_length; apply Nat.le_refl | reflexivity]. }
  destruct (Monster.isAttacking host _ _ _); [| exact H1].
  pose proof (destroyMonster_no_spawn e1
                (id (Monster.data (Monster.update m deltaTime (playerPosition (state e)) now)))
                false now) as H2.
  destruct (destroyMonster e1 _ false now) as [e2 log]. cbn [fst] in *.
  eapply no_spawn_trans; eassumption.
Qed.

Lemma forEach_no_spawn (deltaTime : Q) (now : Z) (count k : nat) (e : Engine) :
  no_spawn e (fst (forEach count k (update_monster host deltaTime now) e)).
Proof.
  revert k e. induction count as [| count IH]; intros k e; [apply no_spawn_refl |].
  cbn [forEach].
  pose proof (update_monster_no_spawn deltaTime now k e) as H1.
  destruct (update_monster host deltaTime now k e) as [e1 log1].
  pose proof (IH (S k) e1) as H2.
  destruct (forEach count (S k) _ e1) as [e2 log2]. cbn [fst] in *.
  eapply no_spawn_trans; eassumption.
Qed.

Lemma gameLoop_no_spawn (e : Engine) (now : Z) : no_spawn e (fst (gameLoop host e now)).
Proof.
  unfold gameLoop. destruct (negb _); [apply no_spawn_refl |]. cbv zeta.
  set (e1 := set_lastUpdateTime e now).
  pose proof (forEach_no_spawn (Qmin (inject_Z (now - GameEngine.lastUpdateTime (state e)))
                                     (1667 # 100)) now
                (List.length (monsters (state e1))) 0 e1) as H.
  unfold update.
  destruct (forEach _ 0 _ e1) as [e2 log]. cbn [fst] in H.
  destruct (requestAnimationFrame (scheduler e2)). exact H.
Qed.

(** Every call other than a spawn leaves the list no longer and the time of
    the last spawn as it was; [spawnNextMonster] either does nothing or,
    with fewer than 3 monsters in the list and at least 2000 ms after the
    last spawn, appends one monster and records the time. *)
Lemma spawnNextMonster_cases (e : Engine) (now wave : Z)
  (d : QuestionGenerator.Difficulty) (equation : option string) (answer : option Z)
  (rng : Rng) (i : nat) :
  let r := fst (spawnNextMonster host e now wave d equation answer rng i) in
  (r = (e, [])) \/
  ((List.length (monsters (state e)) < 3)%nat /\
   lastSpawnTime (state e) + 2000 <= now /\
   List.length (monsters (state (fst r))) = S (List.length (monsters (state e))) /\
   lastSpawnTime (state (fst r)) = now /\
   snd r = [StateUpdate]).
Proof.
  unfold spawnNextMonster.
  destruct (Nat.ltb_spec (List.length (monsters (state e))) 3) as [Hl | _];
    [| left; reflexivity].
  destruct (Z.geb_spec (now - lastSpawnTime (state e)) 2000) as [Ht | _];
    [| left; reflexivity].
  right. cbv beta iota zeta delta [bind ret spawnMonster].
  destruct (createMonster host now wave d rng i) as [md j]. cbn.
  rewrite length_app. cbn. repeat split; lia.
Qed.

Lemma step_cases (c : Call) (e : Engine) (rng : Rng) (i : nat) :
  let r := fst (step host c e rng i) in
  (no_spawn e (fst r) /\ spawn_time c (snd r) = None) \/
  ((List.length (monsters (state e)) < 3)%nat /\
   exists now, spawn_time c (snd r) = Some now /\
     lastSpawnTime (state e) + 2000 <= now /\
     List.length (monsters (state (fst r))) = S (List.length (monsters (state e))) /\
     lastSpawnTime (state (fst r)) = now).
Proof.
  destruct c as [now wave d equation answer | monsterId withAnimation now
                | monsterId damage now | monsterId | h now | now | |];
    cbn [step spawn_time].
  - destruct (spawnNextMonster_cases e now wave d equation answer rng i)
      as [E | (Hl & Ht & Hn & Hs & Hlog)]; cbv zeta in *.
    + left. rewrite E. split; [apply no_spawn_refl | reflexivity].
    + right. split; [exact Hl |]. exists now. rewrite Hlog. cbn. auto.
  - left. split; [apply destroyMonster_no_spawn | reflexivity].
  - left. split; [apply damageMonster_no_spawn | reflexivity].
  - left. split; [apply destroyTimeout_no_spawn | reflexivity].
  - left. split; [| reflexivity]. cbn [ret fst]. unfold frame.
    destruct (List.existsb _ _); [| apply no_spawn_refl].
    apply (gameLoop_no_spawn {| state := state e; animationId := animationId e;
                                scheduler := cancelAnimationFrame (scheduler e) h |} now).
  - left. split; [| reflexivity]. cbn [ret fst]. unfold start.
    eapply no_spawn_trans; [| apply gameLoop_no_spawn].
    split; cbn; [apply Nat.le_refl | reflexivity].
  - left. split; [| reflexivity]. cbn [ret fst]. unfold pause.
    eapply no_spawn_trans; [| apply cancel_pending_frame_no_spawn].
    split; cbn; [apply Nat.le_refl | reflexivity].
  - left. split; [| reflexivity]. cbn [ret fst]. unfold stop.
    eapply no_spawn_trans; [| apply cancel_pending_frame_no_spawn].
    split; cbn; [apply Nat.le_0_l | reflexivity].
Qed.

(** What a session keeps true. *)
Lemma run_invariant (cs : list Call) (e : Engine) (spawns : list Z) (rng : Rng) (i : nat) :
  (List.length (monsters (state e)) <= 3)%nat ->
  Forall (fun t => t <= lastSpawnTime (state e)) spawns ->
  StronglySorted two_seconds_apart spawns ->
  let r := fst (run host cs e spawns rng i) in
  (List.length (monsters (state (fst r))) <= 3)%nat /\
  StronglySorted two_seconds_apart (snd r).
Proof.
  revert e spawns i. induction cs as [| c cs IH]; intros e spawns i Hl Hlast Hs.
  - split; assumption.
  - cbn [run]. cbv beta iota zeta delta [bind].
    pose proof (step_cases c e rng i) as Hc. cbv zeta in Hc.
    destruct (step host c e rng i) as [[e1 log] j]. cbn [fst snd] in Hc.
    destruct Hc as [[[Hlen Ht] Hnone] | (Hlt & now & Hsome & Hgap & Hlen & Ht)].
    + rewrite Hnone. apply IH; [lia | rewrite Ht; exact Hlast | exact Hs].
    + rewrite Hsome. apply IH.
      * lia.
      * rewrite Ht. constructor; [lia |].
        eapply Forall_impl; [| exact Hlast]. cbn. intros t Hle. lia.
      * constructor; [exact Hs |].
        eapply Forall_impl; [| exact Hlast]. unfold two_seconds_apart. intros t Hle. lia.
Qed.

End WithHost.

(** C10. [spawnNextMonster] spawns only with fewer than 3 monsters in the
    list and at least 2000 ms after the last spawn: a call either changes
    nothing or finds both conditions met, appends one monster and records
    the time. So in a session whose monsters come from [spawnNextMonster]
    the list never holds more than 3 monsters and any two spawns are at
    least 2000 ms apart. *)
Theorem spawnNextMonster_gates (host : Host) :
  (forall (e : Engine) (now wave : Z) (d : QuestionGenerator.Difficulty)
          (equation : option string) (answer : option Z) (rng : Rng) (i : nat),
     let r := fst (spawnNextMonster host e now wave d equation answer rng i) in
     (r = (e, [])) \/
     ((List.length (monsters (state e)) < 3)%nat /\
      lastSpawnTime (state e) + 2000 <= now /\
      List.length (monsters (state (fst r))) = S (List.length (monsters (state e))) /\
      lastSpawnTime (state (fst r)) = now /\
      snd r = [StateUpdate])) /\
  (forall (cs : list Call) (created : Z) (rng : Rng) (i : nat),
     let r := fst (run host cs (new_engine created) [] rng i) in
     (List.length (monsters (state (fst r))) <= 3)%nat /\
     StronglySorted two_seconds_apart (snd r)).
Proof.
  split.
  - intros. apply spawnNextMonster_cases.
  - intros cs created rng i. apply run_invariant.
    + cbn. lia.
    + constructor.
    + constructor.
Qed.

(** The sample session spawns at 2000, 4000, 6000 and 9000 and ends with
    three monsters. *)
Example sample_session_spawns :
  let r := fst (run sample_host sample_session (new_engine 0) [] (fun _ => 1 # 2)%Q 0%nat) in
  snd r = [9000; 6000; 4000; 2000] /\
  List.length (monsters (state (fst r))) = 3%nat.
Proof. vm_compute. split; reflexivity. Qed.

End SpawnProps.

(** * Further properties *)

(** ** Strings and rendered numbers *)

Module TextProps.
Import Js.

Lemma length_append (s t : string) :
  String.length (s ++ t) = (String.length s + String.length t)%nat.
Proof. induction s as [| a s IH]; cbn; [reflexivity | rewrite IH; reflexivity]. Qed.

Lemma append_cancel_r (s1 s2 t : string) : s1 ++ t = s2 ++ t -> s1 = s2.
Proof.
  revert s2. induction s1 as [| a s1 IH]; intros [| b s2] H; cbn in H.
  - reflexivity.
  - apply (f_equal String.length) in H. cbn in H. rewrite length_append in H. lia.
  - apply (f_equal String.length) in H. cbn in H. rewrite length_append in H. lia.
  - injection H as -> H. f_equal. apply IH. exact H.
Qed.

(** Two integers that render alike are equal. *)
Lemma show_inj (z z' : Z) : show z = show z' -> z = z'.
Proof.
  assert (N : forall z, Z.to_int z <> Decimal.Pos Decimal.Nil /\
                        Z.to_int z <> Decimal.Neg Decimal.Nil).
  { intro n. split; intro E; pose proof (f_equal Z.of_int E) as E';
      rewrite DecimalZ.of_to in E'; cbn in E'; subst n; vm_compute in E;
      discriminate E. }
  unfold show. intro H.
  apply DecimalZ.to_int_inj.
  assert (E : NilZero.int_of_string (NilZero.string_of_int (Z.to_int z))
              = NilZero.int_of_string (NilZero.string_of_int (Z.to_int z')))
    by (rewrite H; reflexivity).
  rewrite !NilZero.isi in E by apply N. injection E as E. exact E.
Qed.

End TextProps.

(** ** The question generator, further *)

Module GeneratorExtras.
Import Js QuestionGenerator RandomProps TextProps GeneratorProps.

(** The id a question of call number [n] at time [now] gets. *)
Lemma question_id_inj (n n' now : Z) :
  "q_" ++ show n ++ "_" ++ show now = "q_" ++ show n' ++ "_" ++ show now -> n = n'.
Proof.
  intro H. cbn [append] in H. injection H as H.
  apply append_cancel_r in H. apply show_inj. exact H.
Qed.

(** X1. A subtraction question never has a negative answer, whatever the
    draws: the operands are swapped when the second exceeds the first, the
    text shows them in that order and the answer is their difference. *)
Theorem subtraction_never_negative (id : string) (d : Difficulty) (tl : Z)
  (rng : Rng) (i : nat) :
  let q := fst (createSubtractionQuestion id d tl rng i) in
  exists a b : Z,
    text q = show a ++ " - " ++ show b ++ " = ?" /\
    b <= a /\ answer q = a - b /\ 0 <= answer q.
Proof.
  destruct d;
    cbv beta iota zeta delta [createSubtractionQuestion bind random_below Math_random ret fst];
    match goal with |- context [if ?x >? ?y then _ else _] =>
      destruct (Z.gtb_spec x y); [exists x, y | exists y, x] end;
    cbn [text answer]; repeat split; lia.
Qed.

Lemma pair_range (n m a0 b0 : Z) (rng : Rng) (i : nat) :
  unit_interval rng -> 0 < n -> 0 < m ->
  a0 <= Qfloor (rng i * inject_Z n) + a0 < n + a0 /\
  b0 <= Qfloor (rng (S i) * inject_Z m) + b0 < m + b0.
Proof.
  intros Hu Hn Hm.
  pose proof (random_below_range n rng i Hu Hn) as A.
  pose proof (random_below_range m rng (S i) Hu Hm) as B.
  rewrite random_below_run in A, B. cbn [fst] in A, B. lia.
Qed.

(** X2. An addition question shows two operands of its tier — 1 to 20 at
    easy, 10 to 59 at medium, 20 to 119 at hard — and stores their sum. *)
Theorem addition_operands_in_tier (id : string) (d : Difficulty) (tl : Z)
  (rng : Rng) (i : nat) :
  unit_interval rng ->
  let q := fst (createAdditionQuestion id d tl rng i) in
  exists a b : Z,
    text q = show a ++ " + " ++ show b ++ " = ?" /\
    answer q = a + b /\
    match d with
    | easy => 1 <= a <= 20 /\ 1 <= b <= 20
    | medium => 10 <= a <= 59 /\ 10 <= b <= 59
    | hard => 20 <= a <= 119 /\ 20 <= b <= 119
    end.
Proof.
  intros Hu q. subst q.
  destruct d;
    cbv beta iota zeta delta [createAdditionQuestion bind random_below Math_random ret fst
                              Math_floor];
    match goal with |- context [show (?x + ?a0) ++ " + " ++ show (?y + ?b0) ++ _] =>
      exists (x + a0), (y + b0) end;
    (split; [reflexivity | split; [reflexivity |]]).
  - pose proof (pair_range 20 20 1 1 rng i Hu eq_refl eq_refl). lia.
  - pose proof (pair_range 50 50 10 10 rng i Hu eq_refl eq_refl). lia.
  - pose proof (pair_range 100 100 20 20 rng i Hu eq_refl eq_refl). lia.
Qed.

Lemma addition_operands_in_tier_witness :
  exists a b : Z,
    text (fst (createAdditionQuestion "q_1_0" medium 20000 (fun _ => 1 # 2)%Q 0%nat))
    = show a ++ " + " ++ show b ++ " = ?" /\
    10 <= a <= 59 /\ 10 <= b <= 59.
Proof.
  destruct (addition_operands_in_tier "q_1_0" medium 20000 (fun _ => 1 # 2)%Q 0%nat)
    as (a & b & Ht & _ & Hr).
  - intro i. split; [discriminate | reflexivity].
  - exists a, b. split; [exact Ht | exact Hr].
Defined.

(** X3. A multiplication question shows two factors of its tier — 2 to 6 at
    easy, 3 to 10 at medium, 5 to 14 at hard — and stores their product. *)
Theorem multiplication_factors_in_tier (id : string) (d : Difficulty) (tl : Z)
  (rng : Rng) (i : nat) :
  unit_interval rng ->
  let q := fst (createMultiplicationQuestion id d tl rng i) in
  exists a b : Z,
    text q = show a ++ " × " ++ show b ++ " = ?" /\
    answer q = a * b /\
    match d with
    | easy => 2 <= a <= 6 /\ 2 <= b <= 6
    | medium => 3 <= a <= 10 /\ 3 <= b <= 10
    | hard => 5 <= a <= 14 /\ 5 <= b <= 14
    end.
Proof.
  intros Hu q. subst q.
  destruct d;
    cbv beta iota zeta delta [createMultiplicationQuestion bind random_below Math_random
                              ret fst Math_floor];
    match goal with |- context [show (?x + ?a0) ++ " × " ++ show (?y + ?b0) ++ _] =>
      exists (x + a0), (y + b0) end;
    (split; [reflexivity | split; [reflexivity |]]).
  - pose proof (pair_range 5 5 2 2 rng i Hu eq_refl eq_refl). lia.
  - pose proof (pair_range 8 8 3 3 rng i Hu eq_refl eq_refl). lia.
  - pose proof (pair_range 10 10 5 5 rng i Hu eq_refl eq_refl). lia.
Qed.

Lemma multiplication_factors_in_tier_witness :
  exists a b : Z,
    text (fst (createMultiplicationQuestion "q_1_0" hard 15000 (fun _ => 1 # 2)%Q 0%nat))
    = show a ++ " × " ++ show b ++ " = ?" /\
    5 <= a <= 14 /\ 5 <= b <= 14.
Proof.
  destruct (multiplication_factors_in_tier "q_1_0" hard 15000 (fun _ => 1 # 2)%Q 0%nat)
    as (a & b & Ht & _ & Hr).
  - intro i. split; [discriminate | reflexivity].
  - exists a, b. split; [exact Ht | exact Hr].
Defined.

(** The fields the arithmetic generators copy from their arguments. *)
Lemma createAdditionQuestion_fields id d tl rng i :
  let q := fst (createAdditionQuestion id d tl rng i) in
  QuestionGenerator.id q = id /\ difficulty q = d /\ timeLimit q = tl.
Proof. destruct d; repeat split; reflexivity. Qed.

Lemma createSubtractionQuestion_fields id d tl rng i :
  let q := fst (createSubtractionQuestion id d tl rng i) in
  QuestionGenerator.id q = id /\ difficulty q = d /\ timeLimit q = tl.
Proof.
  destruct d;
    cbv beta iota zeta delta [createSubtractionQuestion bind random_below Math_random ret fst];
    match goal with |- context [if ?c then _ else _] => destruct c end;
    repeat split; reflexivity.
Qed.

Lemma createMultiplicationQuestion_fields id d tl rng i :
  let q := fst (createMultiplicationQuestion id d tl rng i) in
  QuestionGenerator.id q = id /\ difficulty q = d /\ timeLimit q = tl.
Proof. destruct d; repeat split; reflexivity. Qed.

Lemma createDivisionQuestion_fields id d tl rng i :
  let q := fst (createDivisionQuestion id d tl rng i) in
  QuestionGenerator.id q = id /\ difficulty q = d /\ timeLimit q = tl.
Proof. destruct d; repeat split; reflexivity. Qed.

Lemma createMixedQuestion_fields id d tl rng i :
  let q := fst (createMixedQuestion id d tl rng i) in
  QuestionGenerator.id q = id /\ difficulty q = d /\ timeLimit q = tl.
Proof.
  cbv beta iota zeta delta [createMixedQuestion bind ret].
  destruct (mixedOperands d rng i) as [[[op1 op2] [[a b] c]] j].
  destruct (mixedResult op1 op2 a b c) as [result questionText].
  destruct (result <? 0).
  - apply createAdditionQuestion_fields.
  - repeat split; reflexivity.
Qed.

Lemma createQuestion_id ext id ty d tl rng i :
  keeps_id ext ->
  QuestionGenerator.id (fst (createQuestion ext id ty d tl rng i)) = id.
Proof.
  intros (Hf & Hd & Hp & Hw & Ha & Hg). unfold createQuestion.
  destruct (ty =? "addition")%string; [apply createAdditionQuestion_fields |].
  destruct (ty =? "subtraction")%string; [apply createSubtractionQuestion_fields |].
  destruct (ty =? "multiplication")%string; [apply createMultiplicationQuestion_fields |].
  destruct (ty =? "division")%string; [apply createDivisionQuestion_fields |].
  destruct (ty =? "mixed")%string; [apply createMixedQuestion_fields |].
  destruct (ty =? "fractions")%string; [apply Hf |].
  destruct (ty =? "decimals")%string; [apply Hd |].
  destruct (ty =? "percentages")%string; [apply Hp |].
  destruct (ty =? "word_problem")%string; [apply Hw |].
  destruct (ty =? "algebra")%string; [apply Ha |].
  destruct (ty =? "geometry")%string; [apply Hg |].
  apply createAdditionQuestion_fields.
Qed.

Lemma generateQuestion_counter ext count now d w rng i :
  fst (fst (generateQuestion ext count now d w rng i)) = count + 1.
Proof.
  cbv beta iota zeta delta [generateQuestion bind ret].
  rewrite random_below_run.
  destruct (createQuestion _ _ _ _ _ _ _). reflexivity.
Qed.

(** X4. On waves 1 to 3 the requested difficulty only sets the time limit:
    the question is an easy addition, subtraction or multiplication with
    the time limit of the requested difficulty (30, 20 or 15 seconds); the
    call advances the counter by one and the id carries the new count and
    the time of the call. *)
Theorem early_waves_generate_easy ext (rng : Rng) (i : nat) (count now w : Z)
  (d : Difficulty) :
  w <= 3 ->
  let r := fst (generateQuestion ext count now d w rng i) in
  fst r = count + 1 /\
  QuestionGenerator.id (snd r) = "q_" ++ show (count + 1) ++ "_" ++ show now /\
  difficulty (snd r) = easy /\
  timeLimit (snd r) = match d with easy => 30000 | medium => 20000 | hard => 15000 end /\
  (type (snd r) = "addition" \/ type (snd r) = "subtraction"
   \/ type (snd r) = "multiplication").
Proof.
  intros Hw r. subst r. split; [apply generateQuestion_counter |].
  rewrite generateQuestion_run.
  assert (He : adjustDifficultyForWave (difficulty_name d) w = easy).
  { unfold adjustDifficultyForWave. destruct (Z.leb_spec w 3); [reflexivity | lia]. }
  rewrite He. set (k := fst (random_below _ rng i)).
  set (qid := "q_" ++ show (count + 1) ++ "_" ++ show now).
  set (tl := match d with easy => 30000 | medium => 20000 | hard => 15000 end).
  destruct (GeneratorProps.easy_menu_pick k) as [E | [E | [E | E]]]; rewrite E.
  - destruct (createAdditionQuestion_fields qid easy tl rng (S i)) as (A & B & C).
    repeat split; try assumption. left. apply GeneratorProps.createAdditionQuestion_type.
  - destruct (createSubtractionQuestion_fields qid easy tl rng (S i)) as (A & B & C).
    repeat split; try assumption.
    right; left. apply GeneratorProps.createSubtractionQuestion_type.
  - destruct (createMultiplicationQuestion_fields qid easy tl rng (S i)) as (A & B & C).
    repeat split; try assumption.
    right; right. apply GeneratorProps.createMultiplicationQuestion_type.
  - destruct (createAdditionQuestion_fields qid easy tl rng (S i)) as (A & B & C).
    repeat split; try assumption. left. apply GeneratorProps.createAdditionQuestion_type.
Qed.

Lemma early_waves_generate_easy_witness :
  let r := fst (generateQuestion arithmetic_only 7 1000 hard 2 (fun _ => 1 # 2)%Q 0%nat) in
  fst r = 8 /\
  QuestionGenerator.id (snd r) = "q_8_1000" /\
  difficulty (snd r) = easy /\
  timeLimit (snd r) = 15000.
Proof.
  intro r.
  destruct (early_waves_generate_easy arithmetic_only (fun _ => 1 # 2)%Q 0%nat 7 1000 2 hard)
    as (A & B & C & D & _); [lia |].
  repeat split; assumption.
Defined.

Lemma index_in (arr : list string) (k : Z) :
  0 <= k < Z.of_nat (List.length arr) -> In (index arr k) arr.
Proof.
  intro H. unfold index. destruct (Z.ltb_spec k 0); [lia |].
  apply nth_In. lia.
Qed.

Lemma mixedOperands_ops (d : Difficulty) (rng : Rng) (i : nat) :
  unit_interval rng ->
  In (fst (fst (fst (mixedOperands d rng i)))) operations /\
  In (snd (fst (fst (mixedOperands d rng i)))) operations.
Proof.
  intro Hu.
  pose proof (random_below_range 3 rng i Hu eq_refl) as A.
  pose proof (random_below_range 3 rng (S i) Hu eq_refl) as B.
  rewrite random_below_run in A, B. cbn [fst] in A, B.
  destruct d; cbv beta iota zeta delta [mixedOperands bind ret];
    rewrite !random_below_run; cbn [fst snd];
    split; apply index_in;
    change (Z.of_nat (List.length operations)) with 3; lia.
Qed.

(** X5. A mixed-mode call returns either an addition question or a question
    of type mixed whose text is the three-operand expression over two of
    the operators +, -, × and whose answer, unless both operators are ×, is
    the value of that expression under the standard precedence; in both
    cases the answer is not negative. *)
Theorem mixed_question_shape (id : string) (d : Difficulty) (tl : Z)
  (rng : Rng) (i : nat) :
  unit_interval rng ->
  let q := fst (createMixedQuestion id d tl rng i) in
  0 <= answer q /\
  (type q = "addition" \/
   (type q = "mixed" /\
    exists (op1 op2 : string) (a b c : Z),
      In op1 operations /\ In op2 operations /\
      text q = show a ++ " " ++ op1 ++ " " ++ show b ++ " " ++ op2 ++ " "
               ++ show c ++ " = ?" /\
      (~ (op1 = "×" /\ op2 = "×") -> answer q = standard_value op1 op2 a b c))).
Proof.
  intros Hu q. subst q.
  pose proof (mixedOperands_ops d rng i Hu) as [H1 H2].
  cbv beta iota zeta delta [createMixedQuestion bind ret].
  destruct (mixedOperands d rng i) as [[[op1 op2] [[a b] c]] j]. cbn [fst snd] in H1, H2.
  pose proof (GeneratorProps.mixedResult_text op1 op2 a b c) as Ht.
  pose proof (GeneratorProps.mixedResult_standard op1 op2 a b c H1 H2) as Hs.
  destruct (mixedResult op1 op2 a b c) as [result questionText]. cbn [fst snd] in Ht, Hs.
  destruct (Z.ltb_spec result 0).
  - split; [apply GeneratorProps.createAdditionQuestion_answer_pos; exact Hu |].
    left. apply GeneratorProps.createAdditionQuestion_type.
  - cbn [fst answer type text]. split; [assumption |]. right.
    split; [reflexivity |]. exists op1, op2, a, b, c. repeat split; assumption.
Qed.

Lemma mixed_question_shape_witness :
  0 <= answer (fst (createMixedQuestion "q_1_0" hard 15000 (fun _ => 1 # 2)%Q 0%nat)).
Proof.
  apply (mixed_question_shape "q_1_0" hard 15000 (fun _ => 1 # 2)%Q 0%nat).
  intro i. split; [discriminate | reflexivity].
Defined.

(** The ids of a batch started at count [c]: those of the calls c+1, c+2, ... *)
Lemma generateQuestions_ids ext (n : nat) (c now w : Z) (d : Difficulty)
  (rng : Rng) (i : nat) :
  keeps_id ext ->
  let r := fst (generateQuestions ext n c now d w rng i) in
  fst r = c + Z.of_nat n /\
  map QuestionGenerator.id (snd r)
  = map (fun j => "q_" ++ show (c + Z.of_nat j) ++ "_" ++ show now) (seq 1 n).
Proof.
  intro Hk. revert c i. induction n as [| n IH]; intros c i.
  - cbn. split; [lia | reflexivity].
  - cbn [generateQuestions]. cbv beta iota zeta delta [bind ret].
    pose proof (generateQuestion_counter ext c now d w rng i) as Hc.
    pose proof (GeneratorProps.generateQuestion_run ext c now d w rng i) as Hq.
    cbv zeta in Hq.
    destruct (generateQuestion ext c now d w rng i) as [[c1 q] j]. cbn [fst snd] in Hc, Hq.
    specialize (IH c1 j). cbv zeta in IH.
    destruct (generateQuestions ext n c1 now d w rng j) as [[c2 qs] j2].
    cbn [fst snd] in *. destruct IH as [IH1 IH2]. subst c1. split; [lia |].
    cbn [map seq]. f_equal.
    + rewrite Hq. rewrite createQuestion_id by exact Hk.
      replace (c + Z.of_nat 1) with (c + 1) by lia. reflexivity.
    + rewrite IH2. rewrite <- (seq_shift n 1), map_map. apply map_ext.
      intro k. replace (c + 1 + Z.of_nat k) with (c + Z.of_nat (S k)) by lia. reflexivity.
Qed.

(** X6. A batch of [count] questions holds [count] questions (none when
    [count] is negative), advances the counter by as many, and gives them
    pairwise distinct ids. *)
Theorem batch_ids_distinct ext (c now count w : Z) (d : Difficulty)
  (rng : Rng) (i : nat) :
  keeps_id ext ->
  let r := fst (generateQuestionBatch ext c now count d w rng i) in
  fst r = c + Z.max 0 count /\
  List.length (snd r) = Z.to_nat count /\
  NoDup (map QuestionGenerator.id (snd r)).
Proof.
  intros Hk r. subst r. unfold generateQuestionBatch.
  destruct (generateQuestions_ids ext (Z.to_nat count) c now w d rng i Hk) as [Hc Hids].
  split; [rewrite Hc; lia | split].
  - rewrite <- (length_map QuestionGenerator.id), Hids, length_map, length_seq. reflexivity.
  - rewrite Hids. apply Finite.Injective_map_NoDup_in; [| apply seq_NoDup].
    intros j j' _ _ E. apply question_id_inj in E. lia.
Qed.

Lemma arithmetic_only_keeps_id : keeps_id arithmetic_only.
Proof. repeat split; intros id d tl rng k; apply createAdditionQuestion_fields. Qed.

Lemma batch_ids_distinct_witness :
  let r := fst (generateQuestionBatch arithmetic_only 0 1000 3 medium 5
                  (fun _ => 1 # 2)%Q 0%nat) in
  fst r = 3 /\ List.length (snd r) = 3%nat /\ NoDup (map QuestionGenerator.id (snd r)).
Proof.
  exact (batch_ids_distinct arithmetic_only 0 1000 3 5 medium (fun _ => 1 # 2)%Q 0%nat
           arithmetic_only_keeps_id).
Defined.

End GeneratorExtras.

(** ** The monster factory, further *)

Module FactoryExtras.
Import Js GameUtils RandomProps.
Local Open Scope Q_scope.

Section WithHost.

Variable host : Host.

(** The type the factory picks: the entry of the eligible types the third
    draw points at. *)
Lemma createMonster_type (now wave : Z) (d : QuestionGenerator.Difficulty)
  (rng : Rng) (i : nat) :
  exists j : nat,
    type (fst (createMonster host now wave d rng i))
    = index (eligibleTypes wave)
        (Qfloor (rng j * inject_Z (Z.of_nat (List.length (eligibleTypes wave))))).
Proof.
  cbv beta iota zeta delta [createMonster bind ret Math_random].
  destruct (generateMonsterSpawnPoint rng i) as [sp j]. exists j.
  rewrite random_below_run.
  set (ty := index (eligibleTypes wave) _).
  destruct (ty =? "fast")%string; [reflexivity |].
  destruct (ty =? "tank")%string; [reflexivity |].
  destruct (ty =? "boss")%string; reflexivity.
Qed.

Lemma eligibleTypes_cases (wave : Z) (ty : string) :
  In ty (eligibleTypes wave) ->
  ty = "basic" \/ (ty = "fast" /\ (3 <= wave)%Z) \/ (ty = "tank" /\ (5 <= wave)%Z)
  \/ (ty = "boss" /\ Z.rem wave 10 = 0%Z).
Proof.
  unfold eligibleTypes.
  destruct (Z.geb_spec wave 3), (Z.geb_spec wave 5), (Z.eqb_spec (Z.rem wave 10) 0);
    cbn [app In]; intuition (subst; auto).
Qed.

(** X7. The factory only creates types the wave unlocks: fast from wave 3,
    tank from wave 5, boss on waves that are multiples of 10; below wave 3,
    multiples of 10 apart, every monster is basic. *)
Theorem createMonster_type_unlocked (now wave : Z) (d : QuestionGenerator.Difficulty)
  (rng : Rng) (i : nat) :
  unit_interval rng ->
  let ty := type (fst (createMonster host now wave d rng i)) in
  In ty (eligibleTypes wave) /\
  (ty = "fast" -> (3 <= wave)%Z) /\
  (ty = "tank" -> (5 <= wave)%Z) /\
  (ty = "boss" -> Z.rem wave 10 = 0%Z) /\
  ((wave < 3)%Z -> Z.rem wave 10 <> 0%Z -> ty = "basic").
Proof.
  intros Hu ty. subst ty.
  destruct (createMonster_type now wave d rng i) as (j & ->).
  set (n := Z.of_nat (List.length (eligibleTypes wave))).
  assert (Hn : (0 < n)%Z).
  { unfold n, eligibleTypes. cbn [app List.length]. lia. }
  pose proof (random_below_range n rng j Hu Hn) as Hk.
  rewrite random_below_run in Hk. cbn [fst] in Hk.
  pose proof (GeneratorExtras.index_in (eligibleTypes wave) _ Hk) as Hin.
  split; [exact Hin |].
  destruct (eligibleTypes_cases wave _ Hin) as [E | [[E H] | [[E H] | [E H]]]];
    rewrite E; repeat split; intros; try discriminate; try assumption; try lia;
    try reflexivity; contradiction.
Qed.

Lemma spawn_point_cases (rng : Rng) (i : nat) :
  unit_interval rng ->
  let sp := fst (generateMonsterSpawnPoint rng i) in
  (py sp == - (250) /\ 0 <= px sp /\ px sp < 800) \/
  (px sp == 1050 /\ 0 <= py sp /\ py sp < 600) \/
  (py sp == 850 /\ 0 <= px sp /\ px sp < 800) \/
  (px sp == - (250) /\ 0 <= py sp /\ py sp < 600).
Proof.
  intros Hu. destruct (Hu (S i)) as [H0 H1].
  assert (W : 0 <= rng (S i) * CANVAS_WIDTH /\ rng (S i) * CANVAS_WIDTH < 800).
  { unfold CANVAS_WIDTH. split.
    - apply Qmult_le_0_compat; [exact H0 | discriminate].
    - setoid_replace (800 : Q) with (1 * 800) at 2 by ring.
      apply Qmult_lt_compat_r; [reflexivity | exact H1]. }
  assert (Hh : 0 <= rng (S i) * CANVAS_HEIGHT /\ rng (S i) * CANVAS_HEIGHT < 600).
  { unfold CANVAS_HEIGHT. split.
    - apply Qmult_le_0_compat; [exact H0 | discriminate].
    - setoid_replace (600 : Q) with (1 * 600) at 2 by ring.
      apply Qmult_lt_compat_r; [reflexivity | exact H1]. }
  cbv beta iota zeta delta [generateMonsterSpawnPoint bind ret Math_random].
  rewrite random_below_run.
  destruct (_ =? 0)%Z; [left; cbn [fst px py]; split; [reflexivity | exact W] |].
  destruct (_ =? 1)%Z;
    [right; left; cbn [fst px py]; split; [reflexivity | exact Hh] |].
  destruct (_ =? 2)%Z;
    [right; right; left; cbn [fst px py]; split; [reflexivity | exact W] |].
  right; right; right. cbn [fst px py]. split; [reflexivity | exact Hh].
Qed.

(** X8. A monster is created on the frame 250 pixels outside one of the
    four edges of the 800 x 600 canvas, with the coordinate along the edge
    inside the canvas, and targets the centre (400, 300). *)
Theorem createMonster_spawns_on_margin (now wave : Z) (d : QuestionGenerator.Difficulty)
  (rng : Rng) (i : nat) :
  unit_interval rng ->
  let md := fst (createMonster host now wave d rng i) in
  targetX md == 400 /\ targetY md == 300 /\
  ((y md == - (250) /\ 0 <= x md /\ x md < 800) \/
   (x md == 1050 /\ 0 <= y md /\ y md < 600) \/
   (y md == 850 /\ 0 <= x md /\ x md < 800) \/
   (x md == - (250) /\ 0 <= y md /\ y md < 600)).
Proof.
  intros Hu md. subst md.
  pose proof (spawn_point_cases rng i Hu) as Hsp. cbv zeta in Hsp.
  cbv beta iota zeta delta [createMonster bind ret Math_random].
  destruct (generateMonsterSpawnPoint rng i) as [[sx sy] j]. cbn [fst px py] in Hsp.
  rewrite random_below_run.
  set (ty := index (eligibleTypes wave) _).
  destruct (ty =? "fast")%string;
    [cbn [fst x y targetX targetY px py]; repeat split; try reflexivity; exact Hsp |].
  destruct (ty =? "tank")%string;
    [cbn [fst x y targetX targetY px py]; repeat split; try reflexivity; exact Hsp |].
  destruct (ty =? "boss")%string;
    cbn [fst x y targetX targetY px py]; repeat split; try reflexivity; exact Hsp.
Qed.

(** X9. A new monster starts at full health, an integer fixed by its type
    and the difficulty: basic 2, 2, 3; fast 1, 1, 2; tank 4, 5, 6; boss 12,
    15, 18 at easy, medium, hard. *)
Theorem createMonster_health_table (now wave : Z) (d : QuestionGenerator.Difficulty)
  (rng : Rng) (i : nat) :
  let md := fst (createMonster host now wave d rng i) in
  maxHealth md = health md /\
  health md = inject_Z
    (match d with
     | QuestionGenerator.easy =>
         if (type md =? "fast")%string then 1
         else if (type md =? "tank")%string then 4
         else if (type md =? "boss")%string then 12 else 2
     | QuestionGenerator.medium =>
         if (type md =? "fast")%string then 1
         else if (type md =? "tank")%string then 5
         else if (type md =? "boss")%string then 15 else 2
     | QuestionGenerator.hard =>
         if (type md =? "fast")%string then 2
         else if (type md =? "tank")%string then 6
         else if (type md =? "boss")%string then 18 else 3
     end)%Z.
Proof.
  cbv beta iota zeta delta [createMonster bind ret Math_random].
  destruct (generateMonsterSpawnPoint rng i) as [sp j].
  rewrite random_below_run.
  set (ty := index (eligibleTypes wave) _).
  destruct (ty =? "fast")%string eqn:E1;
    [cbn [fst health maxHealth type]; rewrite E1; destruct d; split; reflexivity |].
  destruct (ty =? "tank")%string eqn:E2;
    [cbn [fst health maxHealth type]; rewrite E1, E2; destruct d; split; reflexivity |].
  destruct (ty =? "boss")%string eqn:E3;
    cbn [fst health maxHealth type]; rewrite E1, E2, E3; destruct d; split; reflexivity.
Qed.

End WithHost.

Lemma createMonster_type_unlocked_witness :
  type (fst (createMonster Spec.sample_host 0 1 QuestionGenerator.easy
               Spec.sample_draws 0%nat)) = "basic".
Proof.
  apply (createMonster_type_unlocked Spec.sample_host 0 1 QuestionGenerator.easy
           Spec.sample_draws 0%nat).
  - apply listed_unit_interval.
    repeat (constructor; [split; [discriminate | reflexivity] |]). constructor.
  - reflexivity.
  - discriminate.
Defined.

Lemma createMonster_spawns_on_margin_witness :
  let md := fst (createMonster Spec.sample_host 0 1 QuestionGenerator.easy
                   Spec.sample_draws 0%nat) in
  targetX md == 400 /\ targetY md == 300.
Proof.
  intro md.
  assert (U : unit_interval Spec.sample_draws).
  { apply listed_unit_interval.
    repeat (constructor; [split; [discriminate | reflexivity] |]). constructor. }
  destruct (createMonster_spawns_on_margin Spec.sample_host 0 1 QuestionGenerator.easy
              Spec.sample_draws 0%nat U) as (A & B & _).
  split; [exact A | exact B].
Defined.

(** X10. [shouldSpawnBoss] holds exactly on the positive waves on which the
    factory may create a boss; the factory also does on wave 0 and on
    negative multiples of 10, where [shouldSpawnBoss] does not hold. *)
Theorem shouldSpawnBoss_vs_factory (wave : Z) :
  (In "boss" (eligibleTypes wave) <-> Z.rem wave 10 = 0%Z) /\
  (shouldSpawnBoss wave = true <-> (0 < wave)%Z /\ In "boss" (eligibleTypes wave)).
Proof.
  assert (A : In "boss" (eligibleTypes wave) <-> Z.rem wave 10 = 0%Z).
  { unfold eligibleTypes.
    destruct (Z.geb_spec wave 3), (Z.geb_spec wave 5), (Z.eqb_spec (Z.rem wave 10) 0);
      cbn [app In]; split; intro Hin; auto;
      repeat (destruct Hin as [Hin | Hin]; try discriminate Hin); try contradiction. }
  split; [exact A |].
  rewrite A. unfold shouldSpawnBoss.
  destruct (Z.gtb_spec wave 0), (Z.eqb_spec (Z.rem wave 10) 0); cbn [andb];
    split; intro Hin; try discriminate; try (split; [lia | assumption]);
    try reflexivity; destruct Hin; try lia; contradiction.
Qed.

End FactoryExtras.

(** ** The helpers of gameUtils *)

Module UtilsExtras.
Import Js GameUtils.

(** X11. The monster count of a wave never decreases with the wave, lies
    between 3 and 12 from wave 0 on, and stays at 12 from wave 18 on. *)
Theorem getWaveMonsterCount_bounds :
  (forall w w' : Z, w <= w' -> getWaveMonsterCount w <= getWaveMonsterCount w') /\
  (forall w : Z, 0 <= w -> 3 <= getWaveMonsterCount w <= 12) /\
  (forall w : Z, 18 <= w -> getWaveMonsterCount w = 12).
Proof.
  unfold getWaveMonsterCount. split; [| split].
  - intros w w' H. pose proof (Z.div_le_mono w w' 2 ltac:(lia) H). lia.
  - intros w H. pose proof (Z.div_pos w 2 H ltac:(lia)). lia.
  - intros w H. pose proof (Z.div_le_mono 18 w 2 ltac:(lia) H) as H0.
    change (18 / 2) with 9 in H0. lia.
Qed.

Lemma getWaveMonsterCount_bounds_witness :
  getWaveMonsterCount 1 <= getWaveMonsterCount 4 /\
  3 <= getWaveMonsterCount 1 <= 12 /\
  getWaveMonsterCount 40 = 12.
Proof.
  destruct getWaveMonsterCount_bounds as (A & B & C).
  split; [apply A; lia | split; [apply B; lia | apply C; lia]].
Defined.

Lemma pad_seconds (n : nat) :
  (n < 60)%nat ->
  padStart 2 (show (Z.of_nat n))
  = if Z.of_nat n <? 10 then "0" ++ show (Z.of_nat n) else show (Z.of_nat n).
Proof.
  intro H.
  do 60 (destruct n as [| n]; [vm_compute; reflexivity |]). lia.
Qed.

(** X12. For a time that is not negative, [formatTime] prints the whole
    minutes, a colon, and the remaining seconds (0 to 59) on two digits. *)
Theorem formatTime_minutes_seconds (milliseconds : Z) :
  0 <= milliseconds ->
  exists minutes seconds : Z,
    0 <= minutes /\ 0 <= seconds < 60 /\
    minutes * 60 + seconds = milliseconds / 1000 /\
    formatTime milliseconds
    = show minutes ++ ":" ++
      (if seconds <? 10 then "0" ++ show seconds else show seconds).
Proof.
  intro H. unfold formatTime.
  set (s := milliseconds / 1000).
  assert (Hs : 0 <= s) by (apply Z.div_pos; lia).
  exists (s / 60), (Z.rem s 60).
  rewrite Z.rem_mod_nonneg by lia.
  pose proof (Z.mod_pos_bound s 60 ltac:(lia)) as Hm.
  pose proof (Z.div_mod s 60 ltac:(lia)) as Hd.
  split; [apply Z.div_pos; lia | split; [exact Hm | split; [lia |]]].
  rewrite <- (Z2Nat.id (s mod 60)) by lia.
  rewrite pad_seconds by lia. reflexivity.
Qed.

Lemma formatTime_minutes_seconds_witness :
  exists minutes seconds : Z,
    0 <= minutes /\ 0 <= seconds < 60 /\
    minutes * 60 + seconds = 125000 / 1000 /\
    formatTime 125000
    = show minutes ++ ":" ++
      (if seconds <? 10 then "0" ++ show seconds else show seconds).
Proof. apply (formatTime_minutes_seconds 125000). lia. Defined.

(** X14. The score helper gives nothing for a wrong answer and, for a
    correct one with a time bonus that is not negative and a combo
    multiplier of at least 1, at least the base points of the difficulty
    (10, 20, 30); the multiplier helper is at least 1 from combo 0 on. *)
Theorem calculateQuestionScore_at_least_base (d : QuestionGenerator.Difficulty)
  (timeBonus comboMultiplier : Q) (combo : Z) :
  calculateQuestionScore d false timeBonus comboMultiplier = 0 /\
  ((0 <= timeBonus)%Q -> (1 <= comboMultiplier)%Q ->
   GameState.basePoints d <= calculateQuestionScore d true timeBonus comboMultiplier) /\
  (0 <= combo -> (1 <= getComboMultiplier combo)%Q).
Proof.
  split; [reflexivity | split].
  - intros Ht Hm. unfold calculateQuestionScore, Math_floor. cbn [negb].
    set (base := match d with
                 | QuestionGenerator.easy => 10
                 | QuestionGenerator.medium => 20
                 | QuestionGenerator.hard => 30
                 end).
    replace (GameState.basePoints d) with base by (destruct d; reflexivity).
    assert (Hb : 0 <= Qfloor (timeBonus * 5)).
    { change 0 with (Qfloor 0). apply Qfloor_resp_le.
      apply Qmult_le_0_compat; [exact Ht | discriminate]. }
    apply Z.le_trans with (Qfloor (inject_Z base));
      [rewrite Qfloor_Z; apply Z.le_refl |].
    apply Qfloor_resp_le.
    apply Qle_trans with (inject_Z (base + Qfloor (timeBonus * 5)) * 1)%Q.
    + rewrite Qmult_1_r. rewrite <- Zle_Qle. lia.
    + setoid_rewrite Qmult_comm. apply Qmult_le_compat_r; [exact Hm |].
      change (inject_Z 0 <= inject_Z (base + Qfloor (timeBonus * 5)))%Q.
      rewrite <- Zle_Qle. unfold base. destruct d; lia.
  - intro Hc. unfold getComboMultiplier.
    rewrite <- (Qplus_0_r 1) at 1. apply Qplus_le_r.
    apply Qmult_le_0_compat; [| discriminate].
    change (inject_Z 0 <= inject_Z (combo / 5))%Q. rewrite <- Zle_Qle.
    apply Z.div_pos; lia.
Qed.

Lemma calculateQuestionScore_at_least_base_witness :
  20 <= calculateQuestionScore QuestionGenerator.medium true (1 # 2)
          (getComboMultiplier 7).
Proof.
  destruct (calculateQuestionScore_at_least_base QuestionGenerator.medium (1 # 2)
              (getComboMultiplier 7) 7) as (_ & A & B).
  apply A; [discriminate | apply B; lia].
Defined.

End UtilsExtras.

(** ** The monster entity, further *)

Module MonsterExtras.
Import GameUtils.
Local Open Scope Q_scope.

(** X15. Damage never drives a monster's health below 0, and the monster is
    reported dead exactly when its health has reached 0: for a monster with
    health that is not negative, when the damage is at least its health. *)
Theorem takeDamage_clamps_at_zero (m : Monster.Monster) (amount : Q) :
  let m' := fst (Monster.takeDamage m amount) in
  let dead := snd (Monster.takeDamage m amount) in
  0 <= health (Monster.data m') /\
  (dead = true <-> health (Monster.data m') == 0) /\
  (0 <= health (Monster.data m) ->
   (dead = true <-> health (Monster.data m) <= amount)) /\
  id (Monster.data m') = id (Monster.data m) /\
  maxHealth (Monster.data m') = maxHealth (Monster.data m) /\
  Monster.spawnTime m' = Monster.spawnTime m.
Proof.
  cbn [Monster.takeDamage fst snd Monster.data Monster.set_health health id maxHealth
       Monster.spawnTime].
  set (h := health (Monster.data m)).
  assert (Hmax : 0 <= Qmax 0 (h - amount)) by apply Q.le_max_l.
  split; [exact Hmax | split; [| split; [| repeat split]]].
  - rewrite Qle_bool_iff. split; intro H.
    + apply Qle_antisym; assumption.
    + rewrite H. apply Qle_refl.
  - intro Hh. rewrite Qle_bool_iff. split; intro H.
    + assert (H1 : h - amount <= 0)
        by (eapply Qle_trans; [apply Q.le_max_r | exact H]).
      apply (Qplus_le_l _ _ (- amount)). ring_simplify.
      ring_simplify in H1. exact H1.
    + apply Q.max_lub; [apply Qle_refl |].
      apply (Qplus_le_l _ _ amount). ring_simplify. exact H.
Qed.

Lemma takeDamage_clamps_at_zero_witness :
  let m := Monster.create Spec.sample_tank 0 in
  snd (Monster.takeDamage m 4) = true /\ snd (Monster.takeDamage m 3) = false.
Proof.
  intro m.
  assert (H : 0 <= health (Monster.data m)) by (vm_compute; discriminate).
  split.
  - apply (proj2 (proj1 (proj2 (proj2 (takeDamage_clamps_at_zero m 4))) H)).
    vm_compute. discriminate.
  - destruct (snd (Monster.takeDamage m 3)) eqn:E; [| reflexivity].
    apply (proj1 (proj1 (proj2 (proj2 (takeDamage_clamps_at_zero m 3))) H)) in E.
    vm_compute in E. exfalso. apply E. reflexivity.
Defined.

(** X16. Once the spawn point recorded by an update has both coordinates
    different from 0, the position no longer depends on the earlier
    updates: updating at a first time and then at a second gives the very
    monster a single update at the second time gives, whatever the frame
    times and the player positions in between. *)
Theorem update_forgets_earlier_frames (m : Monster.Monster) (dt1 dt2 : Q)
  (p1 p2 : Point) (t1 t2 : Z) :
  let m1 := Monster.update m dt1 p1 t1 in
  Monster.falsy (spawnX (Monster.data m1)) = false ->
  Monster.falsy (spawnY (Monster.data m1)) = false ->
  Monster.update m1 dt2 p2 t2 = Monster.update m dt2 p2 t2.
Proof.
  unfold Monster.update, Monster.progress.
  cbn [Monster.data Monster.spawnTime Monster.lastUpdateTime spawnX spawnY x y id health
       maxHealth speed type color size equation answer isDestroying
       destructionStartTime].
  destruct (Monster.falsy (spawnX (Monster.data m))
            || Monster.falsy (spawnY (Monster.data m)))%bool;
    intros Hx Hy; rewrite Hx, Hy; reflexivity.
Qed.

Lemma update_forgets_earlier_frames_witness :
  let m := Monster.create Spec.sample_tank 0 in
  let p := {| px := 400; py := 300 |} in
  Monster.update (Monster.update m (1667 # 100) p 1000) (1667 # 100) p 2000
  = Monster.update m (1667 # 100) p 2000.
Proof.
  intros m p.
  apply (update_forgets_earlier_frames m (1667 # 100) (1667 # 100) p p 1000 2000);
    vm_compute; reflexivity.
Defined.

(** X17. A spawn coordinate equal to 0 counts as not recorded. A fresh
    monster with x = 0 is re-based on its current position at every update,
    so after updates at two times, with travel progress q1 and q2, it is
    at progress q1 + q2 - q1 q2 along the line to the player instead
    of q2. *)
Theorem zero_spawn_coordinate_rebases (m : Monster.Monster) (dt1 dt2 : Q) (p : Point)
  (t1 t2 : Z) :
  spawnX (Monster.data m) = None ->
  x (Monster.data m) == 0 ->
  let q1 := Monster.progress m t1 in
  let q2 := Monster.progress m t2 in
  let m2 := Monster.update (Monster.update m dt1 p t1) dt2 p t2 in
  x (Monster.data m2) == px p * (q1 + q2 - q1 * q2) /\
  y (Monster.data m2)
  == y (Monster.data m) + (py p - y (Monster.data m)) * (q1 + q2 - q1 * q2).
Proof.
  intros Hs Hx q1 q2 m2. subst m2.
  assert (Hf : Monster.falsy (Some (x (Monster.data m))) = true)
    by (cbn [Monster.falsy]; apply Qeq_bool_iff; exact Hx).
  unfold Monster.update.
  cbn [Monster.data Monster.spawnTime spawnX spawnY x y].
  rewrite Hs. change (Monster.falsy None) with true. cbn [orb].
  rewrite Hf. cbn [orb Monster.from_option].
  change (Monster.progress {| Monster.data := _; Monster.lastUpdateTime := _;
                              Monster.spawnTime := Monster.spawnTime m |} t2) with q2.
  fold q1. split; [rewrite Hx |]; ring.
Qed.

Lemma zero_spawn_coordinate_rebases_witness :
  let d := Spec.sample_tank in
  let m := Monster.create
             {| id := id d; x := 0; y := - (250); health := health d;
                maxHealth := maxHealth d; speed := speed d; targetX := targetX d;
                targetY := targetY d; type := type d; color := color d; size := size d;
                equation := None; answer := None; isDestroying := None;
                destructionStartTime := None; spawnX := None; spawnY := None |} 0 in
  let p := {| px := 400; py := 300 |} in
  y (Monster.data (Monster.update (Monster.update m 0 p 2500) 0 p 2500))
  == - (250) + (300 - - (250)) * (3 # 4).
Proof.
  intros d m p.
  destruct (zero_spawn_coordinate_rebases m 0 0 p 2500 2500 eq_refl) as [_ Hy].
  - reflexivity.
  - rewrite Hy. vm_compute. reflexivity.
Defined.

End MonsterExtras.

(** ** The engine, further *)

Module EngineExtras.
Import GameUtils GameEngine Spec ListProps.

Lemma store_middle (pre post : list Monster.Monster) (m m' : Monster.Monster) :
  store (List.length pre) m' (pre ++ m :: post)%list = (pre ++ m' :: post)%list.
Proof.
  induction pre as [| p pre IH]; [reflexivity |].
  cbn [app List.length store]. rewrite IH. reflexivity.
Qed.

(** The engine an animated [destroyMonster] on a live monster returns. *)
Lemma destroyMonster_animated (e : Engine) (monsterId : string) (now : Z)
  (pre post : list Monster.Monster) (m : Monster.Monster) :
  monsters (state e) = (pre ++ m :: post)%list ->
  (forall m', In m' pre -> id (Monster.data m') <> monsterId) ->
  id (Monster.data m) = monsterId ->
  Monster.flag (isDestroying (Monster.data m)) = false ->
  destroyMonster e monsterId true now
  = ({| state := state (set_monsters e (pre ++ start_destruction m now :: post)%list);
        animationId := animationId e;
        scheduler := setTimeout (scheduler e) (now + 800) monsterId |}, []).
Proof.
  intros HL Hpre Hid Hf. unfold destroyMonster. rewrite HL.
  rewrite (findIndex_first monsterId pre post m Hpre Hid), nth_error_middle, Hf.
  cbn [andb negb]. rewrite store_middle. reflexivity.
Qed.

(** A monster already flagged leaves at once, with or without animation. *)
Lemma destroyMonster_flagged (e : Engine) (monsterId : string) (withAnimation : bool)
  (now : Z) (pre post : list Monster.Monster) (m : Monster.Monster) :
  monsters (state e) = (pre ++ m :: post)%list ->
  (forall m', In m' pre -> id (Monster.data m') <> monsterId) ->
  id (Monster.data m) = monsterId ->
  Monster.flag (isDestroying (Monster.data m)) = true ->
  destroyMonster e monsterId withAnimation now
  = (set_monsters e (pre ++ post)%list, [MonsterDestroyed monsterId]).
Proof.
  intros HL Hpre Hid Hf. unfold destroyMonster. rewrite HL.
  rewrite (findIndex_first monsterId pre post m Hpre Hid), nth_error_middle, Hf.
  cbn [negb]. rewrite Bool.andb_false_r, splice_middle. reflexivity.
Qed.

(** X18. An animated [destroyMonster] on a monster that is not yet being
    destroyed keeps it in the list, flagged and stamped with the time,
    fires no callback and schedules the removal 800 ms later; when that
    timer runs the monster leaves the list and the destroyed callback
    fires. *)
Theorem animated_destroy_lifecycle (e : Engine) (monsterId : string) (now : Z)
  (pre post : list Monster.Monster) (m : Monster.Monster) :
  monsters (state e) = (pre ++ m :: post)%list ->
  (forall m', In m' pre -> id (Monster.data m') <> monsterId) ->
  id (Monster.data m) = monsterId ->
  Monster.flag (isDestroying (Monster.data m)) = false ->
  let e1 := fst (destroyMonster e monsterId true now) in
  snd (destroyMonster e monsterId true now) = [] /\
  monsters (state e1) = (pre ++ start_destruction m now :: post)%list /\
  isDestroying (Monster.data (start_destruction m now)) = Some true /\
  destructionStartTime (Monster.data (start_destruction m now)) = Some now /\
  timers (scheduler e1) = (timers (scheduler e) ++ [(now + 800, monsterId)])%list /\
  destroyTimeout e1 monsterId
  = (set_monsters e1 (pre ++ post)%list, [MonsterDestroyed monsterId]).
Proof.
  intros HL Hpre Hid Hf.
  rewrite (destroyMonster_animated e monsterId now pre post m HL Hpre Hid Hf).
  cbn [fst snd state set_monsters set_state monsters scheduler setTimeout timers].
  repeat split.
  unfold destroyTimeout. cbn [state monsters].
  rewrite (findIndex_first monsterId pre post (start_destruction m now) Hpre Hid).
  rewrite splice_middle. reflexivity.
Qed.

Lemma animated_destroy_lifecycle_witness :
  let e1 := fst (destroyMonster sample_engine "monster_3000_2/8" true 3500) in
  snd (destroyMonster sample_engine "monster_3000_2/8" true 3500) = [] /\
  List.length (monsters (state e1)) = 3%nat /\
  snd (destroyTimeout e1 "monster_3000_2/8") = [MonsterDestroyed "monster_3000_2/8"] /\
  List.length (monsters (state (fst (destroyTimeout e1 "monster_3000_2/8")))) = 2%nat.
Proof.
  intro e1.
  pose (d := Monster.create sample_tank 0).
  pose (m1 := nth 0 (monsters (state sample_engine)) d).
  pose (m2 := nth 1 (monsters (state sample_engine)) d).
  pose (m3 := nth 2 (monsters (state sample_engine)) d).
  destruct (animated_destroy_lifecycle sample_engine "monster_3000_2/8" 3500
              [m1] [m3] m2) as (A & B & _ & _ & _ & C).
  - vm_compute. reflexivity.
  - intros m' [<- | []]. vm_compute. discriminate.
  - vm_compute. reflexivity.
  - vm_compute. reflexivity.
  - fold e1 in B, C. split; [exact A | split; [rewrite B; reflexivity |]].
    rewrite C. split; reflexivity.
Defined.

(** X19. A [destroyMonster] without animation removes the first monster
    that carries the id, whether it is being destroyed or not, keeps the
    others in their order and fires the destroyed callback once. *)
Theorem immediate_destroy_removes_first (e : Engine) (monsterId : string) (now : Z)
  (pre post : list Monster.Monster) (m : Monster.Monster) :
  monsters (state e) = (pre ++ m :: post)%list ->
  (forall m', In m' pre -> id (Monster.data m') <> monsterId) ->
  id (Monster.data m) = monsterId ->
  destroyMonster e monsterId false now
  = (set_monsters e (pre ++ post)%list, [MonsterDestroyed monsterId]).
Proof.
  intros HL Hpre Hid. unfold destroyMonster. rewrite HL.
  rewrite (findIndex_first monsterId pre post m Hpre Hid), nth_error_middle.
  cbn [andb]. rewrite splice_middle. reflexivity.
Qed.

Lemma immediate_destroy_removes_first_witness :
  exists m1 m3,
    destroyMonster sample_engine "monster_3000_2/8" false 3500
    = (set_monsters sample_engine [m1; m3], [MonsterDestroyed "monster_3000_2/8"]).
Proof.
  pose (d := Monster.create sample_tank 0).
  pose (m1 := nth 0 (monsters (state sample_engine)) d).
  pose (m2 := nth 1 (monsters (state sample_engine)) d).
  pose (m3 := nth 2 (monsters (state sample_engine)) d).
  exists m1, m3.
  apply (immediate_destroy_removes_first sample_engine "monster_3000_2/8" 3500
           [m1] [m3] m2).
  - vm_compute. reflexivity.
  - intros m' [<- | []]. vm_compute. discriminate.
  - vm_compute. reflexivity.
Defined.

(** X20. The removal timer does not check that its monster still exists:
    run after [stop()] has cleared the list, it changes nothing and still
    fires the destroyed callback. *)
Theorem timer_after_stop_still_fires (e : Engine) (monsterId : string) :
  monsters (state (stop e)) = [] /\
  destroyTimeout (stop e) monsterId = (stop e, [MonsterDestroyed monsterId]).
Proof.
  assert (H : monsters (state (stop e)) = []).
  { unfold stop. rewrite PauseProps.cancel_pending_frame_state. reflexivity. }
  split; [exact H |]. unfold destroyTimeout. rewrite H. reflexivity.
Qed.

(** X21. The destroyed callback can fire twice for one monster: after an
    animated [destroyMonster], a second [destroyMonster] removes the monster
    and fires the callback, and the pending timer of the first call fires
    it again, the list being left as it is. *)
Theorem destroyed_callback_can_fire_twice (e : Engine) (monsterId : string)
  (withAnimation : bool) (t1 t2 : Z) (pre post : list Monster.Monster)
  (m : Monster.Monster) :
  monsters (state e) = (pre ++ m :: post)%list ->
  (forall m', In m' (pre ++ post)%list -> id (Monster.data m') <> monsterId) ->
  id (Monster.data m) = monsterId ->
  Monster.flag (isDestroying (Monster.data m)) = false ->
  let e1 := fst (destroyMonster e monsterId true t1) in
  let e2 := fst (destroyMonster e1 monsterId withAnimation t2) in
  In (t1 + 800, monsterId) (timers (scheduler e2)) /\
  snd (destroyMonster e1 monsterId withAnimation t2) = [MonsterDestroyed monsterId] /\
  monsters (state e2) = (pre ++ post)%list /\
  destroyTimeout e2 monsterId = (e2, [MonsterDestroyed monsterId]).
Proof.
  intros HL Hno Hid Hf.
  assert (Hpre : forall m', In m' pre -> id (Monster.data m') <> monsterId)
    by (intros m' Hin; apply Hno; apply in_or_app; left; exact Hin).
  rewrite (destroyMonster_animated e monsterId t1 pre post m HL Hpre Hid Hf).
  cbn [fst]. set (e1 := {| state := _; animationId := _; scheduler := _ |}).
  rewrite (destroyMonster_flagged e1 monsterId withAnimation t2 pre post
             (start_destruction m t1) eq_refl Hpre Hid eq_refl).
  cbn [fst snd].
  split; [| split; [reflexivity | split; [reflexivity |]]].
  - cbn. apply in_or_app. right. left. reflexivity.
  - unfold destroyTimeout. cbn [state monsters set_monsters set_state].
    rewrite (findIndex_absent monsterId (pre ++ post)%list Hno). reflexivity.
Qed.

Lemma destroyed_callback_can_fire_twice_witness :
  let e1 := fst (destroyMonster sample_engine "monster_3000_2/8" true 3500) in
  let e2 := fst (destroyMonster e1 "monster_3000_2/8" false 3600) in
  snd (destroyMonster e1 "monster_3000_2/8" false 3600)
  = [MonsterDestroyed "monster_3000_2/8"] /\
  destroyTimeout e2 "monster_3000_2/8" = (e2, [MonsterDestroyed "monster_3000_2/8"]).
Proof.
  intros e1 e2.
  pose (d := Monster.create sample_tank 0).
  pose (m1 := nth 0 (monsters (state sample_engine)) d).
  pose (m2 := nth 1 (monsters (state sample_engine)) d).
  pose (m3 := nth 2 (monsters (state sample_engine)) d).
  destruct (destroyed_callback_can_fire_twice sample_engine "monster_3000_2/8" false
              3500 3600 [m1] [m3] m2) as (_ & A & _ & B).
  - vm_compute. reflexivity.
  - intros m' [<- | [<- | []]]; vm_compute; discriminate.
  - vm_compute. reflexivity.
  - vm_compute. reflexivity.
  - split; [exact A | exact B].
Defined.

(** X22. For an id no monster carries [damageMonster] changes nothing and
    reports no kill. On a live monster it fires no callback and keeps the
    monster in its place with the reduced health; when the damage kills, it
    reports so, flags the monster as being destroyed and schedules its
    removal 800 ms later. *)
Theorem damageMonster_outcomes (e : Engine) (monsterId : string) (damage : Q) (now : Z) :
  ((forall m, In m (monsters (state e)) -> id (Monster.data m) <> monsterId) ->
   damageMonster e monsterId damage now = (e, [], false)) /\
  (forall (pre post : list Monster.Monster) (m : Monster.Monster),
     monsters (state e) = (pre ++ m :: post)%list ->
     (forall m', In m' pre -> id (Monster.data m') <> monsterId) ->
     id (Monster.data m) = monsterId ->
     Monster.flag (isDestroying (Monster.data m)) = false ->
     let m' := fst (Monster.takeDamage m damage) in
     let killed := snd (Monster.takeDamage m damage) in
     let r := damageMonster e monsterId damage now in
     snd r = killed /\
     snd (fst r) = [] /\
     monsters (state (fst (fst r)))
     = (pre ++ (if killed then start_destruction m' now else m') :: post)%list /\
     timers (scheduler (fst (fst r)))
     = (timers (scheduler e) ++ (if killed then [(now + 800, monsterId)] else []))%list).
Proof.
  split.
  - intro H. unfold damageMonster. rewrite (findIndex_absent _ _ H). reflexivity.
  - intros pre post m HL Hpre Hid Hf m' killed r. subst m' killed r.
    unfold damageMonster. rewrite HL.
    rewrite (findIndex_first monsterId pre post m Hpre Hid), nth_error_middle.
    destruct (Monster.takeDamage m damage) as [m' killed] eqn:Ht.
    assert (Em : m' = {| Monster.data := Monster.set_health (Monster.data m)
                                           (health (Monster.data m'));
                         Monster.lastUpdateTime := Monster.lastUpdateTime m;
                         Monster.spawnTime := Monster.spawnTime m |})
      by (unfold Monster.takeDamage in Ht; injection Ht as <- _; reflexivity).
    rewrite store_middle. cbn [fst snd].
    destruct killed; cbn [fst snd].
    + rewrite (destroyMonster_animated (set_monsters e (pre ++ m' :: post)%list)
                 monsterId now pre post m' eq_refl Hpre).
      * cbn [fst snd state set_monsters set_state monsters scheduler setTimeout timers].
        repeat split.
      * rewrite Em. exact Hid.
      * rewrite Em. exact Hf.
    + cbn [state set_monsters set_state monsters scheduler].
      rewrite app_nil_r. repeat split.
Qed.

Lemma damageMonster_outcomes_witness :
  damageMonster sample_engine "monster_9_9/9" 1 3500 = (sample_engine, [], false) /\
  snd (damageMonster sample_engine "monster_0_1/8" 2 3500) = true /\
  snd (fst (damageMonster sample_engine "monster_0_1/8" 2 3500)) = [].
Proof.
  pose (d := Monster.create sample_tank 0).
  pose (m1 := nth 0 (monsters (state sample_engine)) d).
  pose (m2 := nth 1 (monsters (state sample_engine)) d).
  pose (m3 := nth 2 (monsters (state sample_engine)) d).
  split.
  - apply (proj1 (damageMonster_outcomes sample_engine "monster_9_9/9" 1 3500)).
    intros m [<- | [<- | [<- | []]]]; vm_compute; discriminate.
  - destruct (proj2 (damageMonster_outcomes sample_engine "monster_0_1/8" 2 3500)
                [] [m2; m3] m1) as (A & B & _).
    + vm_compute. reflexivity.
    + intros m' [].
    + vm_compute. reflexivity.
    + vm_compute. reflexivity.
    + split; [rewrite A; vm_compute; reflexivity | exact B].
Defined.

Section WithHost.

Variable host : Host.

(** What the factory leaves unset. *)
Lemma createMonster_fresh (now wave : Z) (d : QuestionGenerator.Difficulty)
  (rng : Js.Rng) (i : nat) :
  let md := fst (createMonster host now wave d rng i) in
  equation md = None /\ answer md = None /\ isDestroying md = None /\
  spawnX md = None /\ spawnY md = None.
Proof.
  cbv beta iota zeta delta [createMonster Js.bind Js.ret Js.Math_random].
  destruct (generateMonsterSpawnPoint rng i) as [sp j].
  rewrite RandomProps.random_below_run.
  set (ty := Js.index (eligibleTypes wave) _).
  destruct (ty =? "fast")%string; [repeat split |].
  destruct (ty =? "tank")%string; [repeat split |].
  destruct (ty =? "boss")%string; repeat split.
Qed.

(** X23. [spawnMonster] is not gated: whatever the length of the list and
    the time of the last spawn, it appends one monster at the end, not
    being destroyed and stamped with the time of the call, notifies the
    state observer once and leaves the time of the last spawn as it was.
    The monster carries the equation only when an answer comes with it and
    the equation is not the empty string. *)
Theorem spawnMonster_appends_one (e : Engine) (now wave : Z)
  (d : QuestionGenerator.Difficulty) (equation : option string) (answer : option Z)
  (rng : Js.Rng) (i : nat) :
  let r := fst (spawnMonster host e now wave d equation answer rng i) in
  exists m : Monster.Monster,
    monsters (state (fst r)) = (monsters (state e) ++ [m])%list /\
    snd r = [StateUpdate] /\
    Monster.spawnTime m = now /\
    isDestroying (Monster.data m) = None /\
    lastSpawnTime (state (fst r)) = lastSpawnTime (state e) /\
    GameUtils.equation (Monster.data m)
    = match equation, answer with
      | Some eq, Some _ => if (eq =? "")%string then None else Some eq
      | _, _ => None
      end.
Proof.
  cbv beta iota zeta delta [spawnMonster Js.bind Js.ret].
  pose proof (createMonster_fresh now wave d rng i) as Hfresh. cbv zeta in Hfresh.
  destruct (createMonster host now wave d rng i) as [md j]. cbn [fst snd] in *.
  destruct Hfresh as (He & _ & Hd & _).
  exists (Monster.create (tag md equation answer) now).
  repeat split.
  - unfold tag. destruct equation as [eq |], answer as [a |]; try exact Hd.
    destruct (eq =? "")%string; exact Hd.
  - unfold tag. destruct equation as [eq |], answer as [a |]; try exact He.
    destruct (eq =? "")%string; [exact He | reflexivity].
Qed.

(** A tick leaves the scheduler and the frame handle alone. *)
Lemma update_monster_scheduler (deltaTime : Q) (now : Z) (k : nat) (e : Engine) :
  scheduler (fst (update_monster host deltaTime now k e)) = scheduler e /\
  animationId (fst (update_monster host deltaTime now k e)) = animationId e /\
  playerPosition (state (fst (update_monster host deltaTime now k e)))
  = playerPosition (state e).
Proof.
  unfold update_monster.
  destruct (nth_error (monsters (state e)) k) as [m |]; [| repeat split].
  destruct (Monster.flag _); [repeat split |]. cbv zeta.
  destruct (Monster.isAttacking host _ _ _); [| repeat split].
  unfold destroyMonster. cbn [state set_monsters set_state monsters].
  destruct (findIndex _ _) as [j |]; [| repeat split].
  destruct (nth_error _ j); repeat split.
Qed.

Lemma forEach_scheduler (deltaTime : Q) (now : Z) (count k : nat) (e : Engine) :
  scheduler (fst (forEach count k (update_monster host deltaTime now) e)) = scheduler e /\
  animationId (fst (forEach count k (update_monster host deltaTime now) e))
  = animationId e.
Proof.
  revert k e. induction count as [| count IH]; intros k e; [split; reflexivity |].
  cbn [forEach].
  destruct (update_monster_scheduler deltaTime now k e) as (A & B & _).
  destruct (update_monster host deltaTime now k e) as [e1 log1]. cbn [fst] in A, B.
  destruct (IH (S k) e1) as [C D].
  destruct (forEach count (S k) _ e1) as [e2 log2]. cbn [fst] in *.
  split; congruence.
Qed.

(** X24. A frame of a running engine stamps the update time, registers one
    new frame request under the next handle and remembers it; a [pause()]
    that follows cancels that request, so that no request of the engine's
    last frame stays pending. *)
Theorem frame_request_cancelled_by_pause (e : Engine) (now : Z) :
  isRunning (state e) = true ->
  nextHandle (scheduler e) <> 0%nat ->
  let h := nextHandle (scheduler e) in
  let e1 := fst (gameLoop host e now) in
  GameEngine.lastUpdateTime (state e1) = now /\
  animationId e1 = Some h /\
  frames (scheduler e1) = (frames (scheduler e) ++ [h])%list /\
  nextHandle (scheduler e1) = S h /\
  animationId (pause e1) = None /\
  ~ In h (frames (scheduler (pause e1))).
Proof.
  intros Hr Hh h e1. subst e1. unfold gameLoop. rewrite Hr. cbn [negb]. cbv zeta.
  set (dt := Qmin _ _). set (e0 := set_lastUpdateTime e now).
  unfold update.
  destruct (forEach_scheduler dt now (List.length (monsters (state e0))) 0 e0) as [Hs Ha].
  assert (Hu : GameEngine.lastUpdateTime
                 (state (fst (forEach (List.length (monsters (state e0))) 0
                                (update_monster host dt now) e0))) = now).
  { generalize (List.length (monsters (state e0))) 0%nat.
    assert (H0 : GameEngine.lastUpdateTime (state e0) = now) by reflexivity.
    revert H0. generalize e0. intros e' H0 count. revert e' H0.
    induction count as [| count IH]; intros e' H0 k; [exact H0 |].
    cbn [forEach].
    assert (H1 : GameEngine.lastUpdateTime
                   (state (fst (update_monster host dt now k e'))) = now).
    { unfold update_monster.
      destruct (nth_error (monsters (state e')) k) as [m |]; [| exact H0].
      destruct (Monster.flag _); [exact H0 |]. cbv zeta.
      destruct (Monster.isAttacking host _ _ _); [| exact H0].
      unfold destroyMonster. cbn [state set_monsters set_state monsters].
      destruct (findIndex _ _) as [j |]; [| exact H0].
      destruct (nth_error _ j); exact H0. }
    destruct (update_monster host dt now k e') as [e1 log1]. cbn [fst] in H1.
    specialize (IH e1 H1 (S k)).
    destruct (forEach count (S k) _ e1) as [e2 log2]. exact IH. }
  destruct (forEach _ 0 _ e0) as [e2 log2]. cbn [fst] in Hs, Ha, Hu.
  unfold requestAnimationFrame. rewrite Hs.
  cbn [fst state animationId scheduler frames nextHandle].
  change (scheduler e0) with (scheduler e). fold h.
  repeat split; try assumption.
  - unfold pause, cancel_pending_frame. cbn [animationId set_isRunning set_state].
    destruct (Nat.eqb_spec h 0); [contradiction | reflexivity].
  - unfold pause, cancel_pending_frame. cbn [animationId set_isRunning set_state].
    destruct (Nat.eqb_spec h 0); [contradiction |].
    cbn [scheduler set_isRunning set_state cancelAnimationFrame frames].
    intro Hin. apply filter_In in Hin. destruct Hin as [_ Hin].
    rewrite Nat.eqb_refl in Hin. discriminate Hin.
Qed.

(** X25. [stop()] empties the list and clears the running flag; a frame
    that runs afterwards changes nothing, and a [start()] that follows runs
    its first tick on the empty list: nothing is logged, no monster comes
    back, the engine runs again. *)
Theorem stop_clears_and_halts (e : Engine) :
  let s := stop e in
  monsters (state s) = [] /\
  isRunning (state s) = false /\
  lastSpawnTime (state s) = lastSpawnTime (state e) /\
  (forall (h : nat) (now : Z),
     state (fst (frame host s h now)) = state s /\ snd (frame host s h now) = []) /\
  (forall now : Z,
     snd (start host s now) = [] /\
     monsters (state (fst (start host s now))) = [] /\
     isRunning (state (fst (start host s now))) = true).
Proof.
  intro s.
  assert (Hst : state s = state (set_monsters (set_isRunning e false) []))
    by apply PauseProps.cancel_pending_frame_state.
  split; [rewrite Hst; reflexivity |].
  split; [rewrite Hst; reflexivity |].
  split; [rewrite Hst; reflexivity |].
  split.
  - intros h now. unfold frame. destruct (List.existsb _ _); [| split; reflexivity].
    rewrite PauseProps.gameLoop_not_running;
      [split; reflexivity | cbn [state]; rewrite Hst; reflexivity].
  - intro now. unfold start, gameLoop, update.
    cbn [isRunning state set_isRunning set_lastUpdateTime set_state negb monsters].
    rewrite Hst. cbn [monsters state set_monsters set_state List.length forEach].
    unfold requestAnimationFrame.
    cbn [fst snd state set_lastUpdateTime set_isRunning set_state monsters isRunning].
    rewrite Hst. repeat split.
Qed.

(** A tick on a list of which the part from index [k] on has no monster in
    contact with the player after its update. *)
Lemma forEach_quiet (deltaTime : Q) (now : Z) (suffix pre : list Monster.Monster)
  (e : Engine) :
  monsters (state e) = (pre ++ suffix)%list ->
  (forall m, In m suffix ->
     Monster.flag (isDestroying (Monster.data m)) = false ->
     Monster.isAttacking host
       (Monster.update m deltaTime (playerPosition (state e)) now)
       (playerPosition (state e)) PLAYER_RADIUS = false) ->
  forEach (List.length suffix) (List.length pre) (update_monster host deltaTime now) e
  = (set_monsters e
       (pre ++ map (advance (playerPosition (state e)) deltaTime now) suffix)%list,
     flat_map (fun m => if Monster.flag (isDestroying (Monster.data m)) then []
                        else [PositionUpdate (id (Monster.data m))]) suffix).
Proof.
  revert pre e. induction suffix as [| m suffix IH]; intros pre e HL Hq.
  - cbn [List.length forEach map flat_map]. rewrite <- HL.
    destruct e as [[pp ms ls lu ir] a sch]. reflexivity.
  - cbn [List.length forEach map flat_map].
    unfold update_monster at 1. rewrite HL, nth_error_middle.
    unfold advance at 1.
    destruct (Monster.flag (isDestroying (Monster.data m))) eqn:Hf.
    + assert (HL' : monsters (state e) = ((pre ++ [m]) ++ suffix)%list)
        by (rewrite <- app_assoc; exact HL).
      specialize (IH (pre ++ [m])%list e HL'
                    (fun m' Hin => Hq m' (or_intror Hin))).
      rewrite length_app, Nat.add_comm in IH. cbn [List.length Nat.add] in IH.
      rewrite IH. rewrite <- app_assoc. reflexivity.
    + cbv zeta.
      change (playerPosition (state (set_monsters e _))) with (playerPosition (state e)).
      rewrite (Hq m (or_introl eq_refl) Hf). rewrite store_middle.
      set (m' := Monster.update m deltaTime (playerPosition (state e)) now).
      set (e1 := set_monsters e (pre ++ m' :: suffix)%list).
      assert (HL' : monsters (state e1) = ((pre ++ [m']) ++ suffix)%list)
        by (rewrite <- app_assoc; reflexivity).
      specialize (IH (pre ++ [m'])%list e1 HL'
                    (fun m0 Hin => Hq m0 (or_intror Hin))).
      rewrite length_app, Nat.add_comm in IH. cbn [List.length Nat.add] in IH.
      rewrite IH. rewrite <- app_assoc. reflexivity.
Qed.

(** X26. When no monster is in contact with the player after its update, a
    tick fires no callback and keeps every monster in its place: those
    being destroyed stay frozen as they are, the others are moved to their
    position at the time of the tick. *)
Theorem quiet_tick_moves_every_live_monster (e : Engine) (deltaTime : Q) (now : Z) :
  (forall m, In m (monsters (state e)) ->
     Monster.flag (isDestroying (Monster.data m)) = false ->
     Monster.isAttacking host
       (Monster.update m deltaTime (playerPosition (state e)) now)
       (playerPosition (state e)) PLAYER_RADIUS = false) ->
  update host e deltaTime now
  = (set_monsters e
       (map (advance (playerPosition (state e)) deltaTime now) (monsters (state e))),
     flat_map (fun m => if Monster.flag (isDestroying (Monster.data m)) then []
                        else [PositionUpdate (id (Monster.data m))])
              (monsters (state e))).
Proof.
  intro Hq. unfold update.
  exact (forEach_quiet deltaTime now (monsters (state e)) [] e eq_refl Hq).
Qed.

End WithHost.

Lemma frame_request_cancelled_by_pause_witness :
  let e := set_isRunning sample_engine true in
  let e1 := fst (gameLoop sample_host e 3500) in
  animationId e1 = Some 1%nat /\ ~ In 1%nat (frames (scheduler (pause e1))).
Proof.
  intros e e1.
  destruct (frame_request_cancelled_by_pause sample_host e 3500)
    as (_ & A & _ & _ & _ & B).
  - reflexivity.
  - vm_compute. discriminate.
  - split; [exact A | exact B].
Defined.

Lemma quiet_tick_moves_every_live_monster_witness :
  List.length (monsters (state (fst (update sample_host sample_engine 0 3500)))) = 3%nat /\
  List.length (snd (update sample_host sample_engine 0 3500)) = 3%nat.
Proof.
  rewrite (quiet_tick_moves_every_live_monster sample_host sample_engine 0 3500).
  - split; reflexivity.
  - intros m [<- | [<- | [<- | []]]] _; vm_compute; reflexivity.
Defined.

End EngineExtras.

(** ** The progression store, further *)

Module StoreExtras.
Import QuestionGenerator GameState.

(** X27. Damage always resets the combo, never takes the health below 0 and
    ends the game exactly when the health reaches 0 (or the game was over
    already); damage of at least the current health does so. It leaves the
    score, the wave and the answer counters alone. *)
Theorem takeDamage_resets_combo_and_ends_game (st : State) (amount : Z) :
  let st' := takeDamage st amount in
  combo st' = 0 /\
  0 <= health st' /\
  (phase st' = gameOver <-> health st' = 0 \/ phase st = gameOver) /\
  (health st <= amount -> health st' = 0 /\ phase st' = gameOver) /\
  (0 <= amount -> 0 <= health st -> health st' <= health st) /\
  score st' = score st /\ wave st' = wave st /\ maxCombo st' = maxCombo st /\
  questionsAnswered st' = questionsAnswered st.
Proof.
  unfold takeDamage.
  cbn [set_health_combo_phase combo health phase score wave maxCombo questionsAnswered].
  split; [reflexivity | split; [lia |]].
  split; [| split; [| split; [lia | repeat split]]].
  - destruct (Z.leb_spec (Z.max 0 (health st - amount)) 0); split; intro H0.
    + left. lia.
    + reflexivity.
    + right. exact H0.
    + destruct H0 as [H0 | H0]; [lia | exact H0].
  - intro Hle. split; [lia |].
    destruct (Z.leb_spec (Z.max 0 (health st - amount)) 0); [reflexivity | lia].
Qed.

Lemma takeDamage_resets_combo_and_ends_game_witness :
  let st := fst (answerQuestion (setCurrentQuestion initial None) 0) in
  health (takeDamage st 5) = 0 /\ phase (takeDamage st 5) = gameOver.
Proof.
  intro st.
  apply (proj1 (proj2 (proj2 (proj2 (takeDamage_resets_combo_and_ends_game st 5))))).
  vm_compute. discriminate.
Defined.

(** X28. A wrong answer resets the combo, leaves the score as it is and
    counts as answered and wrong; a right answer counts as answered and
    correct; in both cases the current question stays. Without a current
    question [answerQuestion] reports false and changes nothing. *)
Theorem answerQuestion_bookkeeping (st : State) (a : Z) :
  (currentQuestion st = None -> answerQuestion st a = (st, false)) /\
  (forall q : Question,
     currentQuestion st = Some q ->
     let st' := fst (answerQuestion st a) in
     snd (answerQuestion st a) = (a =? QuestionGenerator.answer q) /\
     currentQuestion st' = Some q /\
     questionsAnswered st' = questionsAnswered st + 1 /\
     correctAnswers st' + wrongAnswers st' = correctAnswers st + wrongAnswers st + 1 /\
     health st' = health st /\ phase st' = phase st /\ wave st' = wave st /\
     (a <> QuestionGenerator.answer q ->
      combo st' = 0 /\ score st' = score st /\ maxCombo st' = Z.max (maxCombo st) 0 /\
      wrongAnswers st' = wrongAnswers st + 1) /\
     (a = QuestionGenerator.answer q ->
      combo st' = combo st + 1 /\ correctAnswers st' = correctAnswers st + 1)).
Proof.
  split.
  - intro H. unfold answerQuestion. rewrite H. reflexivity.
  - intros q Hq. unfold answerQuestion. rewrite Hq.
    cbn [fst snd currentQuestion questionsAnswered correctAnswers wrongAnswers health
         phase wave combo score maxCombo].
    destruct (Z.eqb_spec a (QuestionGenerator.answer q)) as [E | N];
      repeat split; try assumption; try lia; intro; try contradiction; try lia.
Qed.

Lemma answerQuestion_bookkeeping_witness :
  let q := {| QuestionGenerator.id := "q_1_0"; text := "2 + 3 = ?";
              QuestionGenerator.answer := 5; QuestionGenerator.difficulty := easy;
              type := "addition"; QuestionGenerator.timeLimit := 30000;
              explanation := None; category := Some "arithmetic" |} in
  let st := setCurrentQuestion (addScore initial 40) (Some q) in
  answerQuestion initial 5 = (initial, false) /\
  combo (fst (answerQuestion st 6)) = 0 /\ score (fst (answerQuestion st 6)) = 40.
Proof.
  intros q st. split.
  - apply (proj1 (answerQuestion_bookkeeping initial 5)). reflexivity.
  - destruct (proj2 (answerQuestion_bookkeeping st 6) q eq_refl)
      as (_ & _ & _ & _ & _ & _ & _ & W & _).
    destruct W as (A & B & _); [discriminate |].
    split; [exact A | exact B].
Defined.

(** What each call of a session keeps. *)
Lemma step_consistent (c : GameStore.Call) (s : GameStore.Store) :
  GameStore.well_formed c -> GameStore.consistent s ->
  GameStore.consistent (GameStore.step c s).
Proof.
  unfold GameStore.consistent. intros Hw (Hmax & Hh & Hc & Hm & Hq & Hwr & Hs & Hwv).
  destruct c as [a | amount | amount | points | ty now | q | |];
    cbn [GameStore.step GameStore.well_formed] in *.
  - unfold GameStore.answerQuestion, answerQuestion.
    destruct (currentQuestion (GameStore.game s)) as [q |];
      cbn [fst GameStore.game GameStore.with_game];
      [| repeat split; assumption || lia].
    cbn [maxHealth health combo maxCombo correctAnswers questionsAnswered wrongAnswers
         score wave].
    unfold comboMultiplier.
    destruct (a =? QuestionGenerator.answer q).
    + assert (0 <= (combo (GameStore.game s) + 1) / 5)
        by (apply Z.div_pos; lia).
      assert (0 <= basePoints (QuestionGenerator.difficulty q))
        by (destruct (QuestionGenerator.difficulty q); cbn; lia).
      repeat split; try lia; nia.
    + repeat split; lia.
  - unfold GameStore.takeDamage, takeDamage.
    cbn [GameStore.game GameStore.with_game set_health_combo_phase maxHealth health combo
         maxCombo correctAnswers questionsAnswered wrongAnswers score wave].
    repeat split; lia.
  - unfold GameStore.heal, heal.
    cbn [GameStore.game GameStore.with_game set_health_combo_phase maxHealth health combo
         maxCombo correctAnswers questionsAnswered wrongAnswers score wave].
    repeat split; lia.
  - unfold GameStore.addScore, addScore.
    cbn [GameStore.game GameStore.with_game maxHealth health combo
         maxCombo correctAnswers questionsAnswered wrongAnswers score wave].
    repeat split; lia.
  - unfold GameStore.usePowerUp.
    destruct (find _ _) as [p |]; [destruct (GameStore.pu_type p =? "heal")%string |];
      unfold GameStore.heal, heal;
      cbn [GameStore.game GameStore.with_game set_health_combo_phase maxHealth health
           combo maxCombo correctAnswers questionsAnswered wrongAnswers score wave];
      repeat split; lia.
  - cbn [GameStore.game GameStore.with_game setCurrentQuestion maxHealth health combo
         maxCombo correctAnswers questionsAnswered wrongAnswers score wave].
    repeat split; lia.
  - cbn [GameStore.nextWave GameStore.game advanceWave maxHealth health combo
         maxCombo correctAnswers questionsAnswered wrongAnswers score wave].
    repeat split; lia.
  - cbn [GameStore.resetGame GameStore.game resetCounters maxHealth health combo
         maxCombo correctAnswers questionsAnswered wrongAnswers score wave].
    repeat split; lia.
Qed.

(** X29. Through any session of store calls with amounts that are not
    negative, from the initial store: the health stays between 0 and the
    maximum of 5, the combo between 0 and the best combo, the best combo at
    most the number of correct answers, the answered questions are the
    correct plus the wrong ones, the score is not negative and the wave is
    at least 1. *)
Theorem session_keeps_counters_consistent (cs : list GameStore.Call) :
  Forall GameStore.well_formed cs ->
  GameStore.consistent (GameStore.run cs GameStore.initial).
Proof.
  intro Hw. unfold GameStore.run.
  assert (H0 : GameStore.consistent GameStore.initial)
    by (unfold GameStore.consistent; cbn; repeat split; lia).
  revert H0. generalize GameStore.initial.
  induction Hw as [| c cs Hc Hcs IH]; intros s Hs; [exact Hs |].
  cbn [fold_left]. apply IH. apply step_consistent; assumption.
Qed.

Lemma session_keeps_counters_consistent_witness :
  GameStore.consistent
    (GameStore.run [GameStore.TakeDamage 2; GameStore.UsePowerUp "heal" 30000;
                    GameStore.AddScore 5; GameStore.NextWave; GameStore.TakeDamage 3;
                    GameStore.Heal 2]
                   GameStore.initial).
Proof.
  apply session_keeps_counters_consistent.
  repeat constructor; cbn; lia.
Defined.

Lemma use_on_cooldown (now : Z) (type : string) (ps : list GameStore.PowerUp) :
  (forall p, In p ps -> GameStore.pu_type p = type ->
             now - GameStore.lastUsed p < GameStore.cooldown p) ->
  map (GameStore.use now type) ps = ps.
Proof.
  intro H. induction ps as [| p ps IH]; [reflexivity |].
  cbn [map]. rewrite IH by (intros p' Hin; apply H; right; exact Hin).
  f_equal. unfold GameStore.use.
  destruct (String.eqb_spec (GameStore.pu_type p) type) as [E | _]; [| reflexivity].
  specialize (H p (or_introl eq_refl) E).
  destruct (Z.geb_spec (now - GameStore.lastUsed p) (GameStore.cooldown p));
    [lia | reflexivity].
Qed.

Lemma find_type (type : string) (ps : list GameStore.PowerUp) :
  (exists p, In p ps /\ GameStore.pu_type p = type) ->
  exists p, find (fun p => (GameStore.pu_type p =? type)%string) ps = Some p
            /\ GameStore.pu_type p = type.
Proof.
  intros (p & Hin & Hp). induction ps as [| p0 ps IH]; [contradiction |].
  cbn [find]. destruct (String.eqb_spec (GameStore.pu_type p0) type) as [E | N].
  - exists p0. split; [reflexivity | exact E].
  - destruct Hin as [-> | Hin]; [contradiction |]. apply IH. exact Hin.
Qed.

Lemma find_no_type (type : string) (ps : list GameStore.PowerUp) :
  (forall p, In p ps -> GameStore.pu_type p <> type) ->
  find (fun p => (GameStore.pu_type p =? type)%string) ps = None.
Proof.
  intro Hno. induction ps as [| p ps IH]; [reflexivity |].
  cbn [find]. destruct (String.eqb_spec (GameStore.pu_type p) type) as [E | _].
  - exfalso. exact (Hno p (or_introl eq_refl) E).
  - apply IH. intros p' Hin. apply Hno. right. exact Hin.
Qed.

(** X30. The heal power-up heals even while it is cooling down: with every
    heal power-up of the store used less than its cooldown ago,
    [usePowerUp("heal")] leaves the power-ups as they are, not activated
    and not re-stamped, and still restores 2 health points, up to the
    maximum. A type no power-up has changes nothing. *)
Theorem heal_power_up_ignores_cooldown (s : GameStore.Store) (now : Z) :
  ((exists p, In p (GameStore.powerUps s) /\ GameStore.pu_type p = "heal") ->
   (forall p, In p (GameStore.powerUps s) -> GameStore.pu_type p = "heal" ->
              now - GameStore.lastUsed p < GameStore.cooldown p) ->
   let s' := GameStore.usePowerUp s "heal" now in
   GameStore.powerUps s' = GameStore.powerUps s /\
   health (GameStore.game s')
   = Z.min (maxHealth (GameStore.game s)) (health (GameStore.game s) + 2) /\
   GameStore.monsters s' = GameStore.monsters s) /\
  (forall type : string,
     (forall p, In p (GameStore.powerUps s) -> GameStore.pu_type p <> type) ->
     GameStore.usePowerUp s type now = s).
Proof.
  split.
  - intros Hex Hcool s'. subst s'. unfold GameStore.usePowerUp.
    cbn [GameStore.powerUps]. rewrite (use_on_cooldown now "heal" _ Hcool).
    destruct (find_type "heal" (GameStore.powerUps s) Hex) as (p & -> & Hp).
    rewrite Hp. cbn [String.eqb Ascii.eqb Bool.eqb andb].
    repeat split.
  - intros type Hno. unfold GameStore.usePowerUp. cbn [GameStore.powerUps].
    assert (Hm : map (GameStore.use now type) (GameStore.powerUps s)
                 = GameStore.powerUps s).
    { apply use_on_cooldown. intros p Hin Hp. exfalso. exact (Hno p Hin Hp). }
    rewrite Hm.
    rewrite (find_no_type type _ Hno). destruct s. reflexivity.
Qed.

Lemma heal_power_up_ignores_cooldown_witness :
  let s := GameStore.usePowerUp (GameStore.takeDamage GameStore.initial 3) "heal" 20000 in
  let s' := GameStore.usePowerUp s "heal" 20001 in
  GameStore.powerUps s' = GameStore.powerUps s /\
  health (GameStore.game s') = 5.
Proof.
  intros s s'.
  destruct (proj1 (heal_power_up_ignores_cooldown s 20001)) as (A & B & _).
  - exists (nth 2 (GameStore.powerUps s) (nth 0 GameStore.initialPowerUps
                                             (GameStore.mkPowerUp "" "" "" "" false 0 0 0))).
    split; [right; right; left; reflexivity | reflexivity].
  - intros p [<- | [<- | [<- | [<- | []]]]] E; try discriminate E. vm_compute. reflexivity.
  - split; [exact A | unfold s'; rewrite B; reflexivity].
Defined.

End StoreExtras.
